(** * oemof.solph: sequences, component blocks and the operational model

    A shallow embedding of [src/oemof/solph/plumbing.py] and
    [src/oemof/solph/components.py].

    Conventions of the embedding.
    - Python numbers ([int], [float]) are exact rationals ([float] below);
      rounding is not modelled.
    - A Python call that may raise returns a [result]; a method that also
      mutates its receiver returns the receiver's new state next to it.
    - Python [int] indices are [Z]: negative ones count from the end of a
      list, as in Python.
    - Nodes of the energy system are identified by their label.
    - pyomo is the algebraic layer the blocks emit into: its expressions are
      terms ([expr]), a relational expression is a [constraint], an indexed
      [Var] or [Constraint] is a finite map from indices. *)

From Stdlib Require Import QArith Lqa ZArith Lia.
From stdpp Require Import gmap strings list fin_maps.

Abbreviation float := Q.
Abbreviation node := string.

(** ** Exceptions and results *)

Inductive exn :=
| IndexError | KeyError | TypeError | ValueError | AttributeError
| ZeroDivisionError | LinAlgError | RuntimeError | NameError.

Inductive result (A : Type) :=
| Ok (a : A)
| Raise (e : exn).
Arguments Ok {A} a.
Arguments Raise {A} e.

#[global] Instance exn_eq_dec : EqDecision exn.
Proof. solve_decision. Defined.

#[global] Instance result_ret : MRet result := @Ok.
#[global] Instance result_bind : MBind result :=
  λ A B f r, match r with Ok a => f a | Raise e => Raise e end.

Definition is_Ok {A} (r : result A) : Prop := ∃ a, r = Ok a.

(** The same as a test, for running the embedding. *)
Definition succeeds {A} (r : result A) : bool :=
  match r with Ok _ => true | Raise _ => false end.

(** ** Python built-ins used by the two modules *)

Module py.

(** [range(n)] *)
Definition range (n : nat) : list Z := Z.of_nat <$> seq 0 n.

(** Position addressed by [l[key]]: [key] itself when [0 <= key < len(l)],
    [key + len(l)] when [-len(l) <= key < 0], [IndexError] otherwise. *)
Definition index {A} (l : list A) (key : Z) : result nat :=
  let n := Z.of_nat (length l) in
  if bool_decide (0 ≤ key < n)%Z then Ok (Z.to_nat key)
  else if bool_decide (- n ≤ key < 0)%Z then Ok (Z.to_nat (key + n))
  else Raise IndexError.

(** [l[key]] *)
Definition getitem {A} (l : list A) (key : Z) : result A :=
  i ← index l key;
  match l !! i with
  | Some x => Ok x
  | None => Raise IndexError
  end.

(** [l[key] = v] *)
Definition setitem {A} (l : list A) (key : Z) (v : A) : result (list A) :=
  i ← index l key; Ok (<[i:=v]> l).

(** [[x] * n]: the empty list when [n <= 0]. *)
Definition repeat {A} (x : A) (n : Z) : list A := replicate (Z.to_nat n) x.

(** [dict(pairs)]: a later pair replaces an earlier one with its key. *)
Definition dict `{Countable K} {V} (pairs : list (K * V)) : gmap K V :=
  foldl (λ d kv, <[kv.1 := kv.2]> d) ∅ pairs.

(** [d[k]] on a dict *)
Definition lookup `{Countable K} {V} (d : gmap K V) (k : K) : result V :=
  match d !! k with
  | Some v => Ok v
  | None => Raise KeyError
  end.

(** [x / y] on numbers *)
Definition div (x y : float) : result float :=
  if Qeq_bool y 0 then Raise ZeroDivisionError else Ok (x / y)%Q.

(** [[f(x) for x in l]], stopping at the first exception. *)
Fixpoint comprehension {A B} (f : A → result B) (l : list A)
    : result (list B) :=
  match l with
  | [] => Ok []
  | x :: l' => y ← f x; ys ← comprehension f l'; Ok (y :: ys)
  end.

(** [[x for x in l if p(x)]], stopping at the first exception. *)
Fixpoint select {A} (p : A → result bool) (l : list A) : result (list A) :=
  match l with
  | [] => Ok []
  | x :: l' =>
      b ← p x; xs ← select p l'; Ok (if b : bool then x :: xs else xs)
  end.

(** [sum(l)] *)
Definition sum (l : list float) : float := foldl Qplus 0%Q l.

(** [max(l)] on a list of integers: [ValueError] on the empty list. *)
Definition max (l : list Z) : result Z :=
  match l with
  | [] => Raise ValueError
  | x :: l' => Ok (foldl Z.max x l')
  end.

(** A dict whose order of insertion matters is a list of pairs with distinct
    keys: [d[k]], [list(d.keys())], [list(d.values())]. *)
Definition odict (K V : Type) : Type := list (K * V).

Fixpoint assoc `{EqDecision K} {V} (d : odict K V) (k : K) : result V :=
  match d with
  | [] => Raise KeyError
  | (k', v) :: d' => if decide (k' = k) then Ok v else assoc d' k
  end.

Definition keys {K V} (d : odict K V) : list K := d.*1.
Definition values {K V} (d : odict K V) : list V := d.*2.

End py.

(** ** plumbing.py: [_Sequence] and [Sequence] *)

Module plumbing.

(** [class _Sequence(UserList)]: the materialised list [data] and the
    [default] that fills new slots. *)
Record _Sequence (A : Type) := { default : A; data : list A }.
Arguments default {A} _.
Arguments data {A} _.

(** [self.data.extend([self.default] * (key - len(self.data) + 1))] *)
Definition extend_to {A} (self : _Sequence A) (key : Z) : _Sequence A :=
  {| default := default self;
     data := data self ++
             py.repeat (default self)
                       (key - Z.of_nat (length (data self)) + 1) |}.

(** [_Sequence.__getitem__]: the state of [self] afterwards and the value
    returned or the exception raised. Only [IndexError] is caught. *)
Definition __getitem__ {A} (self : _Sequence A) (key : Z)
    : _Sequence A * result A :=
  match py.getitem (data self) key with
  | Ok v => (self, Ok v)
  | Raise IndexError =>
      let self' := extend_to self key in
      (self', py.getitem (data self') key)
  | Raise e => (self, Raise e)
  end.

(** [_Sequence.__setitem__] *)
Definition __setitem__ {A} (self : _Sequence A) (key : Z) (value : A)
    : _Sequence A * result unit :=
  match py.setitem (data self) key value with
  | Ok d => ({| default := default self; data := d |}, Ok ())
  | Raise IndexError =>
      let self' := extend_to self key in
      match py.setitem (data self') key value with
      | Ok d => ({| default := default self; data := d |}, Ok ())
      | Raise e => (self', Raise e)
      end
  | Raise e => (self, Raise e)
  end.

(** [len(s)] of a [UserList] *)
Definition __len__ {A} (self : _Sequence A) : Z :=
  Z.of_nat (length (data self)).

(** The numeric parameters handed to the components: a scalar ([int] or
    [float]), a list of numbers, or a [_Sequence] of numbers. *)
Inductive pyobj :=
| PyNum (x : float)
| PyList (l : list float)
| PySeq (s : _Sequence float).

(** [Sequence(sequence_or_scalar)]: an iterable is returned as it is, a
    scalar is wrapped in a [_Sequence] with nothing materialised yet. *)
Definition Sequence (sequence_or_scalar : pyobj) : pyobj :=
  match sequence_or_scalar with
  | PyNum d => PySeq {| default := d; data := [] |}
  | o => o
  end.

(** [isinstance(a, (int, float))] *)
Definition is_number (a : pyobj) : bool :=
  match a with PyNum _ => true | _ => false end.

(** [len(a)]: a number has no length. *)
Definition len (a : pyobj) : result Z :=
  match a with
  | PyNum _ => Raise TypeError
  | PyList l => Ok (Z.of_nat (length l))
  | PySeq s => Ok (__len__ s)
  end.

(** [a[key]] with the state of [a] afterwards: a number is not
    subscriptable, a list is read, a [_Sequence] is read through
    [__getitem__] and may grow. *)
Definition subscript (a : pyobj) (key : Z) : pyobj * result float :=
  match a with
  | PyNum _ => (a, Raise TypeError)
  | PyList l => (a, py.getitem l key)
  | PySeq s => let '(s', r) := __getitem__ s key in (PySeq s', r)
  end.

(** The value read by [a[key]]. *)
Definition read (a : pyobj) (key : Z) : result float := (subscript a key).2.

(** The states of a [_Sequence] made by wrapping the scalar [d]: the fresh
    one, and what reads and writes make of it. *)
Inductive wrapped {A} (d : A) : _Sequence A → Prop :=
| wrapped_fresh : wrapped d {| default := d; data := [] |}
| wrapped_read s key : wrapped d s → wrapped d (__getitem__ s key).1
| wrapped_write s key v : wrapped d s → wrapped d (__setitem__ s key v).1.

(** The states reached by reads alone. *)
Inductive only_read {A} (d : A) : _Sequence A → Prop :=
| only_read_fresh : only_read d {| default := d; data := [] |}
| only_read_read s key : only_read d s → only_read d (__getitem__ s key).1.

(** Every materialised slot holds the default. *)
Definition constant {A} (s : _Sequence A) : Prop :=
  ∀ i x, data s !! i = Some x → x = default s.

End plumbing.

(** ** pyomo: variables, expressions, constraints *)

Module klass.
(** The constraint-block classes: the seven of
    [OperationalModel.CONSTRAINT_GROUPS] (module [blocks]) and the four of
    components.py. *)
Inductive t :=
| Bus | LinearTransformer | Storage | InvestmentFlow | InvestmentStorage
| Flow | Discrete
| GenericStorageBlock | GenericInvestmentStorageBlock
| GenericCHPBlock | ExtractionTurbineCHPBlock.

#[global] Instance eq_dec : EqDecision t.
Proof. solve_decision. Defined.
End klass.

Module Var.
(** The decision variables: the model's [flow[i, o, t]], a storage block's
    [capacity[n, t]] and [invest[n]], [InvestmentFlow.invest[i, o]], and the
    variables of the GenericCHP block. *)
Inductive t :=
| flow (i o : node) (t : Z)
| capacity (b : klass.t) (n : node) (t : Z)
| invest (b : klass.t) (n : node)
| flow_invest (i o : node)
| H_F (n : node) (t : Z)
| H_L_FG_max (n : node) (t : Z)
| H_L_FG_min (n : node) (t : Z)
| P_woDH (n : node) (t : Z)
| P (n : node) (t : Z)
| Q (n : node) (t : Z)
| Y (n : node) (t : Z).
End Var.

Module pyomo.

Inductive expr :=
| Const (c : float)
| V (v : Var.t)
| Add (a b : expr)
| Neg (a : expr)
| Mul (a b : expr)
| Div (a b : expr).

Inductive sense := EQ | LE | GE.

(** A relational expression [lhs == rhs], [lhs <= rhs] or [lhs >= rhs]. *)
Record constraint := { lhs : expr; rel : sense; rhs : expr }.

Fixpoint eval (ρ : Var.t → float) (e : expr) : float :=
  match e with
  | Const c => c
  | V v => ρ v
  | Add a b => eval ρ a + eval ρ b
  | Neg a => - eval ρ a
  | Mul a b => eval ρ a * eval ρ b
  | Div a b => eval ρ a / eval ρ b
  end%Q.

(** The assignment [ρ] of the variables satisfies the constraint. *)
Definition holds (ρ : Var.t → float) (c : constraint) : Prop :=
  match rel c with
  | EQ => eval ρ (lhs c) == eval ρ (rhs c)
  | LE => eval ρ (lhs c) <= eval ρ (rhs c)
  | GE => eval ρ (rhs c) <= eval ρ (lhs c)
  end%Q.

(** An index of a component: [(n, t)] or a single [n]. *)
Definition index : Type := node * option Z.
Definition at_ (n : node) (t : Z) : index := (n, Some t).
Definition at1 (n : node) : index := (n, None).

(** The cross product [S × T] in pyomo's iteration order. *)
Definition product {A} (S : list A) (T : list Z) : list (A * Z) :=
  n ← S; t ← T; [(n, t)].

(** One variable of an indexed [Var]. *)
Record VarData := {
  lb : option float;
  ub : option float;
  value : option float;
  fixed : bool
}.

(** [Var(indices, within=..., bounds=rule)]: the rule is called at every
    index object; [key] is the index the object stands for. *)
Fixpoint Var_ {I} (key : I → index) (indices : list I)
    (bounds : I → result (option float * option float))
    : result (gmap index VarData) :=
  match indices with
  | [] => Ok ∅
  | i :: rest =>
      b ← bounds i;
      vs ← Var_ key rest bounds;
      Ok (<[key i :=
              {| lb := b.1; ub := b.2; value := None; fixed := false |}]> vs)
  end.

(** [component[i] = v; component[i].fix()] *)
Definition fix_value (v : float) (d : VarData) : VarData :=
  {| lb := lb d; ub := ub d; value := Some v; fixed := true |}.

(** [Constraint(indices, rule=rule)]: the rule is called at every index, in
    order; [Constraint.Skip] ([None]) leaves the index without constraint;
    an exception of the rule aborts the construction. *)
Fixpoint Constraint_from {I} (key : I → index) (indices : list I)
    (rule : I → result (option constraint))
    (built : gmap index constraint) : result (gmap index constraint) :=
  match indices with
  | [] => Ok built
  | i :: rest =>
      c ← rule i;
      Constraint_from key rest rule
        (match c with Some c => <[key i := c]> built | None => built end)
  end.

Definition Constraint {I} (key : I → index) (indices : list I)
    (rule : I → result (option constraint))
    : result (gmap index constraint) :=
  Constraint_from key indices rule ∅.

(** [component[i]] on an indexed component *)
Definition item {A} (component : gmap index A) (i : index) : result A :=
  py.lookup component i.

End pyomo.


(** ** The classes the two modules import *)

Module Investment.
(** Modelled from the spec: the [Investment] class of oemof.solph is not in
    src/. It carries a cap on the investable size ([None]: no cap) and a
    per-unit annualised cost. *)
Record t := { maximum : option float; ep_costs : option float }.
(** Modelled from the spec: [Investment()], which is given neither. *)
Definition new : t := {| maximum := None; ep_costs := None |}.
End Investment.

(** A [Flow] object: the two attributes components.py tests and assigns, and
    the keyword attributes ([P_min_woDH], [Q_CW_min], ...) it reads as series.
    The class itself is not in src/. *)
Module Flow.
Record t := {
  nominal_value : option float;
  investment : option Investment.t;
  attrs : gmap string plumbing.pyobj
}.

Definition set_nominal_value (v : option float) (f : t) : t :=
  {| nominal_value := v; investment := investment f; attrs := attrs f |}.
Definition set_investment (v : option Investment.t) (f : t) : t :=
  {| nominal_value := nominal_value f; investment := v; attrs := attrs f |}.
Definition set_attr (name : string) (a : plumbing.pyobj) (f : t) : t :=
  {| nominal_value := nominal_value f; investment := investment f;
     attrs := <[name := a]> (attrs f) |}.

(** [flow.name]: [AttributeError] when the flow has no such attribute. *)
Definition getattr (name : string) (f : t) : result plumbing.pyobj :=
  match attrs f !! name with
  | Some a => Ok a
  | None => Raise AttributeError
  end.
End Flow.

(** A method is a function of the state of its receiver: it returns the new
    state with a value or an exception. *)
Definition method (S A : Type) : Type := S → S * result A.

#[global] Instance method_ret {S} : MRet (method S) := λ A a s, (s, Ok a).
#[global] Instance method_bind {S} : MBind (method S) :=
  λ A B f m s,
    match m s with
    | (s', Ok a) => f a s'
    | (s', Raise e) => (s', Raise e)
    end.

Definition lift {S A} (r : result A) : method S A := λ s, (s, r).

(** [not self.x is None] and the truth value of an optional object. *)
Definition not_None {A} (o : option A) : bool :=
  match o with Some _ => true | None => false end.

(** Flow objects are shared between the nodes they connect: they live in a
    heap and a node's [inputs] and [outputs] hold references. *)
Abbreviation loc := nat.
Abbreviation heap := (gmap loc Flow.t).

(** ** components.py: [GenericStorage] *)

Module GenericStorage.

Record t := {
  label : node;
  inputs : py.odict node loc;
  outputs : py.odict node loc;
  nominal_capacity : option float;
  nominal_input_capacity_ratio : option float;
  nominal_output_capacity_ratio : option float;
  initial_capacity : option float;
  capacity_loss : plumbing.pyobj;
  inflow_conversion_factor : plumbing.pyobj;
  outflow_conversion_factor : plumbing.pyobj;
  capacity_max : plumbing.pyobj;
  capacity_min : plumbing.pyobj;
  investment : option Investment.t
}.

(** The keyword arguments of the constructor; [None] is an absent keyword.
    [label], [inputs] and [outputs] are consumed by [network.Transformer]. *)
Record kwargs := {
  kw_label : node;
  kw_inputs : py.odict node loc;
  kw_outputs : py.odict node loc;
  kw_nominal_capacity : option float;
  kw_nominal_input_capacity_ratio : option float;
  kw_nominal_output_capacity_ratio : option float;
  kw_initial_capacity : option float;
  kw_capacity_loss : option plumbing.pyobj;
  kw_inflow_conversion_factor : option plumbing.pyobj;
  kw_outflow_conversion_factor : option plumbing.pyobj;
  kw_capacity_max : option plumbing.pyobj;
  kw_capacity_min : option plumbing.pyobj;
  kw_investment : option Investment.t
}.

(** The body of [for flow in self.inputs.values()] (lines 138-150) and of
    [for flow in self.outputs.values()] (lines 153-165), which differ in the
    capacity ratio only. A reference that is not in the heap cannot occur in
    Python; here it ends the loop with [KeyError]. *)
Definition check_flow (self : t) (ratio : option float) (r : loc)
    : method heap unit :=
  λ h,
    match h !! r with
    | None => (h, Raise KeyError)
    | Some flow =>
        if not_None (investment self) && not_None (Flow.nominal_value flow)
        then (h, Raise AttributeError)
        else if not_None (Flow.nominal_value flow) && not_None ratio
        then (h, Raise AttributeError)
        else
          let assigned :=
            if negb (not_None (investment self)) && not_None ratio then
              match ratio, nominal_capacity self with
              | Some x, Some c => Ok (Flow.set_nominal_value (Some (x * c)%Q) flow)
              | _, _ => Raise TypeError
              end
            else Ok flow in
          match assigned with
          | Raise e => (h, Raise e)
          | Ok flow =>
              let flow :=
                if not_None (investment self) then
                  if not_None (Flow.investment flow) then flow
                  else Flow.set_investment (Some Investment.new) flow
                else flow in
              (<[r := flow]> h, Ok ())
          end
    end.

(** What lines 148-150 and 163-165 make of a flow: a flow without an
    [Investment] is given [Investment()]. *)
Definition attach (f : Flow.t) : Flow.t :=
  if not_None (Flow.investment f) then f
  else Flow.set_investment (Some Investment.new) f.

Fixpoint check_flows (self : t) (ratio : option float) (flows : list loc)
    : method heap unit :=
  match flows with
  | [] => mret ()
  | r :: rest => check_flow self ratio r ≫= λ _, check_flows self ratio rest
  end.

(** Lines 108-124 of [GenericStorage.__init__]: the attributes of [self]. *)
Definition attributes (kw : kwargs) : t :=
  {| label := kw_label kw;
     inputs := kw_inputs kw;
     outputs := kw_outputs kw;
     nominal_capacity := kw_nominal_capacity kw;
     nominal_input_capacity_ratio := kw_nominal_input_capacity_ratio kw;
     nominal_output_capacity_ratio := kw_nominal_output_capacity_ratio kw;
     initial_capacity := kw_initial_capacity kw;
     capacity_loss :=
       plumbing.Sequence (default (plumbing.PyNum 0) (kw_capacity_loss kw));
     inflow_conversion_factor :=
       plumbing.Sequence
         (default (plumbing.PyNum 1) (kw_inflow_conversion_factor kw));
     outflow_conversion_factor :=
       plumbing.Sequence
         (default (plumbing.PyNum 1) (kw_outflow_conversion_factor kw));
     capacity_max :=
       plumbing.Sequence (default (plumbing.PyNum 1) (kw_capacity_max kw));
     capacity_min :=
       plumbing.Sequence (default (plumbing.PyNum 0) (kw_capacity_min kw));
     investment := kw_investment kw |}.

(** [GenericStorage.__init__]: the checks of lines 134-165 on the heap of
    flows, then [self]. *)
Definition __init__ (kw : kwargs) : method heap t :=
  let self := attributes kw in
  if not_None (investment self) && not_None (nominal_capacity self)
  then lift (Raise AttributeError)
  else
    check_flows self (nominal_input_capacity_ratio self)
                (py.values (inputs self)) ≫= λ _,
    check_flows self (nominal_output_capacity_ratio self)
                (py.values (outputs self)) ≫= λ _,
    mret self.

End GenericStorage.

(** ** numpy *)

Module numpy.

(** [numpy.linalg.solve(A, b)] for [A = [[a11, a12], [a21, a22]]] and
    [b = [b1, b2]], computed exactly: [LinAlgError] when [A] is singular. *)
Definition linalg_solve (a11 a12 a21 a22 b1 b2 : float)
    : result (float * float) :=
  let det := (a11 * a22 - a12 * a21)%Q in
  if Qeq_bool det 0 then Raise LinAlgError
  else Ok ((b1 * a22 - a12 * b2) / det, (a11 * b2 - b1 * a21) / det)%Q.

End numpy.

(** ** components.py: [GenericCHP] *)

Module GenericCHP.

Record t := {
  label : node;
  fuel_input : py.odict node Flow.t;
  electrical_output : py.odict node Flow.t;
  heat_output : py.odict node Flow.t;
  Beta : plumbing.pyobj;
  (** [kwargs.get('back_pressure')]: [None] when the keyword is absent *)
  back_pressure : option bool;
  _alphas : option (list float * list float)
}.

(** [flow.name[i]] on the electrical flow: reading a [_Sequence] attribute
    may grow it. *)
Definition attr_item (name : string) (i : Z) : method Flow.t float :=
  λ flow,
    match Flow.attrs flow !! name with
    | None => (flow, Raise AttributeError)
    | Some a =>
        let '(a', r) := plumbing.subscript a i in
        (Flow.set_attr name a' flow, r)
    end.

(** [all(len(a) == max_length for a in attrs)]: stops at the first [False];
    [len] of a number raises. *)
Fixpoint all_len (attrs : list plumbing.pyobj) (max_length : Z)
    : result bool :=
  match attrs with
  | [] => Ok true
  | a :: rest =>
      n ← plumbing.len a;
      if bool_decide (n = max_length) then all_len rest max_length
      else Ok false
  end.

(** The body of [for i in range(0, max_length)] (lines 596-604): the pair
    [(x[0], x[1])] appended to [alphas[0]] and [alphas[1]]. *)
Definition alpha_step (i : Z) : method Flow.t (float * float) :=
  a12 ← attr_item "P_min_woDH" i;
  a22 ← attr_item "P_max_woDH" i;
  p_min ← attr_item "P_min_woDH" i;
  eta_min ← attr_item "Eta_el_min_woDH" i;
  b1 ← lift (py.div p_min eta_min);
  p_max ← attr_item "P_max_woDH" i;
  eta_max ← attr_item "Eta_el_max_woDH" i;
  b2 ← lift (py.div p_max eta_max);
  lift (numpy.linalg_solve 1 a12 1 a22 b1 b2).

Fixpoint alpha_loop (steps : list Z)
    : method Flow.t (list float * list float) :=
  match steps with
  | [] => mret ([], [])
  | i :: rest =>
      x ← alpha_step i;
      alphas ← alpha_loop rest;
      mret (x.1 :: alphas.1, x.2 :: alphas.2)
  end.

(** The four attributes [attrs] is built from (lines 583-586). *)
Definition alpha_attrs : list string :=
  ["P_min_woDH"; "Eta_el_min_woDH"; "P_max_woDH"; "Eta_el_max_woDH"].

(** [_calculate_alphas] on the flow [self.electrical_output[eb]]: the flow
    afterwards and the value assigned to [self._alphas]. The length test of
    lines 588-594 and 605-608 comes first, then the loop. *)
Definition checked_length (flow : Flow.t) : result Z :=
  attrs ← py.comprehension (λ name, Flow.getattr name flow) alpha_attrs;
  length ← py.comprehension plumbing.len
             (filter (λ a, plumbing.is_number a = false) attrs);
  max_length ← py.max length;
  same ← all_len attrs max_length;
  if same : bool then
    Ok (if bool_decide (max_length = 0%Z) then (max_length + 1)%Z
        else max_length)
  else Raise ValueError.

Definition calculate_alphas : method Flow.t (list float * list float) :=
  λ flow,
    match checked_length flow with
    | Raise e => (flow, Raise e)
    | Ok max_length => alpha_loop (py.range (Z.to_nat max_length)) flow
    end.

(** The value [flow.name[i]] reads, apart from the growth of the series. *)
Definition attr_read (name : string) (i : Z) (flow : Flow.t) : result float :=
  a ← Flow.getattr name flow; plumbing.read a i.

(** The pair [alpha_step] computes, as a function of the values the flow
    reads at [i]. *)
Definition alpha_of (flow : Flow.t) (i : Z) : result (float * float) :=
  a12 ← attr_read "P_min_woDH" i flow;
  a22 ← attr_read "P_max_woDH" i flow;
  p_min ← attr_read "P_min_woDH" i flow;
  eta_min ← attr_read "Eta_el_min_woDH" i flow;
  b1 ← py.div p_min eta_min;
  p_max ← attr_read "P_max_woDH" i flow;
  eta_max ← attr_read "Eta_el_max_woDH" i flow;
  b2 ← py.div p_max eta_max;
  numpy.linalg_solve 1 a12 1 a22 b1 b2.

Fixpoint alphas_of (flow : Flow.t) (steps : list Z)
    : result (list float * list float) :=
  match steps with
  | [] => Ok ([], [])
  | i :: rest =>
      x ← alpha_of flow i;
      alphas ← alphas_of flow rest;
      Ok (x.1 :: alphas.1, x.2 :: alphas.2)
  end.

(** Two states of a flow whose series read the same values at every index
    [i >= 0]: a series that was read has grown, not changed. *)
Definition same_reads (flow flow' : Flow.t) : Prop :=
  ∀ name i, (0 ≤ i)%Z → attr_read name i flow' = attr_read name i flow.

(** A method on a flow that returns [r] from every state with the reads of
    [flow] and leaves such a state. *)
Definition reads_only {A} (flow : Flow.t) (c : method Flow.t A)
    (r : result A) : Prop :=
  ∀ flow', same_reads flow flow' →
    (c flow').2 = r ∧ same_reads flow (c flow').1.

(** [GenericCHP._calculate_alphas]: [eb] is the first key of
    [self.electrical_output]. *)
Definition _calculate_alphas : method t unit :=
  λ self,
    match electrical_output self with
    | [] => (self, Raise IndexError)
    | (eb, flow) :: others =>
        let '(flow', r) := calculate_alphas flow in
        let updated alphas :=
          {| label := label self;
             fuel_input := fuel_input self;
             electrical_output := (eb, flow') :: others;
             heat_output := heat_output self;
             Beta := Beta self;
             back_pressure := back_pressure self;
             _alphas := alphas |} in
        match r with
        | Ok alphas => (updated (Some alphas), Ok ())
        | Raise e => (updated (_alphas self), Raise e)
        end
    end.

(** The property [alphas]: computed on first use, then cached. *)
Definition alphas : method t (list float * list float) :=
  λ self,
    match _alphas self with
    | Some a => (self, Ok a)
    | None =>
        match _calculate_alphas self with
        | (self', Ok _) =>
            match _alphas self' with
            | Some a => (self', Ok a)
            | None => (self', Raise AttributeError)
            end
        | (self', Raise e) => (self', Raise e)
        end
    end.

End GenericCHP.

(** ** components.py: [ExtractionTurbineCHP] *)

Module ExtractionTurbineCHP.

Record t := {
  label : node;
  inputs : list node;
  outputs : list node;
  conversion_factors : py.odict node plumbing.pyobj;
  conversion_factor_full_condensation : py.odict node plumbing.pyobj
}.

(** [ExtractionTurbineCHP.__init__]: [label], [inputs], [outputs] and
    [conversion_factors] are set by [solph.Transformer], which wraps the
    conversion factors as this constructor wraps the full-condensation ones. *)
Definition __init__ (label : node) (inputs outputs : list node)
    (conversion_factors conversion_factor_full_condensation
       : py.odict node plumbing.pyobj) : t :=
  {| label := label;
     inputs := inputs;
     outputs := outputs;
     conversion_factors :=
       prod_map id plumbing.Sequence <$> conversion_factors;
     conversion_factor_full_condensation :=
       prod_map id plumbing.Sequence <$> conversion_factor_full_condensation |}.

(** The attributes [ExtractionTurbineCHPBlock._create] attaches to a node
    (lines 917-936). *)
Record derived := {
  inflow : node;
  label_main_flow : string;
  main_output : node;
  tapped_output : node;
  conversion_factor_full_condensation_sq : plumbing.pyobj;
  flow_relation_index : list float;
  main_flow_loss_index : list float
}.

End ExtractionTurbineCHP.

(** ** The energy system and the model a block is attached to *)

(** A node as plumbing.py sees it: its label, the keys of its [inputs] and
    [outputs], and whether it is an instance of the class [Storage] of
    oemof. The node classes are not in src/. *)
Module Node.
Record t := {
  label : node;
  inputs : list node;
  outputs : list node;
  is_Storage : bool
}.
End Node.

(** The energy system: its nodes and its [groups]. [groups] maps a label to
    the node that carries it and a block class to the nodes of that class;
    [es.groups.get(cls)] is [None] where the system has no such node. The
    class is not in src/. *)
Module EnergySystem.
Record t := {
  nodes : list Node.t;
  groups : gmap string node;
  group_GenericStorageBlock : option (list GenericStorage.t);
  group_GenericInvestmentStorageBlock : option (list GenericStorage.t);
  group_GenericCHPBlock : option (list GenericCHP.t);
  group_ExtractionTurbineCHPBlock : option (list ExtractionTurbineCHP.t)
}.
End EnergySystem.

(** A block after [_create]: the attributes it was given, by name. *)
Module Block.
Record t := {
  sets : gmap string (list node);
  vars : gmap string (gmap pyomo.index pyomo.VarData);
  constraints : gmap string (gmap pyomo.index pyomo.constraint)
}.
Definition empty : t := {| sets := ∅; vars := ∅; constraints := ∅ |}.
End Block.

(** The model, as far as a block reads it through [self.parent_block()] and
    [results] reads it: the blocks added so far are [components]. *)
Module Model.
Record t := {
  es : EnergySystem.t;
  timesteps : list Z;
  timeincrement : plumbing.pyobj;
  _constraint_groups : list klass.t;
  FLOWS : list (node * node);
  TIMESTEPS : list Z;
  previous_timesteps : gmap Z Z;
  components : py.odict klass.t Block.t
}.

Definition set_components (components : py.odict klass.t Block.t) (m : t)
    : t :=
  {| es := es m;
     timesteps := timesteps m;
     timeincrement := timeincrement m;
     _constraint_groups := _constraint_groups m;
     FLOWS := FLOWS m;
     TIMESTEPS := TIMESTEPS m;
     previous_timesteps := previous_timesteps m;
     components := components |}.

(** [m.flow[i, o, t]]: the variable, or [KeyError] outside
    [FLOWS × TIMESTEPS]. *)
Definition flow (m : t) (i o : node) (t : Z) : result pyomo.expr :=
  if bool_decide ((i, o) ∈ FLOWS m ∧ t ∈ TIMESTEPS m)
  then Ok (pyomo.V (Var.flow i o t))
  else Raise KeyError.

(** [m.TIMESTEPS[-1]] *)
Definition last_timestep (m : t) : result Z := py.getitem (TIMESTEPS m) (-1).

(** [block.capacity[n, t]] as a term of an expression. *)
Definition capacity (b : klass.t) (vars : gmap pyomo.index pyomo.VarData)
    (n : node) (t : Z) : result pyomo.expr :=
  _ ← pyomo.item vars (pyomo.at_ n t);
  Ok (pyomo.V (Var.capacity b n t)).
End Model.

(** ** components.py: the storage blocks *)

(** [{n: [i for i in n.inputs][0] for n in group}] and the same for
    [outputs]. *)
Definition first_keys (side : GenericStorage.t → py.odict node loc)
    (group : list GenericStorage.t) : result (py.odict node node) :=
  py.comprehension
    (λ n, x ← py.getitem (py.keys (side n)) 0; Ok (GenericStorage.label n, x))
    group.

(** [_storage_balance_rule(block, n, t)], the same text in both storage
    blocks (lines 240-252 and 386-397); [b] is the class of the block. *)
Definition _storage_balance_rule (m : Model.t) (b : klass.t)
    (capacity : gmap pyomo.index pyomo.VarData) (i o : py.odict node node)
    (nt : GenericStorage.t * Z) : result (option pyomo.constraint) :=
  let '(n, t) := nt in
  let expr := pyomo.Const 0 in
  c ← Model.capacity b capacity (GenericStorage.label n) t;
  let expr := pyomo.Add expr c in
  previous ← py.lookup (Model.previous_timesteps m) t;
  c_previous ← Model.capacity b capacity (GenericStorage.label n) previous;
  capacity_loss ← plumbing.read (GenericStorage.capacity_loss n) t;
  let expr :=
    pyomo.Add expr (pyomo.Mul (pyomo.Neg c_previous)
                              (pyomo.Const (1 - capacity_loss))) in
  i_n ← py.assoc i (GenericStorage.label n);
  inflow ← Model.flow m i_n (GenericStorage.label n) t;
  inflow_conversion_factor ←
    plumbing.read (GenericStorage.inflow_conversion_factor n) t;
  timeincrement ← plumbing.read (Model.timeincrement m) t;
  let expr :=
    pyomo.Add expr
      (pyomo.Mul (pyomo.Mul (pyomo.Neg inflow)
                            (pyomo.Const inflow_conversion_factor))
                 (pyomo.Const timeincrement)) in
  o_n ← py.assoc o (GenericStorage.label n);
  outflow ← Model.flow m (GenericStorage.label n) o_n t;
  outflow_conversion_factor ←
    plumbing.read (GenericStorage.outflow_conversion_factor n) t;
  timeincrement ← plumbing.read (Model.timeincrement m) t;
  let expr :=
    pyomo.Add expr
      (pyomo.Mul (pyomo.Div outflow (pyomo.Const outflow_conversion_factor))
                 (pyomo.Const timeincrement)) in
  Ok (Some {| pyomo.lhs := expr; pyomo.rel := pyomo.EQ;
              pyomo.rhs := pyomo.Const 0 |}).

(** The index a pair [(n, t)] of a storage and a timestep stands for. *)
Definition storage_key (nt : GenericStorage.t * Z) : pyomo.index :=
  pyomo.at_ (GenericStorage.label nt.1) nt.2.

Module GenericStorageBlock.

(** [_storage_capacity_bound_rule(block, n, t)] *)
Definition _storage_capacity_bound_rule (nt : GenericStorage.t * Z)
    : result (option float * option float) :=
  let '(n, t) := nt in
  capacity_min ← plumbing.read (GenericStorage.capacity_min n) t;
  lower ← match GenericStorage.nominal_capacity n with
          | Some c => Ok (c * capacity_min)%Q
          | None => Raise TypeError
          end;
  capacity_max ← plumbing.read (GenericStorage.capacity_max n) t;
  upper ← match GenericStorage.nominal_capacity n with
          | Some c => Ok (c * capacity_max)%Q
          | None => Raise TypeError
          end;
  Ok (Some lower, Some upper).

(** [for n in group: if n.initial_capacity is not None: ...] (lines
    233-237) *)
Fixpoint set_initial_capacity (m : Model.t) (group : list GenericStorage.t)
    (capacity : gmap pyomo.index pyomo.VarData)
    : result (gmap pyomo.index pyomo.VarData) :=
  match group with
  | [] => Ok capacity
  | n :: rest =>
      capacity ←
        match GenericStorage.initial_capacity n with
        | None => Ok capacity
        | Some initial =>
            v ← match GenericStorage.nominal_capacity n with
                | Some c => Ok (initial * c)%Q
                | None => Raise TypeError
                end;
            last ← Model.last_timestep m;
            d ← pyomo.item capacity (pyomo.at_ (GenericStorage.label n) last);
            Ok (<[pyomo.at_ (GenericStorage.label n) last :=
                    pyomo.fix_value v d]> capacity)
        end;
      set_initial_capacity m rest capacity
  end.

(** [GenericStorageBlock._create(group)] *)
Definition _create (m : Model.t) (group : option (list GenericStorage.t))
    : result Block.t :=
  match group with
  | None => Ok Block.empty
  | Some group =>
      i ← first_keys GenericStorage.inputs group;
      o ← first_keys GenericStorage.outputs group;
      let STORAGES := group in
      capacity ← pyomo.Var_ storage_key
                   (pyomo.product STORAGES (Model.TIMESTEPS m))
                   _storage_capacity_bound_rule;
      capacity ← set_initial_capacity m group capacity;
      balance ← pyomo.Constraint storage_key
                  (pyomo.product STORAGES (Model.TIMESTEPS m))
                  (_storage_balance_rule m klass.GenericStorageBlock
                     capacity i o);
      Ok {| Block.sets := {[ "STORAGES" := GenericStorage.label <$> STORAGES ]};
            Block.vars := {[ "capacity" := capacity ]};
            Block.constraints := {[ "balance" := balance ]} |}
  end.

End GenericStorageBlock.

Module GenericInvestmentStorageBlock.

(** The index a storage stands for in a component indexed by storages. *)
Definition node_key (n : GenericStorage.t) : pyomo.index :=
  pyomo.at1 (GenericStorage.label n).

(** [self.invest[n]] as a term of an expression. *)
Definition invest_var (invest : gmap pyomo.index pyomo.VarData)
    (n : GenericStorage.t) : result pyomo.expr :=
  _ ← pyomo.item invest (node_key n);
  Ok (pyomo.V (Var.invest klass.GenericInvestmentStorageBlock
                          (GenericStorage.label n))).

(** [_storage_investvar_bound_rule(block, n)] *)
Definition _storage_investvar_bound_rule (n : GenericStorage.t)
    : result (option float * option float) :=
  match GenericStorage.investment n with
  | Some investment => Ok (Some 0%Q, Investment.maximum investment)
  | None => Raise AttributeError
  end.

(** [_initial_capacity_invest_rule(block, n)] *)
Definition _initial_capacity_invest_rule (m : Model.t)
    (capacity invest : gmap pyomo.index pyomo.VarData) (n : GenericStorage.t)
    : result (option pyomo.constraint) :=
  last ← Model.last_timestep m;
  c ← Model.capacity klass.GenericInvestmentStorageBlock capacity
        (GenericStorage.label n) last;
  initial ← match GenericStorage.initial_capacity n with
            | Some x => Ok x
            | None => Raise TypeError
            end;
  v ← invest_var invest n;
  Ok (Some {| pyomo.lhs := c; pyomo.rel := pyomo.EQ;
              pyomo.rhs := pyomo.Mul (pyomo.Const initial) v |}).

(** [_storage_capacity_inflow_invest_rule(block, n)] and
    [_storage_capacity_outflow_invest_rule(block, n)]: [flow_invest] is the
    variable [m.InvestmentFlow.invest[...]] of a block of the module
    [blocks]. *)
Definition _storage_capacity_inflow_invest_rule
    (invest : gmap pyomo.index pyomo.VarData) (i : py.odict node node)
    (n : GenericStorage.t) : result (option pyomo.constraint) :=
  i_n ← py.assoc i (GenericStorage.label n);
  v ← invest_var invest n;
  ratio ← match GenericStorage.nominal_input_capacity_ratio n with
          | Some x => Ok x
          | None => Raise TypeError
          end;
  Ok (Some {| pyomo.lhs :=
                pyomo.V (Var.flow_invest i_n (GenericStorage.label n));
              pyomo.rel := pyomo.EQ;
              pyomo.rhs := pyomo.Mul v (pyomo.Const ratio) |}).

Definition _storage_capacity_outflow_invest_rule
    (invest : gmap pyomo.index pyomo.VarData) (o : py.odict node node)
    (n : GenericStorage.t) : result (option pyomo.constraint) :=
  o_n ← py.assoc o (GenericStorage.label n);
  v ← invest_var invest n;
  ratio ← match GenericStorage.nominal_output_capacity_ratio n with
          | Some x => Ok x
          | None => Raise TypeError
          end;
  Ok (Some {| pyomo.lhs :=
                pyomo.V (Var.flow_invest (GenericStorage.label n) o_n);
              pyomo.rel := pyomo.EQ;
              pyomo.rhs := pyomo.Mul v (pyomo.Const ratio) |}).

(** [_max_capacity_invest_rule(block, n, t)] and
    [_min_capacity_invest_rule(block, n, t)] *)
Definition _max_capacity_invest_rule
    (capacity invest : gmap pyomo.index pyomo.VarData)
    (nt : GenericStorage.t * Z) : result (option pyomo.constraint) :=
  let '(n, t) := nt in
  c ← Model.capacity klass.GenericInvestmentStorageBlock capacity
        (GenericStorage.label n) t;
  capacity_max ← plumbing.read (GenericStorage.capacity_max n) t;
  v ← invest_var invest n;
  Ok (Some {| pyomo.lhs := c; pyomo.rel := pyomo.LE;
              pyomo.rhs := pyomo.Mul (pyomo.Const capacity_max) v |}).

Definition _min_capacity_invest_rule
    (capacity invest : gmap pyomo.index pyomo.VarData)
    (nt : GenericStorage.t * Z) : result (option pyomo.constraint) :=
  let '(n, t) := nt in
  c ← Model.capacity klass.GenericInvestmentStorageBlock capacity
        (GenericStorage.label n) t;
  capacity_min ← plumbing.read (GenericStorage.capacity_min n) t;
  v ← invest_var invest n;
  Ok (Some {| pyomo.lhs := c; pyomo.rel := pyomo.GE;
              pyomo.rhs := pyomo.Mul (pyomo.Const capacity_min) v |}).

(** [GenericInvestmentStorageBlock._create(group)] *)
Definition _create (m : Model.t) (group : option (list GenericStorage.t))
    : result Block.t :=
  match group with
  | None => Ok Block.empty
  | Some group =>
      let INVESTSTORAGES := group in
      let INITIAL_CAPACITY :=
        filter (λ n, GenericStorage.initial_capacity n ≠ None) group in
      MIN_INVESTSTORAGES ←
        py.select
          (λ n, mins ← py.comprehension
                         (plumbing.read (GenericStorage.capacity_min n))
                         (Model.TIMESTEPS m);
                Ok (negb (Qle_bool (py.sum mins) 0)))
          group;
      capacity ← pyomo.Var_ storage_key
                   (pyomo.product INVESTSTORAGES (Model.TIMESTEPS m))
                   (λ _, Ok (Some 0%Q, None));
      invest ← pyomo.Var_ node_key INVESTSTORAGES
                 _storage_investvar_bound_rule;
      i ← first_keys GenericStorage.inputs group;
      o ← first_keys GenericStorage.outputs group;
      balance ← pyomo.Constraint storage_key
                  (pyomo.product INVESTSTORAGES (Model.TIMESTEPS m))
                  (_storage_balance_rule m klass.GenericInvestmentStorageBlock
                     capacity i o);
      initial_capacity ← pyomo.Constraint node_key INITIAL_CAPACITY
                           (_initial_capacity_invest_rule m capacity invest);
      storage_capacity_inflow ←
        pyomo.Constraint node_key INVESTSTORAGES
          (_storage_capacity_inflow_invest_rule invest i);
      storage_capacity_outflow ←
        pyomo.Constraint node_key INVESTSTORAGES
          (_storage_capacity_outflow_invest_rule invest o);
      max_capacity ← pyomo.Constraint storage_key
                       (pyomo.product INVESTSTORAGES (Model.TIMESTEPS m))
                       (_max_capacity_invest_rule capacity invest);
      min_capacity ← pyomo.Constraint storage_key
                       (pyomo.product MIN_INVESTSTORAGES (Model.TIMESTEPS m))
                       (_min_capacity_invest_rule capacity invest);
      Ok {| Block.sets :=
              {[ "INVESTSTORAGES" := GenericStorage.label <$> INVESTSTORAGES;
                 "INITIAL_CAPACITY" :=
                   GenericStorage.label <$> INITIAL_CAPACITY;
                 "MIN_INVESTSTORAGES" :=
                   GenericStorage.label <$> MIN_INVESTSTORAGES ]};
            Block.vars := {[ "capacity" := capacity; "invest" := invest ]};
            Block.constraints :=
              {[ "balance" := balance;
                 "initial_capacity" := initial_capacity;
                 "storage_capacity_inflow" := storage_capacity_inflow;
                 "storage_capacity_outflow" := storage_capacity_outflow;
                 "max_capacity" := max_capacity;
                 "min_capacity" := min_capacity ]} |}
  end.

End GenericInvestmentStorageBlock.

(** ** components.py: the GenericCHP block *)

Module GenericCHPBlock.

Definition chp_key (nt : GenericCHP.t * Z) : pyomo.index :=
  pyomo.at_ (GenericCHP.label nt.1) nt.2.

(** [list(d.keys())[0]] and [list(d.values())[0]] *)
Definition first_key {V} (d : py.odict node V) : result node :=
  py.getitem (py.keys d) 0.
Definition first_value {V} (d : py.odict node V) : result V :=
  py.getitem (py.values d) 0.

(** [list(d.values())[0].name[t]] *)
Definition flow_attr (d : py.odict node Flow.t) (name : string) (t : Z)
    : result float :=
  flow ← first_value d;
  a ← Flow.getattr name flow;
  plumbing.read a t.

(** The truth value of [getattr(flow, name, None)]: a number is true when it
    is not zero, a list or [_Sequence] when it is not empty. *)
Definition has_attr (d : py.odict node Flow.t) (name : string) : result bool :=
  flow ← first_value d;
  Ok match Flow.attrs flow !! name with
     | None => false
     | Some (plumbing.PyNum x) => negb (Qeq_bool x 0)
     | Some (plumbing.PyList l) => bool_decide (l ≠ [])
     | Some (plumbing.PySeq s) => bool_decide (plumbing.data s ≠ [])
     end.

(** [n.alphas[k][t]] *)
Definition alpha (n : GenericCHP.t) (k : bool) (t : Z) : result float :=
  alphas ← (GenericCHP.alphas n).2;
  py.getitem (if k then alphas.2 else alphas.1) t.

Section rules.
Variable m : Model.t.
Variable nt : GenericCHP.t * Z.
Let n := nt.1.
Let t := nt.2.
Let l := GenericCHP.label n.

Definition eq0 (expr : pyomo.expr) : option pyomo.constraint :=
  Some {| pyomo.lhs := expr; pyomo.rel := pyomo.EQ;
          pyomo.rhs := pyomo.Const 0 |}.
Definition le0 (expr : pyomo.expr) : option pyomo.constraint :=
  Some {| pyomo.lhs := expr; pyomo.rel := pyomo.LE;
          pyomo.rhs := pyomo.Const 0 |}.
Definition ge0 (expr : pyomo.expr) : option pyomo.constraint :=
  Some {| pyomo.lhs := expr; pyomo.rel := pyomo.GE;
          pyomo.rhs := pyomo.Const 0 |}.

Definition _H_flow_rule : result (option pyomo.constraint) :=
  let expr := pyomo.Const 0 in
  let expr := pyomo.Add expr (pyomo.V (Var.H_F l t)) in
  bus ← first_key (GenericCHP.fuel_input n);
  f ← Model.flow m bus l t;
  let expr := pyomo.Add expr (pyomo.Neg f) in
  Ok (eq0 expr).

Definition _Q_flow_rule : result (option pyomo.constraint) :=
  let expr := pyomo.Const 0 in
  let expr := pyomo.Add expr (pyomo.V (Var.Q l t)) in
  bus ← first_key (GenericCHP.heat_output n);
  f ← Model.flow m l bus t;
  let expr := pyomo.Add expr (pyomo.Neg f) in
  Ok (eq0 expr).

Definition _P_flow_rule : result (option pyomo.constraint) :=
  let expr := pyomo.Const 0 in
  let expr := pyomo.Add expr (pyomo.V (Var.P l t)) in
  bus ← first_key (GenericCHP.electrical_output n);
  f ← Model.flow m l bus t;
  let expr := pyomo.Add expr (pyomo.Neg f) in
  Ok (eq0 expr).

Definition _H_F_1_rule : result (option pyomo.constraint) :=
  let expr := pyomo.Const 0 in
  let expr := pyomo.Add expr (pyomo.Neg (pyomo.V (Var.H_F l t))) in
  a0 ← alpha n false t;
  let expr :=
    pyomo.Add expr (pyomo.Mul (pyomo.Const a0) (pyomo.V (Var.Y l t))) in
  a1 ← alpha n true t;
  let expr :=
    pyomo.Add expr (pyomo.Mul (pyomo.Const a1) (pyomo.V (Var.P_woDH l t))) in
  Ok (eq0 expr).

Definition _H_F_2_rule : result (option pyomo.constraint) :=
  let expr := pyomo.Const 0 in
  let expr := pyomo.Add expr (pyomo.Neg (pyomo.V (Var.H_F l t))) in
  a0 ← alpha n false t;
  let expr :=
    pyomo.Add expr (pyomo.Mul (pyomo.Const a0) (pyomo.V (Var.Y l t))) in
  a1 ← alpha n true t;
  beta ← plumbing.read (GenericCHP.Beta n) t;
  let expr :=
    pyomo.Add expr
      (pyomo.Mul (pyomo.Const a1)
         (pyomo.Add (pyomo.V (Var.P l t))
                    (pyomo.Mul (pyomo.Const beta) (pyomo.V (Var.Q l t))))) in
  Ok (eq0 expr).

Definition _H_F_3_rule : result (option pyomo.constraint) :=
  let expr := pyomo.Const 0 in
  let expr := pyomo.Add expr (pyomo.V (Var.H_F l t)) in
  p_max ← flow_attr (GenericCHP.electrical_output n) "P_max_woDH" t;
  eta_max ← flow_attr (GenericCHP.electrical_output n) "Eta_el_max_woDH" t;
  h ← py.div p_max eta_max;
  let expr :=
    pyomo.Add expr
      (pyomo.Mul (pyomo.Neg (pyomo.V (Var.Y l t))) (pyomo.Const h)) in
  Ok (le0 expr).

Definition _H_F_4_rule : result (option pyomo.constraint) :=
  let expr := pyomo.Const 0 in
  let expr := pyomo.Add expr (pyomo.V (Var.H_F l t)) in
  p_min ← flow_attr (GenericCHP.electrical_output n) "P_min_woDH" t;
  eta_min ← flow_attr (GenericCHP.electrical_output n) "Eta_el_min_woDH" t;
  h ← py.div p_min eta_min;
  let expr :=
    pyomo.Add expr
      (pyomo.Mul (pyomo.Neg (pyomo.V (Var.Y l t))) (pyomo.Const h)) in
  Ok (ge0 expr).

Definition _H_L_FG_max_rule : result (option pyomo.constraint) :=
  let expr := pyomo.Const 0 in
  let expr := pyomo.Add expr (pyomo.Neg (pyomo.V (Var.H_L_FG_max l t))) in
  share ← flow_attr (GenericCHP.fuel_input n) "H_L_FG_share_max" t;
  let expr :=
    pyomo.Add expr (pyomo.Mul (pyomo.V (Var.H_F l t)) (pyomo.Const share)) in
  Ok (eq0 expr).

Definition _Q_max_res_rule : result (option pyomo.constraint) :=
  let expr := pyomo.Const 0 in
  let expr :=
    pyomo.Add expr
      (pyomo.Add (pyomo.Add (pyomo.V (Var.P l t)) (pyomo.V (Var.Q l t)))
                 (pyomo.V (Var.H_L_FG_max l t))) in
  q_cw_min ← flow_attr (GenericCHP.heat_output n) "Q_CW_min" t;
  let expr :=
    pyomo.Add expr
      (pyomo.Mul (pyomo.Const q_cw_min) (pyomo.V (Var.Y l t))) in
  let expr := pyomo.Add expr (pyomo.Neg (pyomo.V (Var.H_F l t))) in
  match GenericCHP.back_pressure n with
  | Some true => Ok (eq0 expr)
  | _ => Ok (le0 expr)
  end.

Definition _H_L_FG_min_rule : result (option pyomo.constraint) :=
  declared ← has_attr (GenericCHP.fuel_input n) "H_L_FG_share_min";
  if declared : bool then
    let expr := pyomo.Const 0 in
    let expr := pyomo.Add expr (pyomo.Neg (pyomo.V (Var.H_L_FG_min l t))) in
    share ← flow_attr (GenericCHP.fuel_input n) "H_L_FG_share_min" t;
    let expr :=
      pyomo.Add expr (pyomo.Mul (pyomo.V (Var.H_F l t)) (pyomo.Const share)) in
    Ok (eq0 expr)
  else Ok None.

Definition _Q_min_res_rule : result (option pyomo.constraint) :=
  declared ← has_attr (GenericCHP.fuel_input n) "H_L_FG_share_min";
  if declared : bool then
    let expr := pyomo.Const 0 in
    let expr :=
      pyomo.Add expr
        (pyomo.Add (pyomo.Add (pyomo.V (Var.P l t)) (pyomo.V (Var.Q l t)))
                   (pyomo.V (Var.H_L_FG_min l t))) in
    q_cw_min ← flow_attr (GenericCHP.heat_output n) "Q_CW_min" t;
    let expr :=
      pyomo.Add expr
        (pyomo.Mul (pyomo.Const q_cw_min) (pyomo.V (Var.Y l t))) in
    let expr := pyomo.Add expr (pyomo.Neg (pyomo.V (Var.H_F l t))) in
    Ok (ge0 expr)
  else Ok None.

End rules.

(** [GenericCHPBlock._create(group)] *)
Definition _create (m : Model.t) (group : option (list GenericCHP.t))
    : result Block.t :=
  match group with
  | None => Ok Block.empty
  | Some group =>
      let GENERICCHPS := group in
      let indices := pyomo.product GENERICCHPS (Model.TIMESTEPS m) in
      let non_negative := λ _ : GenericCHP.t * Z, Ok (Some 0%Q, None) in
      let binary := λ _ : GenericCHP.t * Z, Ok (Some 0%Q, Some 1%Q) in
      H_F ← pyomo.Var_ chp_key indices non_negative;
      H_L_FG_max ← pyomo.Var_ chp_key indices non_negative;
      H_L_FG_min ← pyomo.Var_ chp_key indices non_negative;
      P_woDH ← pyomo.Var_ chp_key indices non_negative;
      P ← pyomo.Var_ chp_key indices non_negative;
      Q ← pyomo.Var_ chp_key indices non_negative;
      Y ← pyomo.Var_ chp_key indices binary;
      H_flow ← pyomo.Constraint chp_key indices (_H_flow_rule m);
      Q_flow ← pyomo.Constraint chp_key indices (_Q_flow_rule m);
      P_flow ← pyomo.Constraint chp_key indices (_P_flow_rule m);
      H_F_1 ← pyomo.Constraint chp_key indices _H_F_1_rule;
      H_F_2 ← pyomo.Constraint chp_key indices _H_F_2_rule;
      H_F_3 ← pyomo.Constraint chp_key indices _H_F_3_rule;
      H_F_4 ← pyomo.Constraint chp_key indices _H_F_4_rule;
      H_L_FG_max_def ← pyomo.Constraint chp_key indices _H_L_FG_max_rule;
      Q_max_res ← pyomo.Constraint chp_key indices _Q_max_res_rule;
      H_L_FG_min_def ← pyomo.Constraint chp_key indices _H_L_FG_min_rule;
      Q_min_res ← pyomo.Constraint chp_key indices _Q_min_res_rule;
      Ok {| Block.sets :=
              {[ "GENERICCHPS" := GenericCHP.label <$> GENERICCHPS ]};
            Block.vars :=
              {[ "H_F" := H_F; "H_L_FG_max" := H_L_FG_max;
                 "H_L_FG_min" := H_L_FG_min; "P_woDH" := P_woDH;
                 "P" := P; "Q" := Q; "Y" := Y ]};
            Block.constraints :=
              {[ "H_flow" := H_flow; "Q_flow" := Q_flow; "P_flow" := P_flow;
                 "H_F_1" := H_F_1; "H_F_2" := H_F_2; "H_F_3" := H_F_3;
                 "H_F_4" := H_F_4; "H_L_FG_max_def" := H_L_FG_max_def;
                 "Q_max_res" := Q_max_res;
                 "H_L_FG_min_def" := H_L_FG_min_def;
                 "Q_min_res" := Q_min_res ]} |}
  end.

End GenericCHPBlock.

(** ** components.py: the ExtractionTurbineCHP block *)

Module ExtractionTurbineCHPBlock.

Import ExtractionTurbineCHP.

(** [n.conversion_factors[m.es.groups[output.label]][t]] *)
Definition conversion_factor (m : Model.t) (n : t) (output : node) (ts : Z)
    : result float :=
  bus ← py.lookup (EnergySystem.groups (Model.es m)) output;
  series ← py.assoc (conversion_factors n) bus;
  plumbing.read series ts.

(** The body of [for n in group] (lines 917-936): the attributes given to
    [n]. *)
Definition derive (m : Model.t) (n : t) : result derived :=
  inflow ← py.getitem (inputs n) 0;
  label_main_flow ←
    py.getitem (py.keys (conversion_factor_full_condensation n)) 0;
  main_output ← py.getitem (filter (λ o, label_main_flow = o) (outputs n)) 0;
  tapped_output ←
    py.getitem (filter (λ o, label_main_flow ≠ o) (outputs n)) 0;
  bus ← py.lookup (EnergySystem.groups (Model.es m)) main_output;
  conversion_factor_full_condensation_sq ←
    py.assoc (conversion_factor_full_condensation n) bus;
  flow_relation_index ←
    py.comprehension
      (λ ts, a ← conversion_factor m n main_output ts;
             b ← conversion_factor m n tapped_output ts;
             py.div a b)
      (Model.TIMESTEPS m);
  main_flow_loss_index ←
    py.comprehension
      (λ ts, c ← plumbing.read conversion_factor_full_condensation_sq ts;
             a ← conversion_factor m n main_output ts;
             b ← conversion_factor m n tapped_output ts;
             py.div (c - a)%Q b)
      (Model.TIMESTEPS m);
  Ok {| inflow := inflow;
        label_main_flow := label_main_flow;
        main_output := main_output;
        tapped_output := tapped_output;
        conversion_factor_full_condensation_sq :=
          conversion_factor_full_condensation_sq;
        flow_relation_index := flow_relation_index;
        main_flow_loss_index := main_flow_loss_index |}.

(** A node of the group with the attributes [derive] gave it. *)
Definition member : Type := t * derived.

(** The relational expression built in the body of
    [_input_output_relation_rule] (lines 943-949). *)
Definition input_output_relation_expr (m : Model.t) (ts : Z) (g : member)
    : result pyomo.constraint :=
  let '(g, d) := g in
  lhs ← Model.flow m (inflow d) (label g) ts;
  main ← Model.flow m (label g) (main_output d) ts;
  tapped ← Model.flow m (label g) (tapped_output d) ts;
  loss ← py.getitem (main_flow_loss_index d) ts;
  c ← plumbing.read (conversion_factor_full_condensation_sq d) ts;
  let rhs :=
    pyomo.Div (pyomo.Add main (pyomo.Mul tapped (pyomo.Const loss)))
              (pyomo.Const c) in
  Ok {| pyomo.lhs := lhs; pyomo.rel := pyomo.EQ; pyomo.rhs := rhs |}.

(** The relational expression built in the body of
    [_out_flow_relation_rule] (lines 960-962). *)
Definition out_flow_relation_expr (m : Model.t) (ts : Z) (g : member)
    : result pyomo.constraint :=
  let '(g, d) := g in
  lhs ← Model.flow m (label g) (main_output d) ts;
  tapped ← Model.flow m (label g) (tapped_output d) ts;
  index ← py.getitem (flow_relation_index d) ts;
  let rhs := pyomo.Mul tapped (pyomo.Const index) in
  Ok {| pyomo.lhs := lhs; pyomo.rel := pyomo.GE; pyomo.rhs := rhs |}.

(** [for t in m.TIMESTEPS: for g in group: ...add(index, ...)]: the rule of
    a [BuildAction], run once; [add_at g t] is the index each relation is
    added under, and [add] replaces what the index held. *)
Fixpoint build_group (add_at : member → Z → result pyomo.index)
    (body : Z → member → result pyomo.constraint) (ts : Z)
    (group : list member) (built : gmap pyomo.index pyomo.constraint)
    : result (gmap pyomo.index pyomo.constraint) :=
  match group with
  | [] => Ok built
  | g :: rest =>
      c ← body ts g;
      i ← add_at g ts;
      build_group add_at body ts rest (<[i := c]> built)
  end.

Fixpoint build (add_at : member → Z → result pyomo.index)
    (body : Z → member → result pyomo.constraint) (steps : list Z)
    (group : list member) (built : gmap pyomo.index pyomo.constraint)
    : result (gmap pyomo.index pyomo.constraint) :=
  match steps with
  | [] => Ok built
  | ts :: rest =>
      built ← build_group add_at body ts group built;
      build add_at body rest group built
  end.

(** [_input_output_relation_rule(block)] adds under [(n, t)], where [n] is
    the variable of the loop [for n in group] of line 916: when the rule
    runs it holds the last node of the group ([NameError] if the loop never
    ran). *)
Definition _input_output_relation_rule (m : Model.t) (group : list member)
    : result (gmap pyomo.index pyomo.constraint) :=
  build (λ _ ts, match last group with
                 | Some n => Ok (pyomo.at_ (label n.1) ts)
                 | None => Raise NameError
                 end)
        (input_output_relation_expr m) (Model.TIMESTEPS m) group ∅.

(** [_out_flow_relation_rule(block)] adds under [(g, t)]. *)
Definition _out_flow_relation_rule (m : Model.t) (group : list member)
    : result (gmap pyomo.index pyomo.constraint) :=
  build (λ g ts, Ok (pyomo.at_ (label g.1) ts))
        (out_flow_relation_expr m) (Model.TIMESTEPS m) group ∅.

(** [ExtractionTurbineCHPBlock._create(group)] *)
Definition _create (m : Model.t) (group : option (list t))
    : result Block.t :=
  match group with
  | None => Ok Block.empty
  | Some group =>
      group ← py.comprehension (λ n, d ← derive m n; Ok (n, d)) group;
      input_output_relation ← _input_output_relation_rule m group;
      out_flow_relation ← _out_flow_relation_rule m group;
      Ok {| Block.sets := ∅;
            Block.vars := ∅;
            Block.constraints :=
              {[ "input_output_relation" := input_output_relation;
                 "out_flow_relation" := out_flow_relation ]} |}
  end.

End ExtractionTurbineCHPBlock.

(** ** components.py: objective contributions *)

(** [GenericInvestmentStorageBlock._objective_expression]: the loop over
    [self.INVESTSTORAGES] (lines 458-464). *)
Fixpoint investment_costs (storages : list GenericStorage.t)
    (costs : pyomo.expr) : result pyomo.expr :=
  match storages with
  | [] => Ok costs
  | n :: rest =>
      match GenericStorage.investment n with
      | None => Raise AttributeError
      | Some investment =>
          match Investment.ep_costs investment with
          | Some ep_costs =>
              investment_costs rest
                (pyomo.Add costs
                   (pyomo.Mul
                      (pyomo.V (Var.invest klass.GenericInvestmentStorageBlock
                                           (GenericStorage.label n)))
                      (pyomo.Const ep_costs)))
          | None => Raise ValueError
          end
      end
  end.

(** ** plumbing.py: [OperationalModel] *)

Module OperationalModel.

(** The value of the class attribute [CONSTRAINT_GROUPS] when the module is
    loaded. The attribute is one list object shared by the class and its
    instances: the state the constructor runs in is the content of that
    list. *)
Definition CONSTRAINT_GROUPS : list klass.t :=
  [klass.Bus; klass.LinearTransformer; klass.Storage; klass.InvestmentFlow;
   klass.InvestmentStorage; klass.Flow; klass.Discrete].

(** A [DatetimeIndex]: its length and [freq.nanos]. *)
Record DatetimeIndex := { periods : nat; nanos : Z }.

(** The keyword arguments the constructor reads; [None] is an absent
    keyword. *)
Record kwargs := {
  timeindex : option DatetimeIndex;
  constraint_groups : option (list klass.t)
}.

(** Lines 153-157: the list [previous_timesteps] and the dict made of it. *)
Definition make_previous_timesteps (timesteps TIMESTEPS : list Z)
    : result (gmap Z Z) :=
  let previous_timesteps := (λ x, x - 1)%Z <$> timesteps in
  last ← py.getitem timesteps (-1);
  previous_timesteps ← py.setitem previous_timesteps 0 last;
  Ok (py.dict (zip TIMESTEPS previous_timesteps)).

(** Lines 142-144: the keys of [self.flows]. *)
Definition flow_keys (es : EnergySystem.t) : list (node * node) :=
  remove_dups
    (source ← EnergySystem.nodes es;
     target ← Node.outputs source;
     [(Node.label source, target)]).

Section blocks.

(** The seven block classes of the module [blocks] are not in src/: what
    their [_create] leaves in the block and what their
    [_objective_expression] returns are parameters. *)
Variable blocks_create : klass.t → Model.t → result Block.t.
Variable blocks_objective : klass.t → Model.t → result pyomo.expr.

(** [block = group(); block._create(group=self.es.groups.get(group))] *)
Definition create (m : Model.t) (group : klass.t) : result Block.t :=
  let es := Model.es m in
  match group with
  | klass.GenericStorageBlock =>
      GenericStorageBlock._create m (EnergySystem.group_GenericStorageBlock es)
  | klass.GenericInvestmentStorageBlock =>
      GenericInvestmentStorageBlock._create m
        (EnergySystem.group_GenericInvestmentStorageBlock es)
  | klass.GenericCHPBlock =>
      GenericCHPBlock._create m (EnergySystem.group_GenericCHPBlock es)
  | klass.ExtractionTurbineCHPBlock =>
      ExtractionTurbineCHPBlock._create m
        (EnergySystem.group_ExtractionTurbineCHPBlock es)
  | _ => blocks_create group m
  end.

(** [self.add_component(str(block), block)]: a new block is named after its
    class, and pyomo refuses a name the model already has. *)
Definition add_component (m : Model.t) (name : klass.t) (block : Block.t)
    : result Model.t :=
  if bool_decide (name ∈ py.keys (Model.components m))
  then Raise RuntimeError
  else Ok (Model.set_components (Model.components m ++ [(name, block)]) m).

(** The block named [name] after [_create] has filled it in place. *)
Definition fill_component (m : Model.t) (name : klass.t) (block : Block.t)
    : Model.t :=
  Model.set_components
    ((λ entry : klass.t * Block.t,
        if decide (entry.1 = name) then (name, block) else entry)
       <$> Model.components m) m.

(** Lines 229-236: [for group in self._constraint_groups]. *)
Fixpoint create_blocks (groups : list klass.t) (m : Model.t)
    : result Model.t :=
  match groups with
  | [] => Ok m
  | group :: rest =>
      m ← add_component m group Block.empty;
      block ← create m group;
      create_blocks rest (fill_component m group block)
  end.

(** [block._objective_expression()] of one block of the model; [None] for
    a block without the method. *)
Definition _objective_expression (m : Model.t) (name : klass.t)
    : result (option pyomo.expr) :=
  match name with
  | klass.GenericStorageBlock => Ok (Some (pyomo.Const 0))
  | klass.GenericInvestmentStorageBlock =>
      match EnergySystem.group_GenericInvestmentStorageBlock (Model.es m) with
      | None => Ok (Some (pyomo.Const 0))
      | Some storages =>
          costs ← investment_costs storages (pyomo.Const 0); Ok (Some costs)
      end
  | klass.GenericCHPBlock => Ok (Some (pyomo.Const 0))
  | klass.ExtractionTurbineCHPBlock => Ok None
  | _ => e ← blocks_objective name m; Ok (Some e)
  end.

(** [OperationalModel.objective_function]: the expression of the
    objective. *)
Fixpoint objective_from (m : Model.t) (names : list klass.t)
    (expr : pyomo.expr) : result pyomo.expr :=
  match names with
  | [] => Ok expr
  | name :: rest =>
      e ← _objective_expression m name;
      objective_from m rest
        (match e with Some e => pyomo.Add expr e | None => expr end)
  end.

Definition objective_function (m : Model.t) : result pyomo.expr :=
  objective_from m (py.keys (Model.components m)) (pyomo.Const 0).

(** [OperationalModel.__init__(es, **kwargs)], run with the shared list
    [CONSTRAINT_GROUPS] in a given state: the list afterwards and the model
    or the exception. The sets [NODES], [INPUTS], [OUTPUTS] and the gradient
    sets, and the bounds of the flow variables (lines 148-225), have no
    reader in the blocks of components.py and are left out. *)
Definition __init__ (es : EnergySystem.t) (kw : kwargs)
    : method (list klass.t) (Model.t * pyomo.expr) :=
  λ shared,
    match timeindex kw with
    | None => (shared, Raise TypeError)
    | Some index =>
        let timesteps := py.range (periods index) in
        let timeincrement :=
          plumbing.PyNum (inject_Z (nanos index) / 3600000000000)%Q in
        (* self._constraint_groups is the shared list itself *)
        let shared := shared ++ default [] (constraint_groups kw) in
        let _constraint_groups := shared in
        let FLOWS := flow_keys es in
        let TIMESTEPS := timesteps in
        (shared,
         previous_timesteps ← make_previous_timesteps timesteps TIMESTEPS;
         m ← create_blocks _constraint_groups
               {| Model.es := es;
                  Model.timesteps := timesteps;
                  Model.timeincrement := timeincrement;
                  Model._constraint_groups := _constraint_groups;
                  Model.FLOWS := FLOWS;
                  Model.TIMESTEPS := TIMESTEPS;
                  Model.previous_timesteps := previous_timesteps;
                  Model.components := [] |};
         objective ← objective_function m;
         Ok (m, objective))
    end.

End blocks.

(** [self.name] for a block of the model: [AttributeError] when the model
    has no component of that name. *)
Definition component (m : Model.t) (name : klass.t) : result Block.t :=
  match py.assoc (Model.components m) name with
  | Ok b => Ok b
  | Raise _ => Raise AttributeError
  end.

(** [[self.flow[i, o, t].value for t in self.TIMESTEPS]] *)
Definition flow_values (m : Model.t) (ρ : Var.t → float) (i o : node)
    : result (list float) :=
  py.comprehension
    (λ t, _ ← Model.flow m i o t; Ok (ρ (Var.flow i o t)))
    (Model.TIMESTEPS m).

(** [[block.capacity[node, t].value for t in self.TIMESTEPS]] *)
Definition capacity_values (m : Model.t) (ρ : Var.t → float)
    (name : klass.t) (n : node) : result (list float) :=
  block ← component m name;
  capacity ← match Block.vars block !! "capacity" with
             | Some c => Ok c
             | None => Raise AttributeError
             end;
  py.comprehension
    (λ t, _ ← pyomo.item capacity (pyomo.at_ n t);
          Ok (ρ (Var.capacity name n t)))
    (Model.TIMESTEPS m).

(** The nested dictionary [results] builds. *)
Abbreviation result_dict := (gmap node (gmap node (list float))).

(** [result[k] = result.get(k, UserDict())] *)
Definition setdefault (res : result_dict) (k : node) : result_dict :=
  <[k := default ∅ (res !! k)]> res.

(** [result[a][b] = series] *)
Definition set_series (res : result_dict) (a b : node)
    (series : list float) : result result_dict :=
  inner ← py.lookup res a;
  Ok (<[a := <[b := series]> inner]> res).

(** A [for] loop that updates a value and stops at the first exception. *)
Fixpoint for_each {A S} (body : S → A → result S) (l : list A) (s : S)
    : result S :=
  match l with
  | [] => Ok s
  | x :: l' => s ← body s x; for_each body l' s
  end.

(** The names plumbing.py binds at its top level: its imports (lines 5-10)
    and its own definitions. *)
Definition module_names : list string :=
  ["abc"; "UserList"; "UserDict"; "po"; "SolverFactory"; "RelaxIntegrality";
   "blocks"; "Sink"; "Source"; "Sequence"; "_Sequence"; "ExpansionModel";
   "OperationalModel"].

(** Reading a global name in a method of the module: [NameError] for a name
    the module does not bind. *)
Definition global_name (name : string) : result unit :=
  if bool_decide (name ∈ module_names) then Ok () else Raise NameError.

(** The body of [for node in self.es.nodes] in [results] (lines 304-325).
    [isinstance(node, Storage)] reads the global name [Storage] before it
    tests the node; the blocks read are the model's components [Storage]
    and [InvestmentStorage]. *)
Definition results_node (m : Model.t) (ρ : Var.t → float)
    (res : result_dict) (nd : Node.t) : result result_dict :=
  let n := Node.label nd in
  let res :=
    if bool_decide (Node.outputs nd ≠ []) then setdefault res n else res in
  res ← for_each
          (λ res o, series ← flow_values m ρ n o; set_series res n o series)
          (Node.outputs nd) res;
  res ← for_each
          (λ res i,
             let res := setdefault res i in
             series ← flow_values m ρ i n; set_series res i n series)
          (Node.inputs nd) res;
  _ ← global_name "Storage";
  if Node.is_Storage nd then
    let res := setdefault res n in
    storage ← component m klass.Storage;
    value ←
      (if bool_decide (is_Some (Block.vars storage !! "capacity"))
       then capacity_values m ρ klass.Storage n
       else capacity_values m ρ klass.InvestmentStorage n);
    set_series res n n value
  else Ok res.

(** [OperationalModel.results()] on a solved model: [ρ] gives the [value]
    of every variable. The attribute [result.objective] is not part of the
    dictionary and is left out. *)
Definition results (m : Model.t) (ρ : Var.t → float) : result result_dict :=
  for_each (results_node m ρ) (EnergySystem.nodes (Model.es m)) ∅.

End OperationalModel.

(** * Examples

    The components of the docstrings of components.py, used to run the
    embedding. *)

Module examples.

(** A flow with keyword attributes only. *)
Definition flow_with (attrs : list (string * plumbing.pyobj)) : Flow.t :=
  {| Flow.nominal_value := None; Flow.investment := None;
     Flow.attrs := list_to_map attrs |}.

(** The electrical flow of the plant of the docstring of [GenericCHP]. *)
Definition ccet_power : Flow.t :=
  flow_with [("P_max_woDH", plumbing.PyList [155.946%Q]);
             ("P_min_woDH", plumbing.PyList [68.787%Q]);
             ("Eta_el_max_woDH", plumbing.PyList [0.525%Q]);
             ("Eta_el_min_woDH", plumbing.PyList [0.444%Q])].

(** An electrical flow whose minimum and maximum operating points
    coincide. *)
Definition one_point_power : Flow.t :=
  flow_with [("P_max_woDH", plumbing.PyList [100%Q]);
             ("P_min_woDH", plumbing.PyList [100%Q]);
             ("Eta_el_max_woDH", plumbing.PyList [0.5%Q]);
             ("Eta_el_min_woDH", plumbing.PyList [0.5%Q])].

(** An electrical flow with two-step capacities and scalar efficiencies,
    wrapped by [Sequence]. *)
Definition scalar_efficiency_power : Flow.t :=
  flow_with
    [("P_max_woDH", plumbing.PyList [155.946%Q; 150%Q]);
     ("P_min_woDH", plumbing.PyList [68.787%Q; 70%Q]);
     ("Eta_el_max_woDH", plumbing.Sequence (plumbing.PyNum 0.525));
     ("Eta_el_min_woDH", plumbing.Sequence (plumbing.PyNum 0.444))].

(** The plant [ccet] of the docstring of [GenericCHP]. *)
Definition ccet : GenericCHP.t :=
  {| GenericCHP.label := "combined_cycle_extraction_turbine";
     GenericCHP.fuel_input :=
       [("commodityBus",
         flow_with [("H_L_FG_share_max", plumbing.PyList [0.183%Q])])];
     GenericCHP.electrical_output := [("electricityBus", ccet_power)];
     GenericCHP.heat_output :=
       [("heatBus", flow_with [("Q_CW_min", plumbing.PyList [10.552%Q])])];
     GenericCHP.Beta := plumbing.PyList [0.122%Q];
     GenericCHP.back_pressure := Some false;
     GenericCHP._alphas := None |}.

(** The two storages of the docstring of [GenericStorage], between the
    flows 0 and 1 (the first) and 2 and 3 (the second) of the heap. *)
Definition my_flows : heap :=
  {[ 0 := flow_with []; 1 := flow_with [];
     2 := flow_with []; 3 := flow_with [] ]}.

Definition my_storage_kwargs : GenericStorage.kwargs :=
  {| GenericStorage.kw_label := "storage";
     GenericStorage.kw_inputs := [("my_bus", 0)];
     GenericStorage.kw_outputs := [("my_bus", 1)];
     GenericStorage.kw_nominal_capacity := Some 1000%Q;
     GenericStorage.kw_nominal_input_capacity_ratio := Some (1 # 6)%Q;
     GenericStorage.kw_nominal_output_capacity_ratio := Some (1 # 6)%Q;
     GenericStorage.kw_initial_capacity := Some 0%Q;
     GenericStorage.kw_capacity_loss := Some (plumbing.PyNum 0.01);
     GenericStorage.kw_inflow_conversion_factor := Some (plumbing.PyNum 0.9);
     GenericStorage.kw_outflow_conversion_factor :=
       Some (plumbing.PyNum 0.93);
     GenericStorage.kw_capacity_max := Some (plumbing.PyNum 0.9);
     GenericStorage.kw_capacity_min := None;
     GenericStorage.kw_investment := None |}.

Definition my_investment_storage_kwargs : GenericStorage.kwargs :=
  {| GenericStorage.kw_label := "investment_storage";
     GenericStorage.kw_inputs := [("my_bus", 2)];
     GenericStorage.kw_outputs := [("my_bus", 3)];
     GenericStorage.kw_nominal_capacity := None;
     GenericStorage.kw_nominal_input_capacity_ratio := Some (1 # 6)%Q;
     GenericStorage.kw_nominal_output_capacity_ratio := Some (1 # 6)%Q;
     GenericStorage.kw_initial_capacity := None;
     GenericStorage.kw_capacity_loss := Some (plumbing.PyNum 0.02);
     GenericStorage.kw_inflow_conversion_factor := Some (plumbing.PyNum 1);
     GenericStorage.kw_outflow_conversion_factor :=
       Some (plumbing.PyNum 0.8);
     GenericStorage.kw_capacity_max := None;
     GenericStorage.kw_capacity_min := None;
     GenericStorage.kw_investment :=
       Some {| Investment.maximum := None;
               Investment.ep_costs := Some 50%Q |} |}.

Definition my_storage : GenericStorage.t :=
  GenericStorage.attributes my_storage_kwargs.
Definition my_investment_storage : GenericStorage.t :=
  GenericStorage.attributes my_investment_storage_kwargs.

(** The bus and the two storages as nodes, and the groups the storages fall
    in. *)
Definition storage_system : EnergySystem.t :=
  {| EnergySystem.nodes :=
       [ {| Node.label := "my_bus";
            Node.inputs := ["storage"; "investment_storage"];
            Node.outputs := ["storage"; "investment_storage"];
            Node.is_Storage := false |};
         {| Node.label := "storage";
            Node.inputs := ["my_bus"]; Node.outputs := ["my_bus"];
            Node.is_Storage := false |};
         {| Node.label := "investment_storage";
            Node.inputs := ["my_bus"]; Node.outputs := ["my_bus"];
            Node.is_Storage := false |} ];
     EnergySystem.groups :=
       {[ "my_bus" := "my_bus"; "storage" := "storage";
          "investment_storage" := "investment_storage" ]};
     EnergySystem.group_GenericStorageBlock := Some [my_storage];
     EnergySystem.group_GenericInvestmentStorageBlock :=
       Some [my_investment_storage];
     EnergySystem.group_GenericCHPBlock := None;
     EnergySystem.group_ExtractionTurbineCHPBlock := None |}.

(** Three hourly timesteps. *)
Definition three_hours : OperationalModel.DatetimeIndex :=
  {| OperationalModel.periods := 3;
     OperationalModel.nanos := 3600000000000 |}.

(** The blocks of the module [blocks] taken as creating nothing. *)
Definition no_blocks_create (_ : klass.t) (_ : Model.t) : result Block.t :=
  Ok Block.empty.
Definition no_blocks_objective (_ : klass.t) (_ : Model.t)
    : result pyomo.expr :=
  Ok (pyomo.Const 0).

(** The turbine of the docstring of [ExtractionTurbineCHP] and a second
    one between the same buses. *)
Definition et_chp (label : node) : ExtractionTurbineCHP.t :=
  ExtractionTurbineCHP.__init__ label
    ["commodityBus"] ["electricityBus"; "heatBus"]
    [("electricityBus", plumbing.PyNum 0.3); ("heatBus", plumbing.PyNum 0.5)]
    [("electricityBus", plumbing.PyNum 0.5)].

Definition variable_chp_gas : ExtractionTurbineCHP.t :=
  et_chp "variable_chp_gas".
Definition variable_chp_gas_2 : ExtractionTurbineCHP.t :=
  et_chp "variable_chp_gas_2".

Definition turbine_system : EnergySystem.t :=
  {| EnergySystem.nodes :=
       [ {| Node.label := "commodityBus"; Node.inputs := [];
            Node.outputs := ["variable_chp_gas"; "variable_chp_gas_2"];
            Node.is_Storage := false |};
         {| Node.label := "electricityBus";
            Node.inputs := ["variable_chp_gas"; "variable_chp_gas_2"];
            Node.outputs := []; Node.is_Storage := false |};
         {| Node.label := "heatBus";
            Node.inputs := ["variable_chp_gas"; "variable_chp_gas_2"];
            Node.outputs := []; Node.is_Storage := false |};
         {| Node.label := "variable_chp_gas";
            Node.inputs := ["commodityBus"];
            Node.outputs := ["electricityBus"; "heatBus"];
            Node.is_Storage := false |};
         {| Node.label := "variable_chp_gas_2";
            Node.inputs := ["commodityBus"];
            Node.outputs := ["electricityBus"; "heatBus"];
            Node.is_Storage := false |} ];
     EnergySystem.groups :=
       {[ "commodityBus" := "commodityBus";
          "electricityBus" := "electricityBus";
          "heatBus" := "heatBus";
          "variable_chp_gas" := "variable_chp_gas";
          "variable_chp_gas_2" := "variable_chp_gas_2" ]};
     EnergySystem.group_GenericStorageBlock := None;
     EnergySystem.group_GenericInvestmentStorageBlock := None;
     EnergySystem.group_GenericCHPBlock := None;
     EnergySystem.group_ExtractionTurbineCHPBlock :=
       Some [variable_chp_gas; variable_chp_gas_2] |}.

(** An energy system without nodes or groups. *)
Definition no_system : EnergySystem.t :=
  {| EnergySystem.nodes := [];
     EnergySystem.groups := ∅;
     EnergySystem.group_GenericStorageBlock := None;
     EnergySystem.group_GenericInvestmentStorageBlock := None;
     EnergySystem.group_GenericCHPBlock := None;
     EnergySystem.group_ExtractionTurbineCHPBlock := None |}.

(** A model of [N] timesteps over the flows [FLOWS], whose per-step
    duration is the series [timeincrement]. *)
Definition model (es : EnergySystem.t) (N : nat)
    (timeincrement : plumbing.pyobj) (FLOWS : list (node * node))
    : Model.t :=
  {| Model.es := es;
     Model.timesteps := py.range N;
     Model.timeincrement := timeincrement;
     Model._constraint_groups := [];
     Model.FLOWS := FLOWS;
     Model.TIMESTEPS := py.range N;
     Model.previous_timesteps :=
       match OperationalModel.make_previous_timesteps
               (py.range N) (py.range N) with
       | Ok previous => previous
       | Raise _ => ∅
       end;
     Model.components := [] |}.

(** One timestep and the three flows of [ccet]. *)
Definition ccet_model : Model.t :=
  model no_system 1 (plumbing.Sequence (plumbing.PyNum 1))
    [("commodityBus", "combined_cycle_extraction_turbine");
     ("combined_cycle_extraction_turbine", "electricityBus");
     ("combined_cycle_extraction_turbine", "heatBus")].

(** A solved model for [results]: a bus and two nodes of class [Storage],
    [plain] indexed in the block [Storage] and [sized] in the block
    [InvestmentStorage], over two timesteps. [with_plain] and [with_sized]
    say which of the two the system holds. *)
Definition storage_node (label : node) : Node.t :=
  {| Node.label := label; Node.inputs := ["bus"]; Node.outputs := ["bus"];
     Node.is_Storage := true |}.

Definition level_var : pyomo.VarData :=
  {| pyomo.lb := Some 0%Q; pyomo.ub := None; pyomo.value := None;
     pyomo.fixed := false |}.

Definition capacity_of (label : node) : gmap pyomo.index pyomo.VarData :=
  {[ pyomo.at_ label 0 := level_var; pyomo.at_ label 1 := level_var ]}.

Definition block_of (nodes : list node) : Block.t :=
  match nodes with
  | [] => Block.empty
  | _ =>
      {| Block.sets := ∅;
         Block.vars := {[ "capacity" := ⋃ (capacity_of <$> nodes) ]};
         Block.constraints := ∅ |}
  end.

Definition solved_model (with_plain with_sized : bool) : Model.t :=
  let plain := if with_plain then ["plain"] else [] in
  let sized := if with_sized then ["sized"] else [] in
  let es :=
    {| EnergySystem.nodes :=
         {| Node.label := "bus"; Node.inputs := plain ++ sized;
            Node.outputs := plain ++ sized; Node.is_Storage := false |}
         :: (storage_node <$> plain ++ sized);
       EnergySystem.groups := ∅;
       EnergySystem.group_GenericStorageBlock := None;
       EnergySystem.group_GenericInvestmentStorageBlock := None;
       EnergySystem.group_GenericCHPBlock := None;
       EnergySystem.group_ExtractionTurbineCHPBlock := None |} in
  Model.set_components
    [(klass.Bus, Block.empty); (klass.LinearTransformer, Block.empty);
     (klass.Storage, block_of plain); (klass.InvestmentFlow, Block.empty);
     (klass.InvestmentStorage, block_of sized); (klass.Flow, Block.empty);
     (klass.Discrete, Block.empty)]
    (model es 2 (plumbing.PyNum 1) (OperationalModel.flow_keys es)).

(** Values of the variables after a solve: the level of a storage at [t]
    is [10 + t], every flow is 1. *)
Definition solution (v : Var.t) : float :=
  match v with
  | Var.capacity _ _ t => inject_Z (10 + t)
  | _ => 1%Q
  end.

(** One timestep over the flows of the two turbines. *)
Definition turbine_model : Model.t :=
  model turbine_system 1 (plumbing.Sequence (plumbing.PyNum 1))
    (OperationalModel.flow_keys turbine_system).

End examples.

(** * Properties *)

(** ** Results *)

Lemma bind_Ok {A B} (a : A) (f : A → result B) : Ok a ≫= f = f a.
Proof. reflexivity. Qed.

Lemma bind_Raise {A B} (e : exn) (f : A → result B) :
  Raise e ≫= f = Raise e.
Proof. reflexivity. Qed.

Lemma bind_is_Ok {A B} (r : result A) (f : A → result B) (b : B) :
  r ≫= f = Ok b → ∃ a, r = Ok a ∧ f a = Ok b.
Proof. destruct r as [a|e]; [eauto|done]. Qed.

(** ** Python lists *)

Section list_facts.
Context {A : Type}.
Implicit Types (l : list A) (k : Z).

Lemma index_in_range l k :
  (0 ≤ k < Z.of_nat (length l))%Z → py.index l k = Ok (Z.to_nat k).
Proof.
  intros Hk. unfold py.index. rewrite bool_decide_eq_true_2; done.
Qed.

Lemma index_from_end l k :
  (- Z.of_nat (length l) ≤ k < 0)%Z →
  py.index l k = Ok (Z.to_nat (k + Z.of_nat (length l))).
Proof.
  intros Hk. unfold py.index.
  rewrite bool_decide_eq_false_2 by lia.
  rewrite bool_decide_eq_true_2; done.
Qed.

Lemma index_out_of_range l k :
  (Z.of_nat (length l) ≤ k ∨ k < - Z.of_nat (length l))%Z →
  py.index l k = Raise IndexError.
Proof.
  intros Hk. unfold py.index.
  rewrite !bool_decide_eq_false_2 by lia. done.
Qed.

Lemma index_bound l k i : py.index l k = Ok i → i < length l.
Proof.
  unfold py.index. repeat case_bool_decide; intros [= <-]; lia.
Qed.

Lemma index_raises l k e : py.index l k = Raise e → e = IndexError.
Proof.
  unfold py.index. repeat case_bool_decide; congruence.
Qed.

Lemma getitem_in_range l k :
  (0 ≤ k < Z.of_nat (length l))%Z →
  ∃ x, py.getitem l k = Ok x ∧ l !! Z.to_nat k = Some x.
Proof.
  intros Hk. unfold py.getitem. rewrite index_in_range by done. simpl.
  destruct (lookup_lt_is_Some_2 l (Z.to_nat k)) as [x Hx]; [lia|].
  exists x. by rewrite Hx.
Qed.

Lemma getitem_from_end l k :
  (- Z.of_nat (length l) ≤ k < 0)%Z → is_Ok (py.getitem l k).
Proof.
  intros Hk. unfold py.getitem. rewrite index_from_end by done. simpl.
  destruct (lookup_lt_is_Some_2 l (Z.to_nat (k + Z.of_nat (length l))))
    as [x Hx]; [lia|].
  exists x. by rewrite Hx.
Qed.

Lemma getitem_out_of_range l k :
  (Z.of_nat (length l) ≤ k ∨ k < - Z.of_nat (length l))%Z →
  py.getitem l k = Raise IndexError.
Proof.
  intros Hk. unfold py.getitem. by rewrite index_out_of_range.
Qed.

Lemma getitem_raises l k e : py.getitem l k = Raise e → e = IndexError.
Proof.
  unfold py.getitem. destruct (py.index l k) as [i|e'] eqn:Hi; simpl.
  - destruct (l !! i); congruence.
  - intros [= <-]. by eapply index_raises.
Qed.

Lemma setitem_in_range l k v :
  (0 ≤ k < Z.of_nat (length l))%Z →
  py.setitem l k v = Ok (<[Z.to_nat k := v]> l).
Proof.
  intros Hk. unfold py.setitem. by rewrite index_in_range.
Qed.

Lemma setitem_length l k v l' :
  py.setitem l k v = Ok l' → length l' = length l.
Proof.
  unfold py.setitem. destruct (py.index l k); simpl; [|done].
  intros [= <-]. apply length_insert.
Qed.

Lemma setitem_raises l k v e : py.setitem l k v = Raise e → e = IndexError.
Proof.
  unfold py.setitem. destruct (py.index l k) eqn:Hi; simpl; [done|].
  intros [= <-]. by eapply index_raises.
Qed.

Lemma setitem_out_of_range l k v :
  (Z.of_nat (length l) ≤ k ∨ k < - Z.of_nat (length l))%Z →
  py.setitem l k v = Raise IndexError.
Proof.
  intros Hk. unfold py.setitem. by rewrite index_out_of_range.
Qed.

Lemma repeat_length (x : A) (n : Z) :
  Z.of_nat (length (py.repeat x n)) = Z.max 0 n.
Proof. unfold py.repeat. rewrite length_replicate. lia. Qed.

End list_facts.

(** ** [_Sequence] *)

Section Sequence_facts.
Context {A : Type}.
Implicit Types (s : plumbing._Sequence A) (k : Z).

Lemma extend_to_len s k :
  plumbing.__len__ (plumbing.extend_to s k)
  = Z.max (plumbing.__len__ s) (k + 1).
Proof.
  unfold plumbing.__len__, plumbing.extend_to. simpl.
  rewrite length_app, Nat2Z.inj_add, repeat_length. lia.
Qed.

Lemma extend_to_lookup s k i x :
  plumbing.data (plumbing.extend_to s k) !! i = Some x →
  plumbing.data s !! i = Some x ∨
  (length (plumbing.data s) ≤ i ∧ x = plumbing.default s).
Proof.
  unfold plumbing.extend_to, py.repeat. simpl. intros H.
  apply lookup_app_Some in H as [H|[Hi H]]; [by left|right].
  apply lookup_replicate in H as [-> _]. done.
Qed.

Lemma extend_to_default_slot s k :
  (Z.of_nat (length (plumbing.data s)) ≤ k)%Z →
  plumbing.data (plumbing.extend_to s k) !! Z.to_nat k
  = Some (plumbing.default s).
Proof.
  intros Hk. unfold plumbing.extend_to, py.repeat. simpl.
  rewrite lookup_app_r by lia. apply lookup_replicate_2. lia.
Qed.

(** Reading inside the materialised part changes nothing. *)
Lemma getitem_materialised s k :
  (0 ≤ k < plumbing.__len__ s)%Z →
  ∃ x, plumbing.__getitem__ s k = (s, Ok x)
       ∧ plumbing.data s !! Z.to_nat k = Some x.
Proof.
  intros Hk. destruct (getitem_in_range (plumbing.data s) k Hk)
    as (x & Hx & Hl).
  exists x. unfold plumbing.__getitem__. by rewrite Hx.
Qed.

(** Reading past the end materialises the slots up to [k] and returns the
    default. *)
Lemma getitem_beyond s k :
  (plumbing.__len__ s ≤ k)%Z →
  plumbing.__getitem__ s k
  = (plumbing.extend_to s k, Ok (plumbing.default s)).
Proof.
  intros Hk. unfold plumbing.__len__ in Hk. unfold plumbing.__getitem__.
  rewrite getitem_out_of_range by lia.
  f_equal. unfold py.getitem.
  rewrite index_in_range.
  - rewrite bind_Ok. by rewrite extend_to_default_slot.
  - pose proof (extend_to_len s k) as H. unfold plumbing.__len__ in H. lia.
Qed.

Lemma getitem_from_the_end s k :
  (- plumbing.__len__ s ≤ k < 0)%Z →
  ∃ x, plumbing.__getitem__ s k = (s, Ok x).
Proof.
  intros Hk. destruct (getitem_from_end (plumbing.data s) k Hk) as [x Hx].
  exists x. unfold plumbing.__getitem__. by rewrite Hx.
Qed.

(** Below [-len(s)] nothing is appended and the second read fails too. *)
Lemma getitem_below s k :
  (k < - plumbing.__len__ s)%Z →
  (plumbing.__getitem__ s k).2 = Raise IndexError
  ∧ plumbing.__len__ (plumbing.__getitem__ s k).1 = plumbing.__len__ s.
Proof.
  intros Hk. unfold plumbing.__len__ in Hk. unfold plumbing.__getitem__.
  rewrite getitem_out_of_range by lia. cbn [fst snd].
  pose proof (extend_to_len s k) as H. unfold plumbing.__len__ in *.
  split; [|lia]. apply getitem_out_of_range. lia.
Qed.

Lemma setitem_materialised s k v :
  (0 ≤ k < plumbing.__len__ s)%Z →
  plumbing.__setitem__ s k v
  = ({| plumbing.default := plumbing.default s;
        plumbing.data := <[Z.to_nat k := v]> (plumbing.data s) |}, Ok ()).
Proof.
  intros Hk. unfold plumbing.__setitem__. by rewrite setitem_in_range.
Qed.

Lemma setitem_beyond s k v :
  (plumbing.__len__ s ≤ k)%Z →
  plumbing.__setitem__ s k v
  = ({| plumbing.default := plumbing.default s;
        plumbing.data :=
          <[Z.to_nat k := v]> (plumbing.data (plumbing.extend_to s k)) |},
     Ok ()).
Proof.
  intros Hk. unfold plumbing.__len__ in Hk. unfold plumbing.__setitem__.
  rewrite setitem_out_of_range by lia.
  rewrite setitem_in_range; [done|].
  pose proof (extend_to_len s k) as H. unfold plumbing.__len__ in H. lia.
Qed.

Lemma getitem_len s k :
  plumbing.__len__ (plumbing.__getitem__ s k).1
  = if bool_decide (- plumbing.__len__ s ≤ k)%Z
    then Z.max (plumbing.__len__ s) (k + 1) else plumbing.__len__ s.
Proof.
  case_bool_decide as Hk.
  - destruct (decide (k < 0)%Z) as [Hneg|Hpos].
    + destruct (getitem_from_the_end s k) as [x ->]; [lia|]. simpl. lia.
    + destruct (decide (k < plumbing.__len__ s)%Z).
      * destruct (getitem_materialised s k) as (x & -> & _); [lia|].
        simpl. lia.
      * rewrite getitem_beyond by lia. simpl. apply extend_to_len.
  - apply getitem_below. lia.
Qed.

Lemma setitem_len s k v :
  plumbing.__len__ (plumbing.__setitem__ s k v).1
  = if bool_decide (- plumbing.__len__ s ≤ k)%Z
    then Z.max (plumbing.__len__ s) (k + 1) else plumbing.__len__ s.
Proof.
  case_bool_decide as Hk.
  - destruct (decide (k < 0)%Z) as [Hneg|Hpos].
    + unfold plumbing.__setitem__.
      destruct (py.setitem (plumbing.data s) k v) as [d|e] eqn:Hs.
      * apply setitem_length in Hs. unfold plumbing.__len__ in *. simpl. lia.
      * unfold plumbing.__len__ in Hk.
        unfold py.setitem in Hs. rewrite index_from_end in Hs by lia. done.
    + destruct (decide (k < plumbing.__len__ s)%Z).
      * rewrite setitem_materialised by lia.
        unfold plumbing.__len__ in *. simpl. rewrite length_insert. lia.
      * rewrite setitem_beyond by lia.
        unfold plumbing.__len__ at 1. simpl. rewrite length_insert.
        apply extend_to_len.
  - unfold plumbing.__len__ in Hk. unfold plumbing.__setitem__.
    rewrite setitem_out_of_range by lia.
    pose proof (extend_to_len s k) as H. unfold plumbing.__len__ in *.
    rewrite setitem_out_of_range by lia. cbn [fst snd]. lia.
Qed.

End Sequence_facts.

Section Sequence_claims.
Context {A : Type}.
Implicit Types (s : plumbing._Sequence A) (k : Z).

Lemma getitem_default s k :
  plumbing.default (plumbing.__getitem__ s k).1 = plumbing.default s.
Proof.
  unfold plumbing.__getitem__.
  destruct (py.getitem (plumbing.data s) k) as [|[]]; done.
Qed.

Lemma getitem_constant s k :
  plumbing.constant s → plumbing.constant (plumbing.__getitem__ s k).1.
Proof.
  intros Hs. unfold plumbing.__getitem__.
  destruct (py.getitem (plumbing.data s) k) as [|e] eqn:Hg; [done|].
  apply getitem_raises in Hg as ->. cbn [fst].
  intros i x Hx. apply extend_to_lookup in Hx as [Hx|[_ ->]]; [|done].
  by apply (Hs i).
Qed.

Lemma only_read_constant d s :
  plumbing.only_read d s → plumbing.constant s ∧ plumbing.default s = d.
Proof.
  induction 1 as [|s k _ [IH1 IH2]].
  - split; [|done]. intros i x. simpl. by rewrite lookup_nil.
  - split; [by apply getitem_constant|]. by rewrite getitem_default.
Qed.

Lemma constant_read s k :
  plumbing.constant s → (0 ≤ k)%Z →
  (plumbing.__getitem__ s k).2 = Ok (plumbing.default s).
Proof.
  intros Hs Hk. destruct (decide (k < plumbing.__len__ s)%Z).
  - destruct (getitem_materialised s k) as (x & -> & Hx); [lia|].
    apply Hs in Hx as ->. done.
  - by rewrite getitem_beyond by lia.
Qed.

Lemma getitem_is_Ok s k :
  (- plumbing.__len__ s ≤ k)%Z → is_Ok (plumbing.__getitem__ s k).2.
Proof.
  intros Hk. destruct (decide (k < 0)%Z).
  - destruct (getitem_from_the_end s k) as [x ->]; [lia|]. by exists x.
  - destruct (decide (k < plumbing.__len__ s)%Z).
    + destruct (getitem_materialised s k) as (x & -> & _); [lia|].
      by exists x.
    + rewrite getitem_beyond by lia. by eexists.
Qed.

Lemma setitem_is_Ok s k v :
  (- plumbing.__len__ s ≤ k)%Z → (plumbing.__setitem__ s k v).2 = Ok ().
Proof.
  intros Hk. destruct (decide (k < 0)%Z).
  - unfold plumbing.__len__ in Hk. unfold plumbing.__setitem__, py.setitem.
    by rewrite index_from_end by lia.
  - destruct (decide (k < plumbing.__len__ s)%Z).
    + by rewrite setitem_materialised by lia.
    + by rewrite setitem_beyond by lia.
Qed.

(** C4, as amended. For a [_Sequence] made by wrapping a scalar [d] and
    only read since, reading any index [k >= 0] returns [d]. After a read or
    a write at an index [k >= 0], in any state, the length is the larger of
    the length before and [k + 1]; it is [k + 1] when nothing was
    materialised before. *)
Theorem constant_sequence_read_and_length (d : A) s k (v : A) :
  (0 ≤ k)%Z →
  (plumbing.only_read d s → (plumbing.__getitem__ s k).2 = Ok d)
  ∧ plumbing.__len__ (plumbing.__getitem__ s k).1
    = Z.max (plumbing.__len__ s) (k + 1)
  ∧ (plumbing.__setitem__ s k v).2 = Ok ()
  ∧ plumbing.__len__ (plumbing.__setitem__ s k v).1
    = Z.max (plumbing.__len__ s) (k + 1)
  ∧ (plumbing.__len__ s = 0%Z →
     plumbing.__len__ (plumbing.__getitem__ s k).1 = (k + 1)%Z
     ∧ plumbing.__len__ (plumbing.__setitem__ s k v).1 = (k + 1)%Z).
Proof.
  intros Hk.
  assert (0 ≤ plumbing.__len__ s)%Z as Hlen by (unfold plumbing.__len__; lia).
  assert (plumbing.__len__ (plumbing.__getitem__ s k).1
          = Z.max (plumbing.__len__ s) (k + 1)) as Hget.
  { rewrite getitem_len, bool_decide_eq_true_2 by lia. done. }
  assert (plumbing.__len__ (plumbing.__setitem__ s k v).1
          = Z.max (plumbing.__len__ s) (k + 1)) as Hset.
  { rewrite setitem_len, bool_decide_eq_true_2 by lia. done. }
  repeat split.
  - intros Hs. apply only_read_constant in Hs as [Hc <-].
    by apply constant_read.
  - done.
  - apply setitem_is_Ok. lia.
  - done.
  - lia.
  - lia.
Qed.

(** C5, as amended. Reading or writing a [_Sequence] at an index
    [k >= -len(s)] raises nothing; below [-len(s)] it may. Whatever the
    index, the length after a read or a write is at least the length
    before. *)
Theorem sequence_indexing_total_and_monotone s k (v : A) :
  ((- plumbing.__len__ s ≤ k)%Z →
   is_Ok (plumbing.__getitem__ s k).2
   ∧ (plumbing.__setitem__ s k v).2 = Ok ())
  ∧ (plumbing.__len__ s ≤ plumbing.__len__ (plumbing.__getitem__ s k).1)%Z
  ∧ (plumbing.__len__ s ≤ plumbing.__len__ (plumbing.__setitem__ s k v).1)%Z.
Proof.
  split; [|split].
  - intros Hk. split; [by apply getitem_is_Ok|by apply setitem_is_Ok].
  - rewrite getitem_len. case_bool_decide; lia.
  - rewrite setitem_len. case_bool_decide; lia.
Qed.

End Sequence_claims.

(** [Sequence(42)], read at 2 and then at 0. *)
Lemma constant_sequence_read_and_length_witness :
  let s := (plumbing.__getitem__
              {| plumbing.default := 42%Q; plumbing.data := [] |} 2).1 in
  (0 ≤ 0)%Z
  ∧ plumbing.only_read 42%Q s
  ∧ (plumbing.__getitem__ s 0).2 = Ok 42%Q
  ∧ plumbing.__len__ (plumbing.__getitem__ s 0).1 = 3%Z.
Proof.
  pose proof (constant_sequence_read_and_length 42%Q
    (plumbing.__getitem__
       {| plumbing.default := 42%Q; plumbing.data := [] |} 2).1 0 23%Q)
    as H.
  assert (plumbing.only_read 42%Q
            (plumbing.__getitem__
               {| plumbing.default := 42%Q; plumbing.data := [] |} 2).1)
    as Hs by (apply plumbing.only_read_read; constructor).
  destruct H as (Hread & Hlen & _); [lia|].
  cbv zeta. split; [lia|]. split; [exact Hs|].
  split; [exact (Hread Hs)|exact Hlen].
Defined.

(** C4 as stated fails: on [Sequence(42)] read at index 2, a read at index
    0 leaves the length at 3, not at [0 + 1]; and after the write
    [s[0] = 23] of the docstring, index 0 reads 23, not the default. *)
Lemma constant_sequence_length_counterexample :
  let fresh := {| plumbing.default := 42%Q; plumbing.data := [] |} in
  let s := (plumbing.__getitem__ fresh 2).1 in
  let s' := (plumbing.__setitem__ s 0 23%Q).1 in
  plumbing.Sequence (plumbing.PyNum 42) = plumbing.PySeq fresh
  ∧ plumbing.__len__ s = 3%Z
  ∧ plumbing.__len__ (plumbing.__getitem__ s 0).1 ≠ (0 + 1)%Z
  ∧ plumbing.__len__ s' ≠ (0 + 1)%Z
  ∧ (plumbing.__getitem__ s' 0).2 = Ok 23%Q
  ∧ (plumbing.__getitem__ s' 0).2 ≠ Ok (plumbing.default s').
Proof. vm_compute. repeat split; congruence. Qed.

(** [Sequence(42)] read at index 0; its last slot read as [s[-1]]. *)
Lemma sequence_indexing_total_and_monotone_witness :
  let s := (plumbing.__getitem__
              {| plumbing.default := 42%Q; plumbing.data := [] |} 0).1 in
  (- plumbing.__len__ s ≤ -1)%Z
  ∧ is_Ok (plumbing.__getitem__ s (-1)).2
  ∧ (plumbing.__len__ s ≤ plumbing.__len__ (plumbing.__getitem__ s (-1)).1)%Z.
Proof.
  pose proof (sequence_indexing_total_and_monotone
    (plumbing.__getitem__
       {| plumbing.default := 42%Q; plumbing.data := [] |} 0).1 (-1) 0%Q)
    as (Htotal & Hmono & _).
  assert (- plumbing.__len__
              (plumbing.__getitem__
                 {| plumbing.default := 42%Q; plumbing.data := [] |} 0).1
          ≤ -1)%Z as Hk by (vm_compute; congruence).
  cbv zeta. split; [exact Hk|].
  split; [exact (proj1 (Htotal Hk))|exact Hmono].
Defined.

(** C5 as stated fails: [Sequence(42)[-1]] raises [IndexError], since
    nothing is materialised and [[default] * (-1 - 0 + 1)] is empty. *)
Lemma sequence_indexing_negative_counterexample :
  plumbing.read (plumbing.Sequence (plumbing.PyNum 42)) (-1)
  = Raise IndexError
  ∧ ¬ is_Ok (plumbing.__getitem__
               {| plumbing.default := 42%Q; plumbing.data := [] |} (-1)).2.
Proof. split; [reflexivity|]. intros [x Hx]. vm_compute in Hx. done. Qed.

(** ** The time index *)

Lemma dict_snoc `{Countable K} {V} (l : list (K * V)) (kv : K * V) :
  py.dict (l ++ [kv]) = <[kv.1 := kv.2]> (py.dict l).
Proof. unfold py.dict. by rewrite foldl_snoc. Qed.

(** With distinct keys a dict holds exactly its pairs. *)
Lemma dict_lookup `{Countable K} {V} (l : list (K * V)) (k : K) (v : V) :
  NoDup l.*1 → (k, v) ∈ l → py.dict l !! k = Some v.
Proof.
  induction l as [|[k' v'] l IH] using rev_ind; intros Hnd Hin.
  - by apply elem_of_nil in Hin.
  - rewrite dict_snoc. simpl.
    rewrite fmap_app in Hnd. apply NoDup_app in Hnd as (Hl & Hfresh & _).
    apply elem_of_app in Hin as [Hin|Hin].
    + rewrite lookup_insert_ne; [by apply IH|].
      intros ->. apply (Hfresh k); [|simpl; left].
      apply list_elem_of_fmap. by exists (k, v).
    + apply list_elem_of_singleton in Hin as [= -> ->].
      apply lookup_insert_eq.
Qed.

Lemma zip_elem {A B} (l : list A) (k : list B) i x y :
  l !! i = Some x → k !! i = Some y → (x, y) ∈ zip l k.
Proof.
  intros Hl Hk. apply list_elem_of_lookup. exists i.
  by rewrite lookup_zip_with, Hl, Hk.
Qed.

Lemma range_length n : length (py.range n) = n.
Proof. unfold py.range. by rewrite length_fmap, length_seq. Qed.

Lemma range_lookup n i : i < n → py.range n !! i = Some (Z.of_nat i).
Proof.
  intros Hi. unfold py.range.
  by rewrite list_lookup_fmap, lookup_seq_lt.
Qed.

Lemma range_NoDup n : NoDup (py.range n).
Proof.
  unfold py.range. apply NoDup_fmap_2; [apply _|apply NoDup_seq].
Qed.

Lemma range_elem n (t : Z) : t ∈ py.range n ↔ (0 ≤ t < Z.of_nat n)%Z.
Proof.
  unfold py.range. rewrite list_elem_of_fmap. split.
  - intros (i & -> & Hi). apply elem_of_seq in Hi. lia.
  - intros Ht. exists (Z.to_nat t). split; [lia|].
    apply elem_of_seq. lia.
Qed.

(** C8. For a model with [N >= 1] timesteps the dictionary
    [previous_timesteps] of lines 153-157 is built without an exception;
    it maps 0 to [N - 1] and every [t] with [1 <= t <= N - 1] to
    [t - 1]. *)
Theorem previous_timesteps_wraps (N : nat) :
  1 ≤ N →
  ∃ previous,
    OperationalModel.make_previous_timesteps (py.range N) (py.range N)
    = Ok previous
    ∧ previous !! 0%Z = Some (Z.of_nat N - 1)%Z
    ∧ ∀ t : Z, (1 ≤ t ≤ Z.of_nat N - 1)%Z → previous !! t = Some (t - 1)%Z.
Proof.
  intros HN. unfold OperationalModel.make_previous_timesteps.
  assert (py.getitem (py.range N) (-1) = Ok (Z.of_nat N - 1)%Z) as ->.
  { unfold py.getitem. rewrite index_from_end by (rewrite range_length; lia).
    rewrite bind_Ok, range_length, range_lookup by lia.
    f_equal. lia. }
  rewrite bind_Ok.
  rewrite setitem_in_range by (rewrite length_fmap, range_length; lia).
  rewrite bind_Ok. eexists. split; [done|].
  assert (NoDup (zip (py.range N)
                     (<[Z.to_nat 0 := (Z.of_nat N - 1)%Z]>
                        ((λ x : Z, (x - 1)%Z) <$> py.range N))).*1) as Hnd.
  { rewrite fst_zip; [apply range_NoDup|].
    by rewrite length_insert, length_fmap. }
  split.
  - apply dict_lookup; [done|].
    apply (zip_elem _ _ 0).
    + apply range_lookup. lia.
    + apply list_lookup_insert_eq. rewrite length_fmap, range_length. lia.
  - intros t Ht. apply dict_lookup; [done|].
    apply (zip_elem _ _ (Z.to_nat t)).
    + rewrite range_lookup by lia. f_equal. lia.
    + rewrite list_lookup_insert_ne by lia.
      rewrite list_lookup_fmap, range_lookup by lia. simpl. f_equal. lia.
Qed.

(** Three timesteps: 0, 1, 2. *)
Lemma previous_timesteps_wraps_witness :
  1 ≤ 3
  ∧ ∃ previous,
      OperationalModel.make_previous_timesteps (py.range 3) (py.range 3)
      = Ok previous
      ∧ previous !! 0%Z = Some 2%Z
      ∧ previous !! 1%Z = Some 0%Z
      ∧ previous !! 2%Z = Some 1%Z.
Proof.
  split; [lia|].
  destruct (previous_timesteps_wraps 3) as (previous & Hp & H0 & Ht); [lia|].
  exists previous. split; [exact Hp|]. split; [exact H0|].
  split; [apply (Ht 1%Z); lia|apply (Ht 2%Z); lia].
Defined.


(** ** The constructor of [OperationalModel] *)

Section OperationalModel_facts.
Variable blocks_create : klass.t → Model.t → result Block.t.
Variable blocks_objective : klass.t → Model.t → result pyomo.expr.

Local Abbreviation init :=
  (OperationalModel.__init__ blocks_create blocks_objective).
Local Abbreviation create_blocks :=
  (OperationalModel.create_blocks blocks_create).

Lemma add_component_Ok m name block m' :
  OperationalModel.add_component m name block = Ok m' →
  (name ∉ py.keys (Model.components m))
  ∧ m' = Model.set_components (Model.components m ++ [(name, block)]) m.
Proof.
  unfold OperationalModel.add_component. case_bool_decide; [done|].
  by intros [= <-].
Qed.

Lemma fill_component_keys m name block :
  py.keys (Model.components (OperationalModel.fill_component m name block))
  = py.keys (Model.components m).
Proof.
  unfold OperationalModel.fill_component, py.keys. simpl.
  rewrite <- list_fmap_compose. apply list_fmap_ext.
  intros i [k b] _. simpl. by case_decide.
Qed.

(** The loop over the groups enters one component per group, in order, and
    changes nothing else of the model. *)
Lemma create_blocks_Ok groups m m' :
  create_blocks groups m = Ok m' →
  py.keys (Model.components m') = py.keys (Model.components m) ++ groups
  ∧ Model._constraint_groups m' = Model._constraint_groups m
  ∧ Model.TIMESTEPS m' = Model.TIMESTEPS m
  ∧ Model.previous_timesteps m' = Model.previous_timesteps m
  ∧ Model.timeincrement m' = Model.timeincrement m.
Proof.
  revert m. induction groups as [|g groups IH]; intros m; simpl.
  - intros [= <-]. by rewrite app_nil_r.
  - intros H. apply bind_is_Ok in H as (m1 & Hadd & H).
    apply bind_is_Ok in H as (block & _ & H).
    apply add_component_Ok in Hadd as [_ ->].
    apply IH in H as (Hkeys & -> & -> & -> & ->).
    rewrite Hkeys, fill_component_keys. simpl.
    unfold py.keys. rewrite fmap_app. simpl.
    by rewrite <- app_assoc.
Qed.

(** What the constructor does to the shared list does not depend on what
    happens after line 138. *)
Lemma init_shared es kw shared index :
  OperationalModel.timeindex kw = Some index →
  (init es kw shared).1
  = shared ++ default [] (OperationalModel.constraint_groups kw).
Proof. intros H. unfold OperationalModel.__init__. by rewrite H. Qed.

Lemma init_Ok es kw shared shared' m objective :
  init es kw shared = (shared', Ok (m, objective)) →
  shared' = shared ++ default [] (OperationalModel.constraint_groups kw)
  ∧ Model._constraint_groups m = shared'
  ∧ py.keys (Model.components m) = shared'
  ∧ ∃ index,
      OperationalModel.timeindex kw = Some index
      ∧ Model.TIMESTEPS m = py.range (OperationalModel.periods index)
      ∧ OperationalModel.make_previous_timesteps
          (py.range (OperationalModel.periods index))
          (py.range (OperationalModel.periods index))
        = Ok (Model.previous_timesteps m)
      ∧ Model.timeincrement m
        = plumbing.PyNum
            (inject_Z (OperationalModel.nanos index) / 3600000000000)%Q.
Proof.
  unfold OperationalModel.__init__.
  destruct (OperationalModel.timeindex kw) as [index|]; [|done].
  intros [= <- H].
  apply bind_is_Ok in H as (previous & Hprev & H).
  apply bind_is_Ok in H as (m' & Hblocks & H).
  apply bind_is_Ok in H as (obj & _ & [= <- <-]).
  apply create_blocks_Ok in Hblocks as (Hkeys & Hgroups & HT & Hp & Hti).
  simpl in *. repeat split; [done|done|].
  exists index. rewrite HT, Hp, Hti. done.
Qed.

(** C9. A construction that names [constraint_groups] appends them to the
    list object shared by the class; a later construction, without the
    keyword, starts from that longer list and leaves it as it is: the list
    it iterates over still holds every added class, and the model it
    returns has a block of each of them. *)
Theorem constraint_groups_accumulate es1 kw1 es2 kw2 shared index1 index2
    added :
  OperationalModel.timeindex kw1 = Some index1 →
  OperationalModel.constraint_groups kw1 = Some added →
  OperationalModel.timeindex kw2 = Some index2 →
  OperationalModel.constraint_groups kw2 = None →
  let shared1 := (init es1 kw1 shared).1 in
  let second := init es2 kw2 shared1 in
  shared1 = shared ++ added
  ∧ second.1 = shared ++ added
  ∧ ∀ m objective,
      second.2 = Ok (m, objective) →
      Model._constraint_groups m = shared ++ added
      ∧ ∀ group, group ∈ added → group ∈ py.keys (Model.components m).
Proof.
  intros Hi1 Hg1 Hi2 Hg2 shared1 second.
  assert (shared1 = shared ++ added) as H1.
  { unfold shared1. rewrite (init_shared _ _ _ index1), Hg1; done. }
  assert (second.1 = shared ++ added) as H2.
  { unfold second. rewrite (init_shared _ _ _ index2), Hg2, H1; [|done].
    simpl. by rewrite app_nil_r. }
  split; [done|]. split; [done|].
  intros m objective Hm.
  destruct second as [shared2 r] eqn:Hsecond. simpl in *. subst r shared2.
  apply init_Ok in Hsecond as (_ & Hgroups & Hkeys & _).
  rewrite Hgroups, Hkeys. split; [done|].
  intros group Hin. apply elem_of_app. by right.
Qed.

End OperationalModel_facts.

(** An energy system without nodes, an hourly index of one period, and
    blocks of the module [blocks] that create nothing: the first model is
    built with [constraint_groups=[GenericStorageBlock]], the second
    without the keyword. *)
Lemma constraint_groups_accumulate_witness :
  let es := {| EnergySystem.nodes := [];
               EnergySystem.groups := ∅;
               EnergySystem.group_GenericStorageBlock := None;
               EnergySystem.group_GenericInvestmentStorageBlock := None;
               EnergySystem.group_GenericCHPBlock := None;
               EnergySystem.group_ExtractionTurbineCHPBlock := None |} in
  let hourly := {| OperationalModel.periods := 1;
                   OperationalModel.nanos := 3600000000000 |} in
  let kw1 := {| OperationalModel.timeindex := Some hourly;
                OperationalModel.constraint_groups :=
                  Some [klass.GenericStorageBlock] |} in
  let kw2 := {| OperationalModel.timeindex := Some hourly;
                OperationalModel.constraint_groups := None |} in
  let init :=
    OperationalModel.__init__ (λ _ _, Ok Block.empty)
                              (λ _ _, Ok (pyomo.Const 0)) in
  let shared1 := (init es kw1 OperationalModel.CONSTRAINT_GROUPS).1 in
  shared1 = OperationalModel.CONSTRAINT_GROUPS ++ [klass.GenericStorageBlock]
  ∧ (init es kw2 shared1).1 = shared1
  ∧ ∃ m objective,
      (init es kw2 shared1).2 = Ok (m, objective)
      ∧ klass.GenericStorageBlock ∈ py.keys (Model.components m).
Proof.
  intros es hourly kw1 kw2 init shared1.
  destruct (constraint_groups_accumulate
              (λ _ _, Ok Block.empty) (λ _ _, Ok (pyomo.Const 0))
              es kw1 es kw2 OperationalModel.CONSTRAINT_GROUPS
              hourly hourly [klass.GenericStorageBlock]
              eq_refl eq_refl eq_refl eq_refl) as (H1 & H2 & H3).
  change (shared1 = OperationalModel.CONSTRAINT_GROUPS
                    ++ [klass.GenericStorageBlock]) in H1.
  change ((init es kw2 shared1).1
          = OperationalModel.CONSTRAINT_GROUPS
            ++ [klass.GenericStorageBlock]) in H2.
  change (∀ m objective,
            (init es kw2 shared1).2 = Ok (m, objective) →
            Model._constraint_groups m
            = OperationalModel.CONSTRAINT_GROUPS
              ++ [klass.GenericStorageBlock]
            ∧ ∀ group, group ∈ [klass.GenericStorageBlock] →
                       group ∈ py.keys (Model.components m)) in H3.
  split; [exact H1|]. split; [by rewrite H2, H1|].
  destruct (init es kw2 shared1).2 as [[m objective]|e] eqn:Hr.
  - exists m, objective. split; [reflexivity|].
    apply (H3 m objective eq_refl). apply list_elem_of_singleton. done.
  - vm_compute in Hr. discriminate Hr.
Defined.

(** ** The constructor of [GenericStorage] *)

Section GenericStorage_facts.
Import GenericStorage.

Lemma attach_investment f : is_Some (Flow.investment (attach f)).
Proof.
  unfold attach. destruct (Flow.investment f) eqn:H; simpl; [|by eexists].
  rewrite H. by eexists.
Qed.

Lemma attach_nominal_value f :
  Flow.nominal_value (attach f) = Flow.nominal_value f.
Proof. unfold attach. by destruct (Flow.investment f); simpl. Qed.

Lemma attach_idemp f : attach (attach f) = attach f.
Proof.
  unfold attach. destruct (Flow.investment f) eqn:H; simpl; [|done].
  by rewrite H.
Qed.

Lemma attach_keeps f i : Flow.investment f = Some i → attach f = f.
Proof. unfold attach. by intros ->. Qed.

(** With an investment, the body of either loop raises on a flow with a
    nominal value and attaches an [Investment] otherwise. *)
Lemma check_flow_investment self ratio r (h : heap) f i :
  investment self = Some i → h !! r = Some f →
  check_flow self ratio r h
  = if not_None (Flow.nominal_value f) then (h, Raise AttributeError)
    else (<[r := attach f]> h, Ok ()).
Proof.
  intros Hi Hr. unfold check_flow, attach. rewrite Hr, Hi. simpl.
  by destruct (Flow.nominal_value f).
Qed.

Lemma check_flows_investment_Ok self ratio flows (h h' : heap) i :
  investment self = Some i →
  check_flows self ratio flows h = (h', Ok ()) →
  (∀ r, r ∈ flows → ∃ f, h !! r = Some f ∧ Flow.nominal_value f = None)
  ∧ ∀ r, h' !! r = if decide (r ∈ flows) then attach <$> h !! r else h !! r.
Proof.
  intros Hi. revert h. induction flows as [|r flows IH]; intros h H.
  - injection H as <-. split; [by intros r ?%elem_of_nil|].
    intros r. case_decide as Hc; [by apply elem_of_nil in Hc|done].
  - cbn [check_flows] in H. unfold mbind, method_bind in H.
    destruct (h !! r) as [f|] eqn:Hr;
      [|by unfold check_flow in H; rewrite Hr in H].
    rewrite (check_flow_investment _ _ _ _ f i) in H by done.
    destruct (Flow.nominal_value f) eqn:Hnv; cbn [not_None] in H; [done|].
    apply IH in H as [Hall Hh']. split.
    + intros r' [->|Hin]%elem_of_cons; [by exists f|].
      destruct (Hall r' Hin) as (f' & Hf' & Hnv').
      destruct (decide (r' = r)) as [->|Hne].
      * exists f. split; [done|]. done.
      * rewrite lookup_insert_ne in Hf' by done. by exists f'.
    + intros r'. rewrite Hh'.
      destruct (decide (r' = r)) as [->|Hne].
      * rewrite lookup_insert_eq, Hr.
        destruct (decide (r ∈ r :: flows)) as [_|Hc]; [|by destruct Hc; left].
        case_decide; simpl; [by rewrite attach_idemp|done].
      * rewrite lookup_insert_ne by done.
        destruct (decide (r' ∈ flows)) as [Hin|Hnin];
          destruct (decide (r' ∈ r :: flows)) as [Hin'|Hnin']; try done.
        -- destruct Hnin'. by right.
        -- by apply elem_of_cons in Hin' as [->|?].
Qed.

(** With an investment, either loop raises [AttributeError] when one of its
    flows has a nominal value. *)
Lemma check_flows_investment_raises self ratio flows (h : heap) i :
  investment self = Some i →
  (∀ r, r ∈ flows → is_Some (h !! r)) →
  (∃ r f, r ∈ flows ∧ h !! r = Some f ∧ Flow.nominal_value f ≠ None) →
  (check_flows self ratio flows h).2 = Raise AttributeError.
Proof.
  intros Hi. revert h. induction flows as [|r flows IH]; intros h Hheap Hbad.
  - destruct Hbad as (r & f & []%elem_of_nil & _).
  - simpl. unfold mbind, method_bind.
    destruct (Hheap r) as [f Hr]; [left|].
    rewrite (check_flow_investment _ _ _ _ f i) by done.
    destruct (Flow.nominal_value f) eqn:Hnv; simpl; [done|].
    apply IH.
    + intros r' Hin. apply lookup_insert_is_Some'. right.
      apply Hheap. by right.
    + destruct Hbad as (r' & f' & Hin & Hr' & Hnv').
      exists r', f'. apply elem_of_cons in Hin as [->|Hin].
      * congruence.
      * split; [done|]. split; [|done].
        rewrite lookup_insert_ne; [done|]. congruence.
Qed.

(** A loop that ran to its end left the nominal values as they were. *)
Lemma check_flows_investment_nominal self ratio flows (h h' : heap) i r :
  investment self = Some i →
  check_flows self ratio flows h = (h', Ok ()) →
  Flow.nominal_value <$> h' !! r = Flow.nominal_value <$> h !! r.
Proof.
  intros Hi H. destruct (check_flows_investment_Ok _ _ _ _ _ _ Hi H) as [_ Hh].
  rewrite Hh. case_decide; [|done].
  destruct (h !! r); simpl; [|done]. by rewrite attach_nominal_value.
Qed.

(** With an investment and every reference in the heap, a loop ends
    normally or with [AttributeError]. *)
Lemma check_flows_investment_result self ratio flows (h : heap) i :
  investment self = Some i →
  (∀ r, r ∈ flows → is_Some (h !! r)) →
  (check_flows self ratio flows h).2 = Ok ()
  ∨ (check_flows self ratio flows h).2 = Raise AttributeError.
Proof.
  intros Hi. revert h. induction flows as [|r flows IH]; intros h Hheap.
  - by left.
  - cbn [check_flows]. unfold mbind, method_bind.
    destruct (Hheap r) as [f Hr]; [left|].
    rewrite (check_flow_investment _ _ _ _ f i) by done.
    destruct (Flow.nominal_value f) eqn:Hnv; cbn [not_None]; [by right|].
    apply IH. intros r' Hin. apply lookup_insert_is_Some'. right.
    apply Hheap. by right.
Qed.

(** C10. When a [GenericStorage] is given an investment and its
    construction returns, every flow among its inputs and outputs is the
    flow it was before with an [Investment] attached where it had none, and
    has no nominal value; when one of those flows has a nominal value, the
    construction raises [AttributeError]. *)
Theorem storage_investment_flows kw (h : heap) i :
  kw_investment kw = Some i →
  let flows := py.values (kw_inputs kw) ++ py.values (kw_outputs kw) in
  (∀ h' self r,
     __init__ kw h = (h', Ok self) → r ∈ flows →
     ∃ f, h !! r = Some f
          ∧ h' !! r = Some (attach f)
          ∧ is_Some (Flow.investment (attach f))
          ∧ (∀ x, Flow.investment f = Some x →
                  Flow.investment (attach f) = Some x)
          ∧ Flow.nominal_value (attach f) = None)
  ∧ ((∀ r, r ∈ flows → is_Some (h !! r)) →
     (∃ r f, r ∈ flows ∧ h !! r = Some f ∧ Flow.nominal_value f ≠ None) →
     (__init__ kw h).2 = Raise AttributeError).
Proof.
  intros Hi flows. unfold __init__.
  cbv zeta.
  match goal with
  | |- context [check_flows ?s _ (py.values (inputs _))] => set (self := s)
  end.
  assert (investment self = Some i) as Hself by done.
  rewrite Hself. cbn [not_None andb].
  destruct (nominal_capacity self) eqn:Hnc; cbn [not_None]; [by split|].
  unfold mbind, method_bind.
  destruct (check_flows self (nominal_input_capacity_ratio self)
              (py.values (inputs self)) h) as [h1 r1] eqn:H1.
  split.
  - intros h' self' r Hinit Hin.
    destruct r1 as [[]|e]; [|done].
    destruct (check_flows self (nominal_output_capacity_ratio self)
                (py.values (outputs self)) h1) as [h2 r2] eqn:H2.
    destruct r2 as [[]|e]; [|done].
    injection Hinit as <- <-.
    destruct (check_flows_investment_Ok _ _ _ _ _ _ Hself H1) as [Hin1 Hh1].
    destruct (check_flows_investment_Ok _ _ _ _ _ _ Hself H2) as [Hin2 Hh2].
    assert (∃ f, h !! r = Some f ∧ Flow.nominal_value f = None
                 ∧ h2 !! r = Some (attach f)) as (f & Hf & Hnv & Hf2).
    { rewrite Hh2, Hh1.
      apply elem_of_app in Hin as [Hin|Hin].
      - destruct (Hin1 r Hin) as (f & Hf & Hnv). exists f.
        rewrite Hf. repeat case_decide; simpl; try done.
        by rewrite attach_idemp.
      - destruct (Hin2 r Hin) as (f1 & Hf1 & Hnv1).
        rewrite Hh1 in Hf1. rewrite (decide_True _ _ Hin).
        destruct (decide (r ∈ py.values (inputs self))).
        + destruct (h !! r) as [f|]; [|done]. exists f.
          injection Hf1 as <-. rewrite attach_nominal_value in Hnv1.
          simpl. by rewrite attach_idemp.
        + exists f1. by rewrite Hf1. }
    exists f. repeat split; try done.
    + apply attach_investment.
    + intros x Hx. by rewrite (attach_keeps _ x).
    + by rewrite attach_nominal_value.
  - intros Hheap Hbad.
    destruct (check_flows_investment_result self
                (nominal_input_capacity_ratio self)
                (py.values (inputs self)) h i Hself) as [Hr|Hr].
    { intros r Hin. apply Hheap, elem_of_app. by left. }
    + rewrite H1 in Hr. simpl in Hr. subst r1.
      destruct (check_flows_investment_Ok _ _ _ _ _ _ Hself H1)
        as [Hin1 Hh1].
      pose proof (check_flows_investment_raises self
                    (nominal_output_capacity_ratio self)
                    (py.values (outputs self)) h1 i Hself) as Hout.
      destruct (check_flows self (nominal_output_capacity_ratio self)
                  (py.values (outputs self)) h1) as [h2 r2].
      simpl in Hout. rewrite Hout; [done| |].
      * intros r Hin. rewrite Hh1.
        destruct (Hheap r) as [f Hf]; [apply elem_of_app; by right|].
        rewrite Hf. case_decide; by eexists.
      * destruct Hbad as (r & f & Hin & Hf & Hnv).
        apply elem_of_app in Hin as [Hin|Hin].
        -- destruct (Hin1 r Hin) as (f' & Hf' & Hnv'). congruence.
        -- exists r. rewrite Hh1, Hf.
           case_decide; eexists; (split; [done|]); (split; [done|]);
             by rewrite ?attach_nominal_value.
    + rewrite H1 in Hr. simpl in Hr. by subst r1.
Qed.

End GenericStorage_facts.

(** The investment storage of the class docstring: one bus, an input flow
    without [Investment] and an output flow that has one. *)
Lemma storage_investment_flows_witness :
  let plain := {| Flow.nominal_value := None; Flow.investment := None;
                  Flow.attrs := ∅ |} in
  let sized :=
    {| Flow.nominal_value := None;
       Flow.investment :=
         Some {| Investment.maximum := Some 100%Q;
                 Investment.ep_costs := Some 5%Q |};
       Flow.attrs := ∅ |} in
  let h : heap := {[ 0 := plain; 1 := sized ]} in
  let investment := {| Investment.maximum := None;
                       Investment.ep_costs := Some 50%Q |} in
  let kw :=
    {| GenericStorage.kw_label := "storage";
       GenericStorage.kw_inputs := [("my_bus", 0)];
       GenericStorage.kw_outputs := [("my_bus", 1)];
       GenericStorage.kw_nominal_capacity := None;
       GenericStorage.kw_nominal_input_capacity_ratio := Some (1 # 6)%Q;
       GenericStorage.kw_nominal_output_capacity_ratio := Some (1 # 6)%Q;
       GenericStorage.kw_initial_capacity := None;
       GenericStorage.kw_capacity_loss := Some (plumbing.PyNum (2 # 100));
       GenericStorage.kw_inflow_conversion_factor := Some (plumbing.PyNum 1);
       GenericStorage.kw_outflow_conversion_factor :=
         Some (plumbing.PyNum (8 # 10));
       GenericStorage.kw_capacity_max := None;
       GenericStorage.kw_capacity_min := None;
       GenericStorage.kw_investment := Some investment |} in
  GenericStorage.kw_investment kw = Some investment
  ∧ (∃ self, (GenericStorage.__init__ kw h).2 = Ok self)
  ∧ (GenericStorage.__init__ kw h).1 !! 0
    = Some (GenericStorage.attach plain)
  ∧ (GenericStorage.__init__ kw h).1 !! 1 = Some sized.
Proof.
  intros plain sized h investment kw.
  destruct (storage_investment_flows kw h investment eq_refl) as [Hok _].
  destruct (GenericStorage.__init__ kw h) as [h' [self|e]] eqn:Hinit;
    [|vm_compute in Hinit; discriminate Hinit].
  split; [reflexivity|]. split; [by exists self|].
  cbn [fst]. split.
  - destruct (Hok h' self 0 eq_refl) as (f & Hf & Hf' & _).
    { apply elem_of_app. left. by apply list_elem_of_singleton. }
    rewrite Hf'. f_equal. f_equal.
    vm_compute in Hf. injection Hf as <-. reflexivity.
  - destruct (Hok h' self 1 eq_refl) as (f & Hf & Hf' & _).
    { apply elem_of_app. right. by apply list_elem_of_singleton. }
    rewrite Hf'. f_equal.
    vm_compute in Hf. injection Hf as <-. reflexivity.
Defined.

(** ** Indexed constraints *)

Section Constraint_facts.
Context {I : Type} (key : I → pyomo.index).
Implicit Types (rule : I → result (option pyomo.constraint)).

Lemma Constraint_from_other indices rule built store k :
  pyomo.Constraint_from key indices rule built = Ok store →
  k ∉ key <$> indices → store !! k = built !! k.
Proof.
  revert built. induction indices as [|i indices IH]; intros built H Hk.
  - by injection H as <-.
  - cbn [pyomo.Constraint_from] in H.
    apply bind_is_Ok in H as (c & Hc & H).
    rewrite fmap_cons in Hk. apply not_elem_of_cons in Hk as [Hne Hk].
    rewrite (IH _ H Hk). destruct c; [|done].
    by rewrite lookup_insert_ne.
Qed.

(** A constraint built over indices with distinct keys holds, at the key of
    every index, what the rule returned there. *)
Lemma Constraint_from_lookup indices rule built store i :
  pyomo.Constraint_from key indices rule built = Ok store →
  NoDup (key <$> indices) → i ∈ indices →
  ∃ c, rule i = Ok c
       ∧ store !! key i = match c with
                          | Some c => Some c
                          | None => built !! key i
                          end.
Proof.
  revert built. induction indices as [|j indices IH]; intros built H Hnd Hin.
  - by apply elem_of_nil in Hin.
  - cbn [pyomo.Constraint_from] in H.
    apply bind_is_Ok in H as (c & Hc & H).
    rewrite fmap_cons in Hnd. apply NoDup_cons in Hnd as [Hfresh Hnd].
    apply elem_of_cons in Hin as [->|Hin].
    + exists c. split; [done|].
      rewrite (Constraint_from_other _ _ _ _ _ H Hfresh).
      destruct c; [apply lookup_insert_eq|done].
    + destruct (IH _ H Hnd Hin) as (c' & Hc' & Hs).
      exists c'. split; [done|]. rewrite Hs. destruct c'; [done|].
      destruct c; [|done]. rewrite lookup_insert_ne; [done|].
      intros Heq. apply Hfresh. rewrite Heq.
      apply list_elem_of_fmap. by exists i.
Qed.

Lemma Constraint_lookup indices rule store i :
  pyomo.Constraint key indices rule = Ok store →
  NoDup (key <$> indices) → i ∈ indices →
  ∃ c, rule i = Ok c ∧ store !! key i = c.
Proof.
  intros H Hnd Hin.
  destruct (Constraint_from_lookup _ _ _ _ _ H Hnd Hin) as (c & Hc & Hs).
  exists c. split; [done|]. rewrite Hs. by destruct c.
Qed.

End Constraint_facts.

Lemma product_elem {A} (S : list A) (T : list Z) n t :
  (n, t) ∈ pyomo.product S T ↔ n ∈ S ∧ t ∈ T.
Proof.
  unfold pyomo.product. rewrite list_elem_of_bind. split.
  - intros (n' & Ht & Hn). apply list_elem_of_bind in Ht as (t' & Ht & Ht').
    apply list_elem_of_singleton in Ht as [= -> ->]. done.
  - intros [Hn Ht]. exists n. split; [|done].
    apply list_elem_of_bind. exists t. split; [|done].
    by apply list_elem_of_singleton.
Qed.

(** Distinct labels and distinct timesteps give distinct indices. *)
Lemma product_keys_NoDup {A} (name : A → node) (S : list A) (T : list Z) :
  NoDup (name <$> S) → NoDup T →
  NoDup ((λ nt : A * Z, pyomo.at_ (name nt.1) nt.2) <$> pyomo.product S T).
Proof.
  intros HS HT. unfold pyomo.product.
  induction S as [|n S IH]; [constructor|].
  rewrite fmap_cons in HS. apply NoDup_cons in HS as [Hn HS].
  cbn [mbind list_bind]. rewrite fmap_app. apply NoDup_app. split; [|split].
  - clear -HT. induction T as [|t T IH]; [constructor|].
    apply NoDup_cons in HT as [Ht HT].
    cbn [mbind list_bind app fmap list_fmap]. simpl. constructor; [|by apply IH].
    intros Hin. apply list_elem_of_fmap in Hin as ([n' t'] & Heq & Hin).
    apply list_elem_of_bind in Hin as (t'' & Hin & Ht'').
    apply list_elem_of_singleton in Hin as [= -> ->].
    unfold pyomo.at_ in Heq. simpl in Heq. congruence.
  - intros k Hk1 Hk2.
    apply list_elem_of_fmap in Hk1 as ([n1 t1] & -> & Hin1).
    apply list_elem_of_bind in Hin1 as (t1' & Hin1 & _).
    apply list_elem_of_singleton in Hin1 as [= -> ->].
    apply list_elem_of_fmap in Hk2 as ([n2 t2] & Heq & Hin2).
    apply (product_elem S T) in Hin2 as [Hn2 _].
    unfold pyomo.at_ in Heq. simpl in Heq. injection Heq as Heq _.
    apply Hn. rewrite Heq. apply list_elem_of_fmap. by exists n2.
  - by apply IH.
Qed.

(** ** The GenericCHP block *)

(** What [_Q_max_res_rule] returns for a plant whose [Q_CW_min[t]] reads
    [q]: the expression [P + Q + H_L_FG_max + q*Y - H_F], as [== 0] when
    [back_pressure is True] and as [<= 0] otherwise. *)
Lemma Q_max_res_rule_Ok (n : GenericCHP.t) (t : Z) (q : float) :
  GenericCHPBlock.flow_attr (GenericCHP.heat_output n) "Q_CW_min" t = Ok q →
  ∃ c,
    GenericCHPBlock._Q_max_res_rule (n, t) = Ok (Some c)
    ∧ pyomo.rel c = (if bool_decide (GenericCHP.back_pressure n = Some true)
                     then pyomo.EQ else pyomo.LE)
    ∧ pyomo.rhs c = pyomo.Const 0
    ∧ ∀ ρ,
        let l := GenericCHP.label n in
        (pyomo.eval ρ (pyomo.lhs c)
         == ρ (Var.P l t) + ρ (Var.Q l t) + ρ (Var.H_L_FG_max l t)
            + q * ρ (Var.Y l t) - ρ (Var.H_F l t))%Q.
Proof.
  intros Hq. unfold GenericCHPBlock._Q_max_res_rule. cbn [fst snd].
  rewrite Hq, bind_Ok.
  destruct (GenericCHP.back_pressure n) as [[]|]; eexists;
    (split; [reflexivity|]); (split; [done|]); (split; [done|]);
    intros ρ; simpl; ring.
Qed.

(** C7. In a GenericCHP block that was created for plants with distinct
    labels over distinct timesteps, the constraint [Q_max_res] of every
    plant [n] and timestep [t] is
    [P + Q + H_L_FG_max + Q_CW_min[t]*Y - H_F <= 0] when [back_pressure] is
    false and the same expression [== 0] when it is true. *)
Theorem Q_max_res_constraint (m : Model.t) (group : list GenericCHP.t)
    (block : Block.t) (n : GenericCHP.t) (t : Z) (back_pressure : bool) :
  GenericCHPBlock._create m (Some group) = Ok block →
  NoDup (GenericCHP.label <$> group) → NoDup (Model.TIMESTEPS m) →
  n ∈ group → t ∈ Model.TIMESTEPS m →
  GenericCHP.back_pressure n = Some back_pressure →
  ∃ Q_max_res c q,
    Block.constraints block !! "Q_max_res" = Some Q_max_res
    ∧ Q_max_res !! pyomo.at_ (GenericCHP.label n) t = Some c
    ∧ GenericCHPBlock.flow_attr (GenericCHP.heat_output n) "Q_CW_min" t
      = Ok q
    ∧ ∀ ρ,
        let l := GenericCHP.label n in
        let expr :=
          (ρ (Var.P l t) + ρ (Var.Q l t) + ρ (Var.H_L_FG_max l t)
           + q * ρ (Var.Y l t) - ρ (Var.H_F l t))%Q in
        pyomo.holds ρ c
        ↔ if back_pressure then (expr == 0)%Q else (expr <= 0)%Q.
Proof.
  intros Hcreate Hgroup Hsteps Hn Ht Hbp.
  unfold GenericCHPBlock._create in Hcreate.
  do 15 (apply bind_is_Ok in Hcreate as (? & _ & Hcreate)).
  apply bind_is_Ok in Hcreate as (Q_max_res & HQ & Hcreate).
  do 2 (apply bind_is_Ok in Hcreate as (? & _ & Hcreate)).
  injection Hcreate as <-.
  destruct (Constraint_lookup _ _ _ _ (n, t) HQ) as (c & Hc & Hstore).
  { by apply (product_keys_NoDup GenericCHP.label). }
  { by apply product_elem. }
  unfold GenericCHPBlock._Q_max_res_rule in Hc. cbn [fst snd] in Hc.
  destruct (GenericCHPBlock.flow_attr (GenericCHP.heat_output n)
              "Q_CW_min" t) as [q|e] eqn:Hq; [|done].
  rewrite bind_Ok, Hbp in Hc.
  exists Q_max_res.
  destruct back_pressure; injection Hc as <-; eexists _, q;
    (split; [by simplify_map_eq|]); (split; [exact Hstore|]);
    (split; [done|]); intros ρ; unfold pyomo.holds; simpl; split; intros H;
    lra.
Qed.

(** The plant of the docstring of [GenericCHP], which is not a
    back-pressure plant, over one timestep. *)
Lemma Q_max_res_constraint_witness :
  let l := GenericCHP.label examples.ccet in
  examples.ccet ∈ [examples.ccet]
  ∧ 0%Z ∈ Model.TIMESTEPS examples.ccet_model
  ∧ ∃ block Q_max_res c,
      GenericCHPBlock._create examples.ccet_model (Some [examples.ccet])
      = Ok block
      ∧ Block.constraints block !! "Q_max_res" = Some Q_max_res
      ∧ Q_max_res !! pyomo.at_ l 0 = Some c
      ∧ ∀ ρ, pyomo.holds ρ c
             ↔ (ρ (Var.P l 0) + ρ (Var.Q l 0) + ρ (Var.H_L_FG_max l 0)
                + 10.552 * ρ (Var.Y l 0) - ρ (Var.H_F l 0) <= 0)%Q.
Proof.
  intros l.
  assert (examples.ccet ∈ [examples.ccet]) as Hn
    by (by apply list_elem_of_singleton).
  assert (0%Z ∈ Model.TIMESTEPS examples.ccet_model) as Ht
    by (by apply list_elem_of_singleton).
  split; [exact Hn|]. split; [exact Ht|].
  destruct (GenericCHPBlock._create examples.ccet_model
              (Some [examples.ccet])) as [block|e] eqn:Hcreate;
    [|vm_compute in Hcreate; discriminate Hcreate].
  destruct (Q_max_res_constraint examples.ccet_model [examples.ccet] block
              examples.ccet 0 false Hcreate)
    as (Q_max_res & c & q & Hblock & Hc & Hq & Hholds).
  - apply NoDup_singleton.
  - apply NoDup_singleton.
  - exact Hn.
  - exact Ht.
  - reflexivity.
  - exists block, Q_max_res, c.
    split; [reflexivity|]. split; [exact Hblock|]. split; [exact Hc|].
    vm_compute in Hq. injection Hq as <-.
    intros ρ. exact (Hholds ρ).
Defined.

(** ** The storage blocks *)

Lemma Model_capacity_Ok b vars n t e :
  Model.capacity b vars n t = Ok e →
  e = pyomo.V (Var.capacity b n t) ∧ is_Some (vars !! pyomo.at_ n t).
Proof.
  unfold Model.capacity, pyomo.item, py.lookup.
  destruct (vars !! pyomo.at_ n t); [|done]. intros [= <-]. eauto.
Qed.

Lemma Model_flow_Ok m i o t e :
  Model.flow m i o t = Ok e →
  e = pyomo.V (Var.flow i o t) ∧ (i, o) ∈ Model.FLOWS m ∧ t ∈ Model.TIMESTEPS m.
Proof.
  unfold Model.flow. case_bool_decide; [|done]. intros [= <-]. tauto.
Qed.

Lemma lookup_Ok `{Countable K} {V} (d : gmap K V) k v :
  py.lookup d k = Ok v → d !! k = Some v.
Proof. unfold py.lookup. destruct (d !! k); congruence. Qed.

(** The rule of both storage blocks states the balance of the
    specification: whenever it returns, it returns the equality
    [level[t] = level[previous(t)]*(1 - loss[t]) + inflow[t]*eta_in[t]*dt[t]
     - (outflow[t]/eta_out[t])*dt[t]] over the first input and the first
    output of the storage, [dt] being read from the subscripted
    [m.timeincrement]. *)
Lemma storage_balance_rule_Ok m b capacity i o n t r :
  _storage_balance_rule m b capacity i o (n, t) = Ok r →
  ∃ c previous i_n o_n loss eta_in eta_out dt,
    r = Some c
    ∧ pyomo.rel c = pyomo.EQ
    ∧ Model.previous_timesteps m !! t = Some previous
    ∧ py.assoc i (GenericStorage.label n) = Ok i_n
    ∧ py.assoc o (GenericStorage.label n) = Ok o_n
    ∧ plumbing.read (GenericStorage.capacity_loss n) t = Ok loss
    ∧ plumbing.read (GenericStorage.inflow_conversion_factor n) t = Ok eta_in
    ∧ plumbing.read (GenericStorage.outflow_conversion_factor n) t
      = Ok eta_out
    ∧ plumbing.read (Model.timeincrement m) t = Ok dt
    ∧ ∀ ρ,
        let l := GenericStorage.label n in
        pyomo.holds ρ c
        ↔ (ρ (Var.capacity b l t)
           == ρ (Var.capacity b l previous) * (1 - loss)
              + ρ (Var.flow i_n l t) * eta_in * dt
              - ρ (Var.flow l o_n t) / eta_out * dt)%Q.
Proof.
  unfold _storage_balance_rule. intros H.
  apply bind_is_Ok in H as (c_t & Hc_t & H).
  apply bind_is_Ok in H as (previous & Hprev & H).
  apply bind_is_Ok in H as (c_prev & Hc_prev & H).
  apply bind_is_Ok in H as (loss & Hloss & H).
  apply bind_is_Ok in H as (i_n & Hi & H).
  apply bind_is_Ok in H as (f_in & Hin & H).
  apply bind_is_Ok in H as (eta_in & Heta_in & H).
  apply bind_is_Ok in H as (dt & Hdt & H).
  apply bind_is_Ok in H as (o_n & Ho & H).
  apply bind_is_Ok in H as (f_out & Hout & H).
  apply bind_is_Ok in H as (eta_out & Heta_out & H).
  apply bind_is_Ok in H as (dt' & Hdt' & H).
  rewrite Hdt in Hdt'. injection Hdt' as <-. injection H as <-.
  apply Model_capacity_Ok in Hc_t as [-> _].
  apply Model_capacity_Ok in Hc_prev as [-> _].
  apply Model_flow_Ok in Hin as [-> _].
  apply Model_flow_Ok in Hout as [-> _].
  apply lookup_Ok in Hprev.
  eexists _, previous, i_n, o_n, loss, eta_in, eta_out, dt.
  do 9 (split; [done|]).
  intros ρ. unfold pyomo.holds. simpl.
  unfold Qdiv. split; intros H; lra.
Qed.

(** A number is not subscriptable. *)
Lemma read_number x t : plumbing.read (plumbing.PyNum x) t = Raise TypeError.
Proof. reflexivity. Qed.

(** With a scalar [m.timeincrement] the rule never returns. *)
Lemma storage_balance_rule_scalar m b capacity i o nt x :
  Model.timeincrement m = plumbing.PyNum x →
  ¬ is_Ok (_storage_balance_rule m b capacity i o nt).
Proof.
  intros Hx [r Hr]. destruct nt as [n t].
  apply storage_balance_rule_Ok in Hr
    as (c & previous & i_n & o_n & loss & eta_in & eta_out & dt & H).
  destruct H as (_ & _ & _ & _ & _ & _ & _ & _ & Hdt & _).
  by rewrite Hx in Hdt.
Qed.

Lemma Constraint_from_not_Ok {I} (key : I → pyomo.index) indices rule built :
  indices ≠ [] → (∀ i, ¬ is_Ok (rule i)) →
  ¬ is_Ok (pyomo.Constraint_from key indices rule built).
Proof.
  intros Hne Hrule [store H]. destruct indices as [|i indices]; [done|].
  cbn [pyomo.Constraint_from] in H. apply bind_is_Ok in H as (c & Hc & _).
  apply (Hrule i). by exists c.
Qed.

Lemma product_nonempty {A} (S : list A) (T : list Z) :
  S ≠ [] → T ≠ [] → pyomo.product S T ≠ [].
Proof.
  intros HS HT. destruct S as [|n S]; [done|]. destruct T as [|t T]; [done|].
  done.
Qed.

(** With a scalar [m.timeincrement], neither storage block can be created
    for a storage and a timestep. *)
Lemma storage_blocks_scalar_timeincrement m group x :
  Model.timeincrement m = plumbing.PyNum x →
  group ≠ [] → Model.TIMESTEPS m ≠ [] →
  ¬ is_Ok (GenericStorageBlock._create m (Some group))
  ∧ ¬ is_Ok (GenericInvestmentStorageBlock._create m (Some group)).
Proof.
  intros Hx Hgroup Hsteps. split; intros [block H].
  - unfold GenericStorageBlock._create in H.
    do 4 (apply bind_is_Ok in H as (? & _ & H)).
    apply bind_is_Ok in H as (balance & Hb & _).
    eapply Constraint_from_not_Ok; [| |by exists balance].
    + by apply product_nonempty.
    + intros nt. by eapply storage_balance_rule_scalar.
  - unfold GenericInvestmentStorageBlock._create in H.
    do 5 (apply bind_is_Ok in H as (? & _ & H)).
    apply bind_is_Ok in H as (balance & Hb & _).
    eapply Constraint_from_not_Ok; [| |by exists balance].
    + by apply product_nonempty.
    + intros nt. by eapply storage_balance_rule_scalar.
Qed.

Section OperationalModel_storage.
Variable blocks_create : klass.t → Model.t → result Block.t.
Variable blocks_objective : klass.t → Model.t → result pyomo.expr.

(** Every group of the loop had its block created on a model that differs
    from the first in its components only. *)
Lemma create_blocks_each groups m m' group :
  OperationalModel.create_blocks blocks_create groups m = Ok m' →
  group ∈ groups →
  ∃ m0 block,
    Model.es m0 = Model.es m
    ∧ Model.timeincrement m0 = Model.timeincrement m
    ∧ Model.TIMESTEPS m0 = Model.TIMESTEPS m
    ∧ OperationalModel.create blocks_create m0 group = Ok block.
Proof.
  revert m. induction groups as [|g groups IH]; intros m H Hin.
  - by apply elem_of_nil in Hin.
  - cbn [OperationalModel.create_blocks] in H.
    apply bind_is_Ok in H as (m1 & Hadd & H).
    apply bind_is_Ok in H as (block & Hcreate & H).
    apply add_component_Ok in Hadd as [_ ->].
    apply elem_of_cons in Hin as [->|Hin].
    + exists (Model.set_components
                (Model.components m ++ [(g, Block.empty)]) m), block.
      by repeat split.
    + destruct (IH _ H Hin) as (m0 & block0 & Hes & Hti & Hsteps & Hc).
      by exists m0, block0.
Qed.

(** C1 fails on the code: [OperationalModel.__init__] stores the scalar
    [freq.nanos / 3.6e12] in [self.timeincrement] and the balance rule of
    both storage blocks subscripts it. Whenever one of the two blocks is
    among the constraint groups and its group holds a storage, and the time
    index has a period, the construction raises: no model with a balance
    constraint is assembled. *)
Theorem storage_balance_never_assembled es kw shared index b group :
  OperationalModel.timeindex kw = Some index →
  1 ≤ OperationalModel.periods index →
  b ∈ shared ++ default [] (OperationalModel.constraint_groups kw) →
  (b = klass.GenericStorageBlock
   ∧ EnergySystem.group_GenericStorageBlock es = Some group)
  ∨ (b = klass.GenericInvestmentStorageBlock
     ∧ EnergySystem.group_GenericInvestmentStorageBlock es = Some group) →
  group ≠ [] →
  ¬ is_Ok (OperationalModel.__init__ blocks_create blocks_objective
             es kw shared).2.
Proof.
  intros Hindex Hperiods Hb Hgroup Hne [[m objective] Hm].
  unfold OperationalModel.__init__ in Hm. rewrite Hindex in Hm.
  cbn [snd] in Hm.
  apply bind_is_Ok in Hm as (previous & _ & Hm).
  apply bind_is_Ok in Hm as (m' & Hblocks & _).
  destruct (create_blocks_each _ _ _ b Hblocks Hb)
    as (m0 & block & Hes & Hti & Hsteps & Hcreate).
  cbn in Hes, Hti, Hsteps.
  destruct (storage_blocks_scalar_timeincrement m0 group _ Hti Hne)
    as [Hplain Hinvest].
  { rewrite Hsteps. intros Hnil%(f_equal length).
    rewrite range_length in Hnil. simpl in Hnil. lia. }
  destruct Hgroup as [[-> Hg]|[-> Hg]];
    cbn [OperationalModel.create] in Hcreate;
    rewrite Hes, Hg in Hcreate; [apply Hplain|apply Hinvest];
    by exists block.
Qed.

End OperationalModel_storage.

(** The two storages of the docstring of [GenericStorage] are constructed
    without an exception; an [OperationalModel] over three hours that is
    given either storage block raises [TypeError]. *)
Lemma storage_balance_never_assembled_witness :
  let construct b :=
    OperationalModel.__init__ examples.no_blocks_create
      examples.no_blocks_objective examples.storage_system
      {| OperationalModel.timeindex := Some examples.three_hours;
         OperationalModel.constraint_groups := Some [b] |}
      OperationalModel.CONSTRAINT_GROUPS in
  (GenericStorage.__init__ examples.my_storage_kwargs examples.my_flows).2
  = Ok examples.my_storage
  ∧ (construct klass.GenericStorageBlock).2 = Raise TypeError
  ∧ (construct klass.GenericInvestmentStorageBlock).2 = Raise TypeError
  ∧ ¬ is_Ok (construct klass.GenericStorageBlock).2
  ∧ ¬ is_Ok (construct klass.GenericInvestmentStorageBlock).2.
Proof.
  intros construct.
  split; [reflexivity|]. split; [reflexivity|]. split; [reflexivity|].
  split.
  - apply (storage_balance_never_assembled _ _ _ _ _ examples.three_hours
             klass.GenericStorageBlock [examples.my_storage]).
    + reflexivity.
    + simpl. lia.
    + apply elem_of_app. right. by apply list_elem_of_singleton.
    + left. split; reflexivity.
    + discriminate.
  - apply (storage_balance_never_assembled _ _ _ _ _ examples.three_hours
             klass.GenericInvestmentStorageBlock
             [examples.my_investment_storage]).
    + reflexivity.
    + simpl. lia.
    + apply elem_of_app. right. by apply list_elem_of_singleton.
    + right. split; reflexivity.
    + discriminate.
Defined.

Lemma first_keys_assoc side group d n :
  first_keys side group = Ok d →
  NoDup (GenericStorage.label <$> group) → n ∈ group →
  ∃ x, py.getitem (py.keys (side n)) 0 = Ok x
       ∧ py.assoc d (GenericStorage.label n) = Ok x.
Proof.
  unfold first_keys. revert d.
  induction group as [|n' group IH]; intros d H Hnd Hin.
  - by apply elem_of_nil in Hin.
  - cbn [py.comprehension] in H.
    apply bind_is_Ok in H as ([l x] & Hx & H).
    apply bind_is_Ok in Hx as (x' & Hx' & [= <- <-]).
    apply bind_is_Ok in H as (d' & Hd' & [= <-]).
    rewrite fmap_cons in Hnd. apply NoDup_cons in Hnd as [Hfresh Hnd].
    apply elem_of_cons in Hin as [->|Hin].
    + exists x'. split; [done|]. cbn [py.assoc]. by rewrite decide_True.
    + destruct (IH _ Hd' Hnd Hin) as (y & Hy & Hassoc).
      exists y. split; [done|]. cbn [py.assoc].
      rewrite decide_False; [done|].
      intros Heq. apply Hfresh. rewrite Heq.
      apply list_elem_of_fmap. by exists n.
Qed.

(** With a per-step series in [m.timeincrement] (as the rule expects), a
    storage block of class [b] whose [balance] was built by the rule states
    the balance of C1 for every storage and timestep. *)
Lemma storage_balance_built m b capacity i o group balance n t :
  first_keys GenericStorage.inputs group = Ok i →
  first_keys GenericStorage.outputs group = Ok o →
  pyomo.Constraint storage_key (pyomo.product group (Model.TIMESTEPS m))
    (_storage_balance_rule m b capacity i o) = Ok balance →
  NoDup (GenericStorage.label <$> group) → NoDup (Model.TIMESTEPS m) →
  n ∈ group → t ∈ Model.TIMESTEPS m →
  ∃ c previous i_n o_n loss eta_in eta_out dt,
    balance !! pyomo.at_ (GenericStorage.label n) t = Some c
    ∧ pyomo.rel c = pyomo.EQ
    ∧ Model.previous_timesteps m !! t = Some previous
    ∧ py.getitem (py.keys (GenericStorage.inputs n)) 0 = Ok i_n
    ∧ py.getitem (py.keys (GenericStorage.outputs n)) 0 = Ok o_n
    ∧ plumbing.read (GenericStorage.capacity_loss n) t = Ok loss
    ∧ plumbing.read (GenericStorage.inflow_conversion_factor n) t = Ok eta_in
    ∧ plumbing.read (GenericStorage.outflow_conversion_factor n) t
      = Ok eta_out
    ∧ plumbing.read (Model.timeincrement m) t = Ok dt
    ∧ ∀ ρ,
        let l := GenericStorage.label n in
        pyomo.holds ρ c
        ↔ (ρ (Var.capacity b l t)
           == ρ (Var.capacity b l previous) * (1 - loss)
              + ρ (Var.flow i_n l t) * eta_in * dt
              - ρ (Var.flow l o_n t) / eta_out * dt)%Q.
Proof.
  intros Hi Ho Hb Hgroup Hsteps Hn Ht.
  destruct (Constraint_lookup _ _ _ _ (n, t) Hb) as (r & Hr & Hstore).
  { by apply (product_keys_NoDup GenericStorage.label). }
  { by apply product_elem. }
  apply storage_balance_rule_Ok in Hr
    as (c & previous & i_n & o_n & loss & eta_in & eta_out & dt & H).
  destruct H as (-> & Hrel & Hprev & Hi_n & Ho_n & Hloss & Hin & Hout
                 & Hdt & Hholds).
  destruct (first_keys_assoc _ _ _ n Hi Hgroup Hn) as (x & Hx & Hx').
  destruct (first_keys_assoc _ _ _ n Ho Hgroup Hn) as (y & Hy & Hy').
  rewrite Hx' in Hi_n. injection Hi_n as ->.
  rewrite Hy' in Ho_n. injection Ho_n as ->.
  exists c, previous, i_n, o_n, loss, eta_in, eta_out, dt.
  by repeat (split; [done|]).
Qed.

Lemma storage_balance_plain m group block :
  GenericStorageBlock._create m (Some group) = Ok block →
  ∃ i o capacity balance,
    first_keys GenericStorage.inputs group = Ok i
    ∧ first_keys GenericStorage.outputs group = Ok o
    ∧ Block.constraints block !! "balance" = Some balance
    ∧ pyomo.Constraint storage_key
        (pyomo.product group (Model.TIMESTEPS m))
        (_storage_balance_rule m klass.GenericStorageBlock capacity i o)
      = Ok balance.
Proof.
  intros H. unfold GenericStorageBlock._create in H.
  apply bind_is_Ok in H as (i & Hi & H).
  apply bind_is_Ok in H as (o & Ho & H).
  apply bind_is_Ok in H as (capacity0 & _ & H).
  apply bind_is_Ok in H as (capacity & _ & H).
  apply bind_is_Ok in H as (balance & Hb & [= <-]).
  exists i, o, capacity, balance. by repeat split.
Qed.

Lemma storage_balance_investment m group block :
  GenericInvestmentStorageBlock._create m (Some group) = Ok block →
  ∃ i o capacity balance,
    first_keys GenericStorage.inputs group = Ok i
    ∧ first_keys GenericStorage.outputs group = Ok o
    ∧ Block.constraints block !! "balance" = Some balance
    ∧ pyomo.Constraint storage_key
        (pyomo.product group (Model.TIMESTEPS m))
        (_storage_balance_rule m klass.GenericInvestmentStorageBlock
           capacity i o)
      = Ok balance.
Proof.
  intros H. unfold GenericInvestmentStorageBlock._create in H.
  apply bind_is_Ok in H as (mins & _ & H).
  apply bind_is_Ok in H as (capacity & _ & H).
  apply bind_is_Ok in H as (invest & _ & H).
  apply bind_is_Ok in H as (i & Hi & H).
  apply bind_is_Ok in H as (o & Ho & H).
  apply bind_is_Ok in H as (balance & Hb & H).
  do 5 (apply bind_is_Ok in H as (? & _ & H)).
  injection H as <-.
  exists i, o, capacity, balance. by repeat split.
Qed.

(** The end-to-end scenario of the specification: the storage of the
    docstring over three timesteps whose durations are the series
    [Sequence(1)]. The plain block is created and its balance at timestep
    1 is [level[1] = level[0]*0.99 + inflow[1]*0.9*1 - outflow[1]/0.93*1]. *)
Lemma storage_balance_with_duration_series :
  let m := examples.model examples.storage_system 3
             (plumbing.Sequence (plumbing.PyNum 1))
             (OperationalModel.flow_keys examples.storage_system) in
  ∃ block balance c,
    GenericStorageBlock._create m (Some [examples.my_storage]) = Ok block
    ∧ Block.constraints block !! "balance" = Some balance
    ∧ balance !! pyomo.at_ "storage" 1 = Some c
    ∧ ∀ ρ,
        let level := Var.capacity klass.GenericStorageBlock "storage" in
        pyomo.holds ρ c
        ↔ (ρ (level 1%Z)
           == ρ (level 0%Z) * (1 - 0.01)
              + ρ (Var.flow "my_bus" "storage" 1) * 0.9 * 1
              - ρ (Var.flow "storage" "my_bus" 1) / 0.93 * 1)%Q.
Proof.
  intros m.
  destruct (GenericStorageBlock._create m (Some [examples.my_storage]))
    as [block|e] eqn:Hcreate; [|vm_compute in Hcreate; discriminate Hcreate].
  destruct (storage_balance_plain m _ block Hcreate)
    as (i & o & capacity & balance & Hi & Ho & Hblock & Hb).
  destruct (storage_balance_built m _ capacity i o _ balance
              examples.my_storage 1 Hi Ho Hb)
    as (c & previous & i_n & o_n & loss & eta_in & eta_out & dt & H).
  { apply NoDup_singleton. }
  { apply range_NoDup. }
  { by apply list_elem_of_singleton. }
  { apply range_elem. simpl. lia. }
  destruct H as (Hc & _ & Hprev & Hi_n & Ho_n & Hloss & Hin & Hout & Hdt
                 & Hholds).
  vm_compute in Hprev. injection Hprev as <-.
  vm_compute in Hi_n. injection Hi_n as <-.
  vm_compute in Ho_n. injection Ho_n as <-.
  vm_compute in Hloss. injection Hloss as <-.
  vm_compute in Hin. injection Hin as <-.
  vm_compute in Hout. injection Hout as <-.
  vm_compute in Hdt. injection Hdt as <-.
  exists block, balance, c. split; [done|]. split; [done|].
  split; [exact Hc|]. intros ρ. exact (Hholds ρ).
Qed.

(** ** The ExtractionTurbineCHP block *)

Section ExtractionTurbineCHPBlock_facts.
Import ExtractionTurbineCHP ExtractionTurbineCHPBlock.

(** A constraint filled by [build] holds something new only at an index
    some relation was added under. *)
Lemma build_group_other add_at body ts group built store k :
  build_group add_at body ts group built = Ok store →
  (∀ g i, g ∈ group → add_at g ts = Ok i → i ≠ k) →
  store !! k = built !! k.
Proof.
  revert built. induction group as [|g group IH]; intros built H Hk.
  - by injection H as <-.
  - cbn [build_group] in H.
    apply bind_is_Ok in H as (c & _ & H).
    apply bind_is_Ok in H as (i & Hi & H).
    rewrite (IH _ H).
    + apply lookup_insert_ne. apply (Hk g); [left|done].
    + intros g' i' Hin. apply Hk. by right.
Qed.

Lemma build_other add_at body steps group built store k :
  build add_at body steps group built = Ok store →
  (∀ g ts i, g ∈ group → ts ∈ steps → add_at g ts = Ok i → i ≠ k) →
  store !! k = built !! k.
Proof.
  revert built. induction steps as [|ts steps IH]; intros built H Hk.
  - by injection H as <-.
  - cbn [build] in H. apply bind_is_Ok in H as (built' & Hg & H).
    rewrite (IH _ H).
    + apply (build_group_other _ _ _ _ _ _ _ Hg).
      intros g i Hin. apply Hk; [done|left].
    + intros g ts' i Hin Hts. apply Hk; [done|by right].
Qed.

Lemma last_fst {A B} (l : list (A * B)) (x : A * B) :
  last l = Some x → last (l.*1) = Some x.1.
Proof. intros H. by rewrite fmap_last, H. Qed.

(** The nodes of the group keep their order when [_create] attaches the
    derived attributes. *)
Lemma derived_members m group members :
  py.comprehension (λ n, d ← derive m n; Ok (n, d)) group = Ok members →
  members.*1 = group.
Proof.
  revert members. induction group as [|n group IH]; intros members H.
  - by injection H as <-.
  - cbn [py.comprehension] in H.
    apply bind_is_Ok in H as ([n' d] & Hd & H).
    apply bind_is_Ok in Hd as (d' & _ & [= <- <-]).
    apply bind_is_Ok in H as (members' & Hm & [= <-]).
    rewrite fmap_cons. simpl. by rewrite (IH _ Hm).
Qed.

(** C2 fails on the code: [_input_output_relation_rule] adds every relation
    under [(n, t)], [n] being the last node of the group, where the sibling
    [_out_flow_relation_rule] adds under [(g, t)]. In a created block no
    node of the group other than the last has an input/output relation
    under its own index. *)
Theorem input_output_relation_only_last m group block g n ts :
  _create m (Some group) = Ok block →
  last group = Some n → g ∈ group → label g ≠ label n →
  ∃ store,
    Block.constraints block !! "input_output_relation" = Some store
    ∧ store !! pyomo.at_ (label g) ts = None.
Proof.
  intros H Hlast Hg Hne. unfold _create in H.
  apply bind_is_Ok in H as (members & Hm & H).
  apply bind_is_Ok in H as (store & Hs & H).
  apply bind_is_Ok in H as (out & _ & [= <-]).
  exists store. split; [done|].
  unfold _input_output_relation_rule in Hs.
  rewrite (build_other _ _ _ _ _ _ _ Hs); [done|].
  intros g' ts' i _ _ Hi.
  apply derived_members in Hm.
  cbv beta in Hi. revert Hi.
  destruct (last members) as [[n' d]|] eqn:Hl; [|done].
  intros [= <-].
  apply last_fst in Hl. cbn [fst] in Hl.
  assert (Some n = Some n') as [= <-] by congruence.
  unfold pyomo.at_. congruence.
Qed.

End ExtractionTurbineCHPBlock_facts.

(** Two turbines over one timestep: the block is created, the first
    turbine has no input/output relation under its index, the second has,
    and both have their out-flow relation. *)
Lemma input_output_relation_only_last_witness :
  ∃ block input_output out_flow,
    ExtractionTurbineCHPBlock._create examples.turbine_model
      (Some [examples.variable_chp_gas; examples.variable_chp_gas_2])
    = Ok block
    ∧ Block.constraints block !! "input_output_relation" = Some input_output
    ∧ Block.constraints block !! "out_flow_relation" = Some out_flow
    ∧ input_output !! pyomo.at_ "variable_chp_gas" 0 = None
    ∧ is_Some (input_output !! pyomo.at_ "variable_chp_gas_2" 0)
    ∧ is_Some (out_flow !! pyomo.at_ "variable_chp_gas" 0)
    ∧ is_Some (out_flow !! pyomo.at_ "variable_chp_gas_2" 0).
Proof.
  destruct (ExtractionTurbineCHPBlock._create examples.turbine_model
              (Some [examples.variable_chp_gas; examples.variable_chp_gas_2]))
    as [block|e] eqn:Hcreate; [|vm_compute in Hcreate; discriminate Hcreate].
  destruct (input_output_relation_only_last examples.turbine_model _ block
              examples.variable_chp_gas examples.variable_chp_gas_2 0
              Hcreate)
    as (input_output & Hblock & Hnone).
  { reflexivity. }
  { left. }
  { discriminate. }
  vm_compute in Hcreate. injection Hcreate as <-.
  injection Hblock as <-.
  eexists _, _, _. split; [reflexivity|]. split; [reflexivity|].
  split; [reflexivity|]. split; [exact Hnone|].
  split; [|split]; eexists; reflexivity.
Defined.

(** For the last turbine of the group the relation is the one C2 states:
    with the factors of the docstring, [main_flow_loss_index] is
    [(0.5 - 0.3) / 0.5] and
    [inflow = (main_outflow + tapped_outflow * 0.4) / 0.5]. *)
Lemma input_output_relation_of_last :
  ∃ block input_output c,
    ExtractionTurbineCHPBlock._create examples.turbine_model
      (Some [examples.variable_chp_gas; examples.variable_chp_gas_2])
    = Ok block
    ∧ Block.constraints block !! "input_output_relation" = Some input_output
    ∧ input_output !! pyomo.at_ "variable_chp_gas_2" 0 = Some c
    ∧ ∀ ρ,
        let n := "variable_chp_gas_2" in
        pyomo.holds ρ c
        ↔ (ρ (Var.flow "commodityBus" n 0)
           == (ρ (Var.flow n "electricityBus" 0)
               + ρ (Var.flow n "heatBus" 0) * 0.4) / 0.5)%Q.
Proof.
  eexists _, _, _. split; [vm_compute; reflexivity|].
  split; [reflexivity|]. split; [reflexivity|].
  intros ρ n. unfold pyomo.holds. simpl. fold n.
  assert ((200 # 500) == 0.4)%Q as -> by reflexivity. reflexivity.
Qed.

(** ** [results] *)

Lemma comprehension_Ok_each {A B} (f : A → result B) l ys x :
  py.comprehension f l = Ok ys → x ∈ l → is_Ok (f x).
Proof.
  revert ys. induction l as [|a l IH]; intros ys H Hin.
  - by apply elem_of_nil in Hin.
  - cbn [py.comprehension] in H.
    apply bind_is_Ok in H as (y & Hy & H).
    apply bind_is_Ok in H as (ys' & Hys & _).
    apply elem_of_cons in Hin as [->|Hin]; [by exists y|by eapply IH].
Qed.

(** The keys of [self.flows]: the edges from a node to its outputs. *)
Lemma flow_keys_elem es i o :
  (i, o) ∈ OperationalModel.flow_keys es
  ↔ ∃ source, source ∈ EnergySystem.nodes es ∧ Node.label source = i
              ∧ o ∈ Node.outputs source.
Proof.
  unfold OperationalModel.flow_keys. rewrite elem_of_remove_dups.
  rewrite list_elem_of_bind. split.
  - intros (source & Hin & Hs).
    apply list_elem_of_bind in Hin as (target & Hin & Ht).
    apply list_elem_of_singleton in Hin as [= -> ->]. by exists source.
  - intros (source & Hs & <- & Ho). exists source. split; [|done].
    apply list_elem_of_bind. exists o. split; [|done].
    by apply list_elem_of_singleton.
Qed.

(** A comprehension returns when its body returns on every element. *)
Lemma comprehension_total {A B} (f : A → result B) l :
  (∀ x, x ∈ l → is_Ok (f x)) → is_Ok (py.comprehension f l).
Proof.
  induction l as [|a l IH]; intros H; [by eexists|].
  cbn [py.comprehension]. destruct (H a) as [y ->]; [left|].
  rewrite bind_Ok. destruct IH as [ys ->]; [intros; apply H; by right|].
  by eexists.
Qed.

(** A loop returns when its body returns in every state that satisfies an
    invariant. *)
Lemma for_each_total {A S} (body : S → A → result S) (J : S → Prop) l s :
  J s →
  (∀ s x, x ∈ l → J s → ∃ s', body s x = Ok s' ∧ J s') →
  ∃ s', OperationalModel.for_each body l s = Ok s' ∧ J s'.
Proof.
  revert s. induction l as [|a l IH]; intros s Hs Hbody; [by exists s|].
  cbn [OperationalModel.for_each].
  destruct (Hbody s a) as (s1 & -> & Hs1); [left|done|].
  rewrite bind_Ok. apply IH; [done|].
  intros s2 x Hx. apply Hbody. by right.
Qed.

(** The series of a flow of the model is read at every timestep. *)
Lemma flow_values_total m ρ i o :
  (i, o) ∈ Model.FLOWS m → is_Ok (OperationalModel.flow_values m ρ i o).
Proof.
  intros Hflow. apply comprehension_total. intros t Ht.
  unfold Model.flow. rewrite bool_decide_eq_true_2 by done. by eexists.
Qed.

(** The name tested at line 315 is not a name of the module. *)
Lemma Storage_unbound :
  OperationalModel.global_name "Storage" = Raise NameError.
Proof. reflexivity. Qed.

(** At no node does the body of the loop of [results] run to its end; it
    raises [NameError] when the flows of the node are flows of the
    model. *)
Lemma results_node_raises m ρ res nd :
  ¬ is_Ok (OperationalModel.results_node m ρ res nd)
  ∧ ((∀ o, o ∈ Node.outputs nd → (Node.label nd, o) ∈ Model.FLOWS m) →
     (∀ i, i ∈ Node.inputs nd → (i, Node.label nd) ∈ Model.FLOWS m) →
     OperationalModel.results_node m ρ res nd = Raise NameError).
Proof.
  unfold OperationalModel.results_node. split.
  - intros [res' H].
    apply bind_is_Ok in H as (res1 & _ & H).
    apply bind_is_Ok in H as (res2 & _ & H).
    apply bind_is_Ok in H as (u & Hname & _).
    by rewrite Storage_unbound in Hname.
  - intros Hout Hin.
    set (n := Node.label nd).
    set (res0 := if bool_decide (Node.outputs nd ≠ [])
                 then OperationalModel.setdefault res n else res).
    destruct (for_each_total
                (λ res o,
                   series ← OperationalModel.flow_values m ρ n o;
                   OperationalModel.set_series res n o series)
                (λ res, Node.outputs nd ≠ [] → is_Some (res !! n))
                (Node.outputs nd) res0) as (res1 & -> & _).
    { intros Hne. unfold res0, OperationalModel.setdefault.
      rewrite bool_decide_eq_true_2 by done. rewrite lookup_insert_eq.
      by eexists. }
    { intros r o Ho Hr.
      destruct (flow_values_total m ρ n o (Hout o Ho)) as [series ->].
      rewrite bind_Ok. unfold OperationalModel.set_series, py.lookup.
      destruct Hr as [inner ->].
      { intros Hnil. rewrite Hnil in Ho. by apply elem_of_nil in Ho. }
      rewrite bind_Ok. eexists. split; [done|].
      intros _. rewrite lookup_insert_eq. by eexists. }
    rewrite bind_Ok.
    match goal with
    | |- context [OperationalModel.for_each ?body (Node.inputs nd) res1] =>
        destruct (for_each_total body (λ _, True) (Node.inputs nd) res1)
          as (res2 & -> & _)
    end.
    { done. }
    { intros r i Hi _. cbv zeta.
      destruct (flow_values_total m ρ i n (Hin i Hi)) as [series ->].
      rewrite bind_Ok.
      unfold OperationalModel.set_series, OperationalModel.setdefault,
        py.lookup.
      rewrite lookup_insert_eq, bind_Ok. by eexists. }
    by rewrite bind_Ok, Storage_unbound.
Qed.

(** C3 fails on the code: [results] tests [isinstance(node, Storage)] at
    every node, and plumbing.py binds no name [Storage]. For an energy
    system with a node [results] does not return, whichever blocks the
    storages are in: when the flows of the first node are flows of the
    model, it raises [NameError] at that node. No storage ever has its
    level series under [result[n][n]]. *)
Theorem results_raises_NameError m ρ nd rest :
  EnergySystem.nodes (Model.es m) = nd :: rest →
  ¬ is_Ok (OperationalModel.results m ρ)
  ∧ ((∀ o, o ∈ Node.outputs nd → (Node.label nd, o) ∈ Model.FLOWS m) →
     (∀ i, i ∈ Node.inputs nd → (i, Node.label nd) ∈ Model.FLOWS m) →
     OperationalModel.results m ρ = Raise NameError).
Proof.
  intros Hnodes. unfold OperationalModel.results. rewrite Hnodes.
  cbn [OperationalModel.for_each].
  destruct (results_node_raises m ρ ∅ nd) as [Hnot Hraise]. split.
  - intros [res H]. apply bind_is_Ok in H as (res1 & H1 & _).
    apply Hnot. by exists res1.
  - intros Hout Hin. by rewrite (Hraise Hout Hin).
Qed.

(** A solved model with a bus and one storage of the plain block, one with
    a storage of the investment block, and one with both: [results] raises
    [NameError] on each of them. On a system without nodes it returns the
    empty dictionary. *)
Lemma results_raises_NameError_witness :
  OperationalModel.results (examples.solved_model true false)
    examples.solution = Raise NameError
  ∧ OperationalModel.results (examples.solved_model false true)
      examples.solution = Raise NameError
  ∧ OperationalModel.results (examples.solved_model true true)
      examples.solution = Raise NameError
  ∧ ¬ is_Ok (OperationalModel.results (examples.solved_model true false)
               examples.solution)
  ∧ OperationalModel.results (examples.solved_model false false)
      examples.solution = Raise NameError
  ∧ OperationalModel.results
      (examples.model examples.no_system 2 (plumbing.PyNum 1) [])
      examples.solution = Ok ∅.
Proof.
  assert (∀ with_plain with_sized,
            ¬ is_Ok (OperationalModel.results
                       (examples.solved_model with_plain with_sized)
                       examples.solution)
            ∧ OperationalModel.results
                (examples.solved_model with_plain with_sized)
                examples.solution = Raise NameError) as H.
  { intros with_plain with_sized.
    destruct (results_raises_NameError
                (examples.solved_model with_plain with_sized)
                examples.solution _ _ eq_refl) as [Hnot Hraise].
    split; [exact Hnot|]. apply Hraise.
    - intros o Ho. apply flow_keys_elem. eexists. split; [left|].
      split; [reflexivity|exact Ho].
    - intros i Hi. apply flow_keys_elem.
      exists (examples.storage_node i). split; [|split; [reflexivity|left]].
      right. apply list_elem_of_fmap. by exists i. }
  split; [apply H|]. split; [apply H|]. split; [apply H|].
  split; [apply H|]. split; [apply H|]. reflexivity.
Defined.

(** ** The alpha coefficients of [GenericCHP] *)

(** Reading a series at an index [j >= 0] does not change what it reads at
    any index [i >= 0]. *)
Lemma read_stable (a : plumbing.pyobj) (i j : Z) :
  (0 ≤ i)%Z → (0 ≤ j)%Z →
  plumbing.read (plumbing.subscript a j).1 i = plumbing.read a i.
Proof.
  intros Hi Hj. destruct a as [x|l|s]; [done|done|].
  unfold plumbing.read, plumbing.subscript.
  destruct (decide (j < plumbing.__len__ s)%Z) as [Hlt|Hge].
  { destruct (getitem_materialised s j) as (x & -> & _); [lia|]. done. }
  rewrite (getitem_beyond s j) by lia. cbn [fst snd].
  destruct (decide (i < plumbing.__len__ s)%Z) as [Hi'|Hi'].
  - destruct (getitem_materialised s i) as (x & -> & Hx); [lia|].
    destruct (getitem_materialised (plumbing.extend_to s j) i)
      as (y & -> & Hy); [rewrite extend_to_len; lia|].
    cbn [snd]. f_equal.
    apply extend_to_lookup in Hy as [Hy|[Hy _]]; [congruence|].
    unfold plumbing.__len__ in Hi'. lia.
  - rewrite (getitem_beyond s i) by lia. cbn [snd].
    destruct (decide (i < plumbing.__len__ (plumbing.extend_to s j))%Z)
      as [Hlt|Hge'].
    + destruct (getitem_materialised (plumbing.extend_to s j) i)
        as (y & -> & Hy); [lia|].
      cbn [snd]. f_equal.
      apply extend_to_lookup in Hy as [Hy|[_ ->]]; [|done].
      apply lookup_lt_Some in Hy. unfold plumbing.__len__ in Hi'. lia.
    + by rewrite (getitem_beyond (plumbing.extend_to s j) i) by lia.
Qed.

Section alphas.
Import GenericCHP.

Lemma same_reads_refl flow : same_reads flow flow.
Proof. by intros name i Hi. Qed.

Lemma attr_item_reads flow name i :
  (0 ≤ i)%Z → reads_only flow (attr_item name i) (attr_read name i flow).
Proof.
  intros Hi flow' Hsame. unfold attr_item.
  pose proof (Hsame name i Hi) as Hname.
  unfold attr_read at 1, Flow.getattr in Hname.
  destruct (Flow.attrs flow' !! name) as [a|] eqn:Ha.
  - rewrite bind_Ok in Hname. unfold plumbing.read in Hname.
    destruct (plumbing.subscript a i) as [a' r] eqn:Hsub.
    cbn [fst snd] in *. split; [done|].
    intros name' k Hk. rewrite <- (Hsame name' k Hk).
    unfold attr_read, Flow.getattr, Flow.set_attr. cbn [Flow.attrs].
    destruct (decide (name = name')) as [<-|Hne].
    + rewrite lookup_insert_eq, Ha, !bind_Ok.
      replace a' with (plumbing.subscript a i).1 by (by rewrite Hsub).
      by apply read_stable.
    + by rewrite lookup_insert_ne.
  - cbn [fst snd]. split; [by rewrite <- Hname|done].
Qed.

Lemma lift_reads {A} flow (r : result A) : reads_only flow (lift r) r.
Proof. by intros flow' Hsame. Qed.

Lemma bind_reads {A B} flow (c : method Flow.t A) (f : A → method Flow.t B)
    (r : result A) (g : A → result B) :
  reads_only flow c r → (∀ a, reads_only flow (f a) (g a)) →
  reads_only flow (c ≫= f) (r ≫= g).
Proof.
  intros Hc Hf flow' Hsame. destruct (Hc flow' Hsame) as [Hr Hs].
  change ((c ≫= f) flow') with
    (match c flow' with
     | (s', Ok a) => f a s'
     | (s', Raise e) => (s', Raise e)
     end).
  destruct (c flow') as [flow'' [a|e]]; cbn [fst snd] in *; subst r.
  - rewrite bind_Ok. by apply Hf.
  - done.
Qed.

Lemma alpha_step_reads flow i :
  (0 ≤ i)%Z → reads_only flow (alpha_step i) (alpha_of flow i).
Proof.
  intros Hi. unfold alpha_step, alpha_of.
  repeat (apply bind_reads; [by (apply attr_item_reads || apply lift_reads)|];
          intros ?).
  apply lift_reads.
Qed.

Lemma alpha_loop_reads flow steps :
  (∀ i, i ∈ steps → (0 ≤ i)%Z) →
  reads_only flow (alpha_loop steps) (alphas_of flow steps).
Proof.
  induction steps as [|i steps IH]; intros Hsteps.
  - by intros flow' Hsame.
  - cbn [alpha_loop alphas_of].
    apply bind_reads; [apply alpha_step_reads, Hsteps; left|].
    intros x. apply bind_reads; [apply IH; intros; apply Hsteps; by right|].
    intros alphas. by intros flow' Hsame.
Qed.

(** The loop of [_calculate_alphas] returns the coefficients of the values
    the flow reads when the loop starts. *)
Lemma calculate_alphas_reads flow :
  (calculate_alphas flow).2
  = (max_length ← checked_length flow;
     alphas_of flow (py.range (Z.to_nat max_length))).
Proof.
  unfold calculate_alphas. destruct (checked_length flow) as [n|e]; [|done].
  rewrite bind_Ok. apply alpha_loop_reads; [|apply same_reads_refl].
  intros i Hi%range_elem. lia.
Qed.

End alphas.

Section alphas_solved.
Import GenericCHP.

Lemma div_Ok x y z :
  py.div x y = Ok z → ¬ (y == 0)%Q ∧ z = (x / y)%Q.
Proof.
  unfold py.div. destruct (Qeq_bool y 0) eqn:Hy; [done|].
  intros [= <-]. split; [|done]. by apply Qeq_bool_neq.
Qed.

Lemma div_nonzero x y : ¬ (y == 0)%Q → py.div x y = Ok (x / y)%Q.
Proof.
  intros Hy. unfold py.div. destruct (Qeq_bool y 0) eqn:Hb; [|done].
  by apply Qeq_bool_iff in Hb.
Qed.

(** [numpy.linalg.solve] on [[1, p], [1, q]]: it returns when [p] and [q]
    differ, and what it returns solves the system. *)
Lemma linalg_solve_Ok p q b1 b2 x0 x1 :
  numpy.linalg_solve 1 p 1 q b1 b2 = Ok (x0, x1) →
  ¬ (p == q)%Q ∧ (1 * x0 + p * x1 == b1)%Q ∧ (1 * x0 + q * x1 == b2)%Q.
Proof.
  unfold numpy.linalg_solve.
  destruct (Qeq_bool (1 * q - p * 1) 0) eqn:Hdet; [done|].
  apply Qeq_bool_neq in Hdet. intros [= <- <-].
  assert (¬ (q - p == 0)%Q) as Hne by (intros H; apply Hdet; lra).
  split; [intros H; apply Hne; lra|].
  split; field; intros H; apply Hne; lra.
Qed.

Lemma linalg_solve_regular p q b1 b2 :
  ¬ (p == q)%Q → is_Ok (numpy.linalg_solve 1 p 1 q b1 b2).
Proof.
  intros Hne. unfold numpy.linalg_solve.
  destruct (Qeq_bool (1 * q - p * 1) 0) eqn:Hdet; [|by eexists].
  apply Qeq_bool_iff in Hdet. destruct Hne. lra.
Qed.

(** One step of the loop, on the values the flow reads at [i]. *)
Lemma alpha_of_Ok flow i a0 a1 :
  alpha_of flow i = Ok (a0, a1) →
  ∃ p_min eta_min p_max eta_max,
    attr_read "P_min_woDH" i flow = Ok p_min
    ∧ attr_read "Eta_el_min_woDH" i flow = Ok eta_min
    ∧ attr_read "P_max_woDH" i flow = Ok p_max
    ∧ attr_read "Eta_el_max_woDH" i flow = Ok eta_max
    ∧ (1 * a0 + p_min * a1 == p_min / eta_min)%Q
    ∧ (1 * a0 + p_max * a1 == p_max / eta_max)%Q.
Proof.
  unfold alpha_of. intros H.
  apply bind_is_Ok in H as (a12 & Ha12 & H).
  apply bind_is_Ok in H as (a22 & Ha22 & H).
  apply bind_is_Ok in H as (p_min & Hp_min & H).
  apply bind_is_Ok in H as (eta_min & Heta_min & H).
  apply bind_is_Ok in H as (b1 & Hb1 & H).
  apply bind_is_Ok in H as (p_max & Hp_max & H).
  apply bind_is_Ok in H as (eta_max & Heta_max & H).
  apply bind_is_Ok in H as (b2 & Hb2 & H).
  rewrite Ha12 in Hp_min. injection Hp_min as <-.
  rewrite Ha22 in Hp_max. injection Hp_max as <-.
  apply div_Ok in Hb1 as [_ ->]. apply div_Ok in Hb2 as [_ ->].
  apply linalg_solve_Ok in H as (_ & H1 & H2).
  by exists a12, eta_min, a22, eta_max.
Qed.

Lemma alpha_of_solvable flow i p_min eta_min p_max eta_max :
  attr_read "P_min_woDH" i flow = Ok p_min →
  attr_read "Eta_el_min_woDH" i flow = Ok eta_min →
  attr_read "P_max_woDH" i flow = Ok p_max →
  attr_read "Eta_el_max_woDH" i flow = Ok eta_max →
  ¬ (eta_min == 0)%Q → ¬ (eta_max == 0)%Q → ¬ (p_min == p_max)%Q →
  is_Ok (alpha_of flow i).
Proof.
  intros H1 H2 H3 H4 Hmin Hmax Hne. unfold alpha_of.
  rewrite H1, H3, H2, H4, !bind_Ok.
  rewrite (div_nonzero _ _ Hmin), !bind_Ok.
  rewrite (div_nonzero _ _ Hmax), !bind_Ok.
  by apply linalg_solve_regular.
Qed.

Lemma alphas_of_Ok flow steps a0s a1s :
  alphas_of flow steps = Ok (a0s, a1s) →
  length a0s = length steps ∧ length a1s = length steps
  ∧ ∀ k i, steps !! k = Some i →
      ∃ a0 a1, a0s !! k = Some a0 ∧ a1s !! k = Some a1
               ∧ alpha_of flow i = Ok (a0, a1).
Proof.
  revert a0s a1s. induction steps as [|j steps IH]; intros a0s a1s H.
  - injection H as <- <-. repeat split. intros k i. by rewrite lookup_nil.
  - cbn [alphas_of] in H.
    apply bind_is_Ok in H as ([x0 x1] & Hx & H).
    apply bind_is_Ok in H as ([r0 r1] & Hr & [= <- <-]).
    destruct (IH _ _ Hr) as (H0 & H1 & Hk). cbn [fst snd length].
    split; [by rewrite H0|]. split; [by rewrite H1|].
    intros [|k] i Hi.
    + injection Hi as <-. by exists x0, x1.
    + by apply Hk.
Qed.

Lemma alphas_of_total flow steps :
  (∀ i, i ∈ steps → is_Ok (alpha_of flow i)) → is_Ok (alphas_of flow steps).
Proof.
  induction steps as [|j steps IH]; intros H; [by eexists|].
  cbn [alphas_of]. destruct (H j) as [x ->]; [left|]. rewrite bind_Ok.
  destruct IH as [r ->]; [intros; apply H; by right|]. by eexists.
Qed.

Lemma all_len_true attrs n :
  all_len attrs n = Ok true → Forall (λ a, plumbing.len a = Ok n) attrs.
Proof.
  induction attrs as [|a attrs IH]; intros H; [constructor|].
  cbn [all_len] in H. apply bind_is_Ok in H as (l & Hl & H).
  case_bool_decide; [|done]. subst l. constructor; [done|by apply IH].
Qed.

Lemma len_sized a l : plumbing.len a = Ok l → plumbing.is_number a = false.
Proof. by destruct a. Qed.

(** The length test on four sized series: the common length, counted as 1
    when it is 0, or the validation error. *)
Lemma checked_length_sized flow a1 a2 a3 a4 l1 l2 l3 l4 :
  Flow.attrs flow !! "P_min_woDH" = Some a1 →
  Flow.attrs flow !! "Eta_el_min_woDH" = Some a2 →
  Flow.attrs flow !! "P_max_woDH" = Some a3 →
  Flow.attrs flow !! "Eta_el_max_woDH" = Some a4 →
  plumbing.len a1 = Ok l1 → plumbing.len a2 = Ok l2 →
  plumbing.len a3 = Ok l3 → plumbing.len a4 = Ok l4 →
  checked_length flow
  = if bool_decide (l1 = l2 ∧ l2 = l3 ∧ l3 = l4)
    then Ok (if bool_decide (l1 = 0%Z) then 1%Z else l1)
    else Raise ValueError.
Proof.
  intros H1 H2 H3 H4 Hl1 Hl2 Hl3 Hl4.
  unfold checked_length, alpha_attrs. cbn [py.comprehension].
  unfold Flow.getattr. rewrite H1, H2, H3, H4. rewrite !bind_Ok.
  cbn [filter list_filter].
  rewrite !(decide_True (P := plumbing.is_number _ = false))
    by (by eapply len_sized).
  cbn [py.comprehension]. rewrite Hl1, Hl2, Hl3, Hl4, !bind_Ok.
  cbn [py.max foldl all_len]. rewrite Hl1, Hl2, Hl3, Hl4, !bind_Ok.
  repeat case_bool_decide; try done; try lia.
  all: repeat match goal with
         | H : _ ∧ _ |- _ => destruct H
         | H : ¬ (_ ∧ _) |- _ => destruct H; lia
         end; try lia.
  all: rewrite bind_Ok; f_equal; lia.
Qed.

(** The length test passes only on four series with one length. *)
Lemma checked_length_Ok flow n :
  checked_length flow = Ok n →
  ∃ a1 a2 a3 a4 l,
    Flow.attrs flow !! "P_min_woDH" = Some a1
    ∧ Flow.attrs flow !! "Eta_el_min_woDH" = Some a2
    ∧ Flow.attrs flow !! "P_max_woDH" = Some a3
    ∧ Flow.attrs flow !! "Eta_el_max_woDH" = Some a4
    ∧ plumbing.len a1 = Ok l ∧ plumbing.len a2 = Ok l
    ∧ plumbing.len a3 = Ok l ∧ plumbing.len a4 = Ok l
    ∧ n = (if bool_decide (l = 0%Z) then 1%Z else l).
Proof.
  unfold checked_length, alpha_attrs. cbn [py.comprehension].
  unfold Flow.getattr. intros H.
  destruct (Flow.attrs flow !! "P_min_woDH") as [a1|]; [|done].
  destruct (Flow.attrs flow !! "Eta_el_min_woDH") as [a2|]; [|done].
  destruct (Flow.attrs flow !! "P_max_woDH") as [a3|]; [|done].
  destruct (Flow.attrs flow !! "Eta_el_max_woDH") as [a4|]; [|done].
  rewrite !bind_Ok in H.
  apply bind_is_Ok in H as (lens & _ & H).
  apply bind_is_Ok in H as (l & _ & H).
  apply bind_is_Ok in H as ([] & Hall & H); [|done].
  injection H as <-.
  apply all_len_true in Hall.
  apply Forall_cons in Hall as [Ha1 Hall].
  apply Forall_cons in Hall as [Ha2 Hall].
  apply Forall_cons in Hall as [Ha3 Hall].
  apply Forall_cons in Hall as [Ha4 _].
  exists a1, a2, a3, a4, l. repeat split; try done.
  case_bool_decide; lia.
Qed.

End alphas_solved.

Section alphas_claim.
Import GenericCHP.

Lemma attr_read_of flow name a i :
  Flow.attrs flow !! name = Some a → attr_read name i flow = plumbing.read a i.
Proof. intros H. unfold attr_read, Flow.getattr. by rewrite H. Qed.

(** C6, as amended. Let the four inputs be series with lengths [l1..l4] (a
    list has its length, a wrapped scalar the number of slots materialised
    so far, 0 when it was never read). When the lengths differ the
    computation raises the validation error. When they all equal [l], it
    runs [max(l, 1)] steps and returns if at every step the four series
    read, the efficiencies are not zero and [P_min] differs from [P_max].
    Whenever it returns, the lengths are equal and the coefficients of
    every step [k] solve [[1, P_min], [1, P_max]] · [a0, a1]
    = [P_min / Eta_min, P_max / Eta_max] with the values read at [k]. *)
Theorem alphas_calculated flow a1 a2 a3 a4 l1 l2 l3 l4 :
  Flow.attrs flow !! "P_min_woDH" = Some a1 →
  Flow.attrs flow !! "Eta_el_min_woDH" = Some a2 →
  Flow.attrs flow !! "P_max_woDH" = Some a3 →
  Flow.attrs flow !! "Eta_el_max_woDH" = Some a4 →
  plumbing.len a1 = Ok l1 → plumbing.len a2 = Ok l2 →
  plumbing.len a3 = Ok l3 → plumbing.len a4 = Ok l4 →
  let same := l1 = l2 ∧ l2 = l3 ∧ l3 = l4 in
  let steps := Z.to_nat (if bool_decide (l1 = 0%Z) then 1%Z else l1) in
  (¬ same → (calculate_alphas flow).2 = Raise ValueError)
  ∧ (same →
     (∀ k, k < steps →
        ∃ p_min eta_min p_max eta_max,
          plumbing.read a1 (Z.of_nat k) = Ok p_min
          ∧ plumbing.read a2 (Z.of_nat k) = Ok eta_min
          ∧ plumbing.read a3 (Z.of_nat k) = Ok p_max
          ∧ plumbing.read a4 (Z.of_nat k) = Ok eta_max
          ∧ ¬ (eta_min == 0)%Q ∧ ¬ (eta_max == 0)%Q
          ∧ ¬ (p_min == p_max)%Q) →
     is_Ok (calculate_alphas flow).2)
  ∧ (∀ alphas0 alphas1,
       (calculate_alphas flow).2 = Ok (alphas0, alphas1) →
       same
       ∧ length alphas0 = steps ∧ length alphas1 = steps
       ∧ ∀ k, k < steps →
           ∃ p_min eta_min p_max eta_max a0 a1',
             plumbing.read a1 (Z.of_nat k) = Ok p_min
             ∧ plumbing.read a2 (Z.of_nat k) = Ok eta_min
             ∧ plumbing.read a3 (Z.of_nat k) = Ok p_max
             ∧ plumbing.read a4 (Z.of_nat k) = Ok eta_max
             ∧ alphas0 !! k = Some a0 ∧ alphas1 !! k = Some a1'
             ∧ (1 * a0 + p_min * a1' == p_min / eta_min)%Q
             ∧ (1 * a0 + p_max * a1' == p_max / eta_max)%Q).
Proof.
  intros H1 H2 H3 H4 Hl1 Hl2 Hl3 Hl4 same steps.
  pose proof (checked_length_sized flow _ _ _ _ _ _ _ _
                H1 H2 H3 H4 Hl1 Hl2 Hl3 Hl4) as Hlen.
  fold same in Hlen. rewrite calculate_alphas_reads.
  split; [|split].
  - intros Hne. by rewrite Hlen, bool_decide_eq_false_2.
  - intros Hsame Hsteps. rewrite Hlen, bool_decide_eq_true_2, bind_Ok by done.
    fold steps. apply alphas_of_total. intros i Hi.
    apply range_elem in Hi.
    destruct (Hsteps (Z.to_nat i)) as (p_min & eta_min & p_max & eta_max & H);
      [lia|].
    rewrite Z2Nat.id in H by lia.
    destruct H as (R1 & R2 & R3 & R4 & Hmin & Hmax & Hne).
    apply (alpha_of_solvable flow i p_min eta_min p_max eta_max);
      try done; by erewrite attr_read_of.
  - intros alphas0 alphas1 Hok.
    destruct (decide same) as [Hsame|Hne];
      [|by rewrite Hlen, bool_decide_eq_false_2 in Hok].
    rewrite Hlen, bool_decide_eq_true_2, bind_Ok in Hok by done.
    fold steps in Hok.
    apply alphas_of_Ok in Hok as (Hlen0 & Hlen1 & Hk).
    rewrite range_length in Hlen0, Hlen1.
    split; [done|]. split; [done|]. split; [done|].
    intros k Hlt.
    destruct (Hk k (Z.of_nat k)) as (a0 & a1' & Ha0 & Ha1 & Halpha);
      [by apply range_lookup|].
    apply alpha_of_Ok in Halpha
      as (p_min & eta_min & p_max & eta_max & R1 & R2 & R3 & R4 & E1 & E2).
    rewrite (attr_read_of _ _ a1) in R1 by done.
    rewrite (attr_read_of _ _ a2) in R2 by done.
    rewrite (attr_read_of _ _ a3) in R3 by done.
    rewrite (attr_read_of _ _ a4) in R4 by done.
    by exists p_min, eta_min, p_max, eta_max, a0, a1'.
Qed.

(** [GenericCHP._calculate_alphas] runs the computation on the first
    electrical flow and stores what it returns in [_alphas]. *)
Lemma calculate_alphas_stored self eb flow others :
  electrical_output self = (eb, flow) :: others →
  (_calculate_alphas self).2 = (calculate_alphas flow).2 ≫= (λ _, Ok ())
  ∧ ∀ alphas, (calculate_alphas flow).2 = Ok alphas →
              _alphas (_calculate_alphas self).1 = Some alphas.
Proof.
  intros H. unfold _calculate_alphas. rewrite H.
  destruct (calculate_alphas flow) as [flow' [alphas|e]]; cbn [fst snd].
  - split; [done|]. by intros ? [= <-].
  - split; [done|]. done.
Qed.

End alphas_claim.

(** The electrical flow of the docstring of [GenericCHP]: four lists of
    length 1. *)
Lemma alphas_calculated_witness :
  ∃ alphas0 alphas1 a0 a1,
    (GenericCHP.calculate_alphas examples.ccet_power).2
    = Ok (alphas0, alphas1)
    ∧ length alphas0 = 1 ∧ length alphas1 = 1
    ∧ alphas0 !! 0 = Some a0 ∧ alphas1 !! 0 = Some a1
    ∧ (1 * a0 + 68.787 * a1 == 68.787 / 0.444)%Q
    ∧ (1 * a0 + 155.946 * a1 == 155.946 / 0.525)%Q.
Proof.
  destruct (alphas_calculated examples.ccet_power
              (plumbing.PyList [68.787%Q]) (plumbing.PyList [0.444%Q])
              (plumbing.PyList [155.946%Q]) (plumbing.PyList [0.525%Q])
              1 1 1 1 eq_refl eq_refl eq_refl eq_refl
              eq_refl eq_refl eq_refl eq_refl)
    as (_ & Hreturns & Hsolved).
  destruct Hreturns as [[alphas0 alphas1] Hok].
  { done. }
  { intros k Hk. assert (k = 0) as -> by (simpl in Hk; lia).
    exists 68.787%Q, 0.444%Q, 155.946%Q, 0.525%Q.
    repeat split; try reflexivity; intros H; vm_compute in H;
      discriminate H. }
  destruct (Hsolved alphas0 alphas1 Hok) as (_ & Hl0 & Hl1 & Hk).
  destruct (Hk 0) as (p_min & eta_min & p_max & eta_max & a0 & a1 & H);
    [simpl; lia|].
  destruct H as (R1 & R2 & R3 & R4 & Ha0 & Ha1 & E1 & E2).
  injection R1 as <-. injection R2 as <-.
  injection R3 as <-. injection R4 as <-.
  exists alphas0, alphas1, a0, a1.
  split; [exact Hok|]. split; [exact Hl0|]. split; [exact Hl1|].
  split; [exact Ha0|]. split; [exact Ha1|]. split; [exact E1|exact E2].
Defined.

(** C6 as stated fails. Four lists of one length whose minimum and maximum
    operating points coincide give a singular system: the computation
    raises [LinAlgError], neither succeeding nor reporting a validation
    error. And scalar efficiencies, wrapped by [Sequence], next to
    two-step capacities are not broadcast: their length is 0, not 2, and
    the validation error is raised. *)
Lemma alphas_counterexample :
  (GenericCHP.calculate_alphas examples.one_point_power).2
  = Raise LinAlgError
  ∧ GenericCHP.checked_length examples.one_point_power = Ok 1%Z
  ∧ (GenericCHP.calculate_alphas examples.scalar_efficiency_power).2
    = Raise ValueError
  ∧ plumbing.len (plumbing.Sequence (plumbing.PyNum 0.444)) = Ok 0%Z
  ∧ plumbing.len (plumbing.PyList [68.787%Q; 70%Q]) = Ok 2%Z.
Proof. repeat split; reflexivity. Qed.

(** * Further properties of the code *)

(** Running the embedding on a concrete input: the computation [r]
    succeeds, with a result named [x] and the equation [H]. *)
Ltac run r x H :=
  let Hok := fresh "Hok" in
  assert (succeeds r = true) as Hok by (vm_compute; reflexivity);
  destruct r as [x|?] eqn:H; [clear Hok|discriminate Hok].

(** ** [_Sequence]: writes and reads *)

Section Sequence_round_trip.
Context {A : Type}.
Implicit Types (s : plumbing._Sequence A) (k : Z).

Lemma getitem_value s k :
  (0 ≤ k)%Z →
  (plumbing.__getitem__ s k).2
  = Ok (default (plumbing.default s) (plumbing.data s !! Z.to_nat k)).
Proof.
  intros Hk. destruct (decide (k < plumbing.__len__ s)%Z).
  - destruct (getitem_materialised s k) as (x & -> & ->); [lia|]. done.
  - rewrite getitem_beyond by lia. cbn [snd].
    rewrite lookup_ge_None_2; [done|]. unfold plumbing.__len__ in *. lia.
Qed.

Lemma setitem_data s k v :
  (0 ≤ k)%Z →
  plumbing.default (plumbing.__setitem__ s k v).1 = plumbing.default s
  ∧ ∀ i, plumbing.data (plumbing.__setitem__ s k v).1 !! i
         = if decide (i = Z.to_nat k) then Some v
           else if decide (i < Z.to_nat k) then
             Some (default (plumbing.default s) (plumbing.data s !! i))
           else plumbing.data s !! i.
Proof.
  intros Hk. destruct (decide (k < plumbing.__len__ s)%Z) as [Hlt|Hge].
  - rewrite setitem_materialised by lia. cbn [fst plumbing.default].
    split; [done|]. intros i. cbn [plumbing.data].
    unfold plumbing.__len__ in Hlt.
    destruct (decide (i = Z.to_nat k)) as [->|Hne].
    + apply list_lookup_insert_eq. lia.
    + rewrite list_lookup_insert_ne by done.
      case_decide; [|done].
      destruct (lookup_lt_is_Some_2 (plumbing.data s) i) as [x ->]; [lia|].
      done.
  - rewrite setitem_beyond by lia. cbn [fst plumbing.default].
    split; [done|]. intros i. cbn [plumbing.data].
    pose proof (extend_to_len s k) as Hlen. unfold plumbing.__len__ in *.
    destruct (decide (i = Z.to_nat k)) as [->|Hne].
    + apply list_lookup_insert_eq. lia.
    + rewrite list_lookup_insert_ne by done.
      unfold plumbing.extend_to, py.repeat. cbn [plumbing.data].
      destruct (decide (i < length (plumbing.data s))) as [Hi|Hi].
      * rewrite lookup_app_l by done.
        destruct (lookup_lt_is_Some_2 (plumbing.data s) i) as [x Hx];
          [done|].
        rewrite Hx. by case_decide.
      * rewrite lookup_app_r by lia.
        rewrite (lookup_ge_None_2 (plumbing.data s) i) by lia.
        case_decide.
        -- cbn [default]. apply lookup_replicate_2. lia.
        -- apply lookup_replicate_None. lia.
Qed.

(** X1. On a [_Sequence], after [s[k] = v] with [k >= 0] the index [k]
    reads [v], the read leaves the sequence as the write left it, and every
    other index [j >= 0] reads what it read before the write. *)
Theorem setitem_then_getitem s k v :
  (0 ≤ k)%Z →
  let s' := (plumbing.__setitem__ s k v).1 in
  plumbing.__getitem__ s' k = (s', Ok v)
  ∧ ∀ j, (0 ≤ j)%Z → j ≠ k →
         (plumbing.__getitem__ s' j).2 = (plumbing.__getitem__ s j).2.
Proof.
  intros Hk s'. destruct (setitem_data s k v Hk) as [Hdef Hdata].
  fold s' in Hdef, Hdata. split.
  - destruct (getitem_materialised s' k) as (x & -> & Hx).
    + unfold s'. rewrite setitem_len, bool_decide_eq_true_2
        by (unfold plumbing.__len__; lia). lia.
    + rewrite Hdata, decide_True in Hx by done. by injection Hx as <-.
  - intros j Hj Hne. rewrite !getitem_value by done.
    rewrite Hdef, Hdata. rewrite decide_False by lia.
    case_decide; [done|]. done.
Qed.

End Sequence_round_trip.

(** The sequence of the docstring of [_Sequence]: [s[2]] then
    [s[0] = 23]. *)
Lemma setitem_then_getitem_witness :
  let s := (plumbing.__getitem__
              {| plumbing.default := 42%Q; plumbing.data := [] |} 2).1 in
  let s' := (plumbing.__setitem__ s 0 23%Q).1 in
  (0 ≤ 0)%Z
  ∧ plumbing.data s' = [23%Q; 42%Q; 42%Q]
  ∧ plumbing.__getitem__ s' 0 = (s', Ok 23%Q)
  ∧ (plumbing.__getitem__ s' 1).2 = (plumbing.__getitem__ s 1).2.
Proof.
  intros s s'.
  destruct (setitem_then_getitem s 0 23%Q) as [Hread Hframe]; [lia|].
  split; [lia|]. split; [reflexivity|]. split; [exact Hread|].
  apply Hframe; lia.
Defined.

(** X2. Reading a series, whatever it is (a list, a wrapped scalar), at
    indices [j >= 0] never changes what an index [i >= 0] reads: the growth
    of a [_Sequence] under reads cannot be observed through reads. *)
Theorem reads_do_not_interfere (a : plumbing.pyobj) (js : list Z) (i : Z) :
  (0 ≤ i)%Z → Forall (λ j, 0 ≤ j)%Z js →
  plumbing.read (foldl (λ a j, (plumbing.subscript a j).1) a js) i
  = plumbing.read a i.
Proof.
  intros Hi Hjs. revert a. induction Hjs as [|j js Hj _ IH]; intros a.
  - done.
  - cbn [foldl]. rewrite IH. by apply read_stable.
Qed.

(** [Sequence(10)] read at 10 and at 3, then at 7. *)
Lemma reads_do_not_interfere_witness :
  (0 ≤ 7)%Z ∧ Forall (λ j, 0 ≤ j)%Z [10; 3]%Z
  ∧ plumbing.read
      (foldl (λ a j, (plumbing.subscript a j).1)
             (plumbing.Sequence (plumbing.PyNum 10)) [10; 3]%Z) 7
    = Ok 10%Q.
Proof.
  assert (Forall (λ j, 0 ≤ j)%Z [10; 3]%Z) as Hjs
    by (repeat constructor; lia).
  split; [lia|]. split; [exact Hjs|].
  rewrite (reads_do_not_interfere _ [10; 3]%Z 7); [reflexivity|lia|exact Hjs].
Defined.

(** ** The constructor of [OperationalModel]: the flow index *)

Section OperationalModel_construction.
Variable blocks_create : klass.t → Model.t → result Block.t.
Variable blocks_objective : klass.t → Model.t → result pyomo.expr.

Local Abbreviation init :=
  (OperationalModel.__init__ blocks_create blocks_objective).

Lemma create_blocks_base groups m m' :
  OperationalModel.create_blocks blocks_create groups m = Ok m' →
  Model.es m' = Model.es m ∧ Model.FLOWS m' = Model.FLOWS m
  ∧ Model.TIMESTEPS m' = Model.TIMESTEPS m.
Proof.
  revert m. induction groups as [|g groups IH]; intros m H.
  - by injection H as <-.
  - cbn [OperationalModel.create_blocks] in H.
    apply bind_is_Ok in H as (m1 & Hadd & H).
    apply bind_is_Ok in H as (block & _ & H).
    apply add_component_Ok in Hadd as [_ ->].
    by apply IH in H as (-> & -> & ->).
Qed.

(** X4. In a constructed model the flow variable [m.flow[i, o, t]] exists
    exactly when some node labelled [i] has [o] among its outputs and
    [0 <= t < len(timeindex)]; every other index raises [KeyError]. *)
Theorem flow_variable_index es kw shared shared' m objective index i o t :
  init es kw shared = (shared', Ok (m, objective)) →
  OperationalModel.timeindex kw = Some index →
  let declared :=
    (∃ source, source ∈ EnergySystem.nodes es
               ∧ Node.label source = i ∧ o ∈ Node.outputs source)
    ∧ (0 ≤ t < Z.of_nat (OperationalModel.periods index))%Z in
  (declared → Model.flow m i o t = Ok (pyomo.V (Var.flow i o t)))
  ∧ (¬ declared → Model.flow m i o t = Raise KeyError).
Proof.
  intros Hinit Hindex declared. unfold OperationalModel.__init__ in Hinit.
  rewrite Hindex in Hinit. injection Hinit as _ Hinit.
  apply bind_is_Ok in Hinit as (previous & _ & Hinit).
  apply bind_is_Ok in Hinit as (m' & Hblocks & Hinit).
  apply bind_is_Ok in Hinit as (obj & _ & [= <- <-]).
  apply create_blocks_base in Hblocks as (_ & HF & HT). cbn in HF, HT.
  unfold Model.flow. rewrite HF, HT.
  assert (((i, o) ∈ OperationalModel.flow_keys es
           ∧ t ∈ py.range (OperationalModel.periods index)) ↔ declared)
    as Hiff by (unfold declared; by rewrite flow_keys_elem, range_elem).
  split; intros Hd.
  - rewrite bool_decide_eq_true_2; [done|]. by apply Hiff.
  - rewrite bool_decide_eq_false_2; [done|]. by rewrite Hiff.
Qed.

End OperationalModel_construction.

(** The system of the two turbines over three hours, with the default
    constraint groups: the flow from the gas bus to the first turbine has a
    variable at timestep 2 and none at timestep 3. *)
Lemma flow_variable_index_witness :
  let kw := {| OperationalModel.timeindex := Some examples.three_hours;
               OperationalModel.constraint_groups := None |} in
  ∃ m objective,
    (OperationalModel.__init__ examples.no_blocks_create
       examples.no_blocks_objective examples.turbine_system kw
       OperationalModel.CONSTRAINT_GROUPS).2 = Ok (m, objective)
    ∧ Model.flow m "commodityBus" "variable_chp_gas" 2
      = Ok (pyomo.V (Var.flow "commodityBus" "variable_chp_gas" 2))
    ∧ Model.flow m "commodityBus" "variable_chp_gas" 3 = Raise KeyError.
Proof.
  intros kw.
  destruct (OperationalModel.__init__ examples.no_blocks_create
              examples.no_blocks_objective examples.turbine_system kw
              OperationalModel.CONSTRAINT_GROUPS)
    as [shared' [[m objective]|e]] eqn:Hinit;
    [|vm_compute in Hinit; discriminate Hinit].
  exists m, objective. split; [reflexivity|]. split.
  - apply (flow_variable_index _ _ _ _ _ _ _ _ examples.three_hours
             "commodityBus" "variable_chp_gas" 2 Hinit eq_refl).
    split; [|simpl; lia].
    eexists. split; [left|]. split; [reflexivity|left].
  - apply (flow_variable_index _ _ _ _ _ _ _ _ examples.three_hours
             "commodityBus" "variable_chp_gas" 3 Hinit eq_refl).
    intros [_ Ht]. simpl in Ht. lia.
Defined.

(** ** The objective of the investment storage block *)

Lemma sum_from (acc : float) (l : list float) :
  (foldl Qplus acc l == acc + py.sum l)%Q.
Proof.
  unfold py.sum. revert acc. induction l as [|x l IH]; intros acc.
  - simpl. lra.
  - cbn [foldl]. rewrite (IH (acc + x)%Q), (IH (0 + x)%Q). lra.
Qed.

Lemma sum_cons (x : float) (l : list float) :
  (py.sum (x :: l) == x + py.sum l)%Q.
Proof. unfold py.sum at 1. cbn [foldl]. rewrite sum_from. lra. Qed.

Lemma investment_costs_Ok storages costs e :
  investment_costs storages costs = Ok e →
  Forall (λ n, ∃ i c, GenericStorage.investment n = Some i
                      ∧ Investment.ep_costs i = Some c) storages
  ∧ ∀ ρ,
      (pyomo.eval ρ e
       == pyomo.eval ρ costs
          + py.sum ((λ n, ρ (Var.invest klass.GenericInvestmentStorageBlock
                                        (GenericStorage.label n))
                          * default 0 (GenericStorage.investment n
                                       ≫= Investment.ep_costs))
                      <$> storages))%Q.
Proof.
  revert costs. induction storages as [|n storages IH]; intros costs H.
  - injection H as <-. split; [constructor|]. intros ρ.
    unfold py.sum. simpl. lra.
  - cbn [investment_costs] in H.
    destruct (GenericStorage.investment n) as [i|] eqn:Hi; [|done].
    destruct (Investment.ep_costs i) as [c|] eqn:Hc; [|done].
    apply IH in H as [Hall Hsum]. split.
    + constructor; [by exists i, c|done].
    + intros ρ. rewrite Hsum, fmap_cons, sum_cons. cbn. rewrite Hi. cbn.
      rewrite Hc. cbn. lra.
Qed.

(** X7. The objective contribution of the investment storage block. When
    every storage of the block has an investment with a cost [ep_costs],
    the expression returned has the value of the sum of
    [invest[n] * ep_costs(n)] over the storages; when every storage has an
    investment and one of them lacks the cost, [ValueError] is raised. *)
Theorem investment_costs_objective (storages : list GenericStorage.t) :
  Forall (λ n, is_Some (GenericStorage.investment n)) storages →
  let priced n := ∃ i c, GenericStorage.investment n = Some i
                         ∧ Investment.ep_costs i = Some c in
  (Forall priced storages →
   ∃ e, investment_costs storages (pyomo.Const 0) = Ok e
        ∧ ∀ ρ,
            (pyomo.eval ρ e
             == py.sum
                  ((λ n, ρ (Var.invest klass.GenericInvestmentStorageBlock
                                       (GenericStorage.label n))
                         * default 0 (GenericStorage.investment n
                                      ≫= Investment.ep_costs))
                     <$> storages))%Q)
  ∧ (¬ Forall priced storages →
     investment_costs storages (pyomo.Const 0) = Raise ValueError).
Proof.
  intros Hinv priced.
  assert (∀ costs,
            (Forall priced storages →
             is_Ok (investment_costs storages costs))
            ∧ (¬ Forall priced storages →
               investment_costs storages costs = Raise ValueError)) as H.
  { induction Hinv as [|n storages [i Hi] _ IH]; intros costs.
    - split; [by eexists|]. intros []. constructor.
    - cbn [investment_costs]. rewrite Hi.
      destruct (Investment.ep_costs i) as [c|] eqn:Hc.
      + split.
        * intros [_ Hall]%Forall_cons. by apply IH.
        * intros Hnot. apply IH. intros Hall. apply Hnot.
          constructor; [by exists i, c|done].
      + split; [|done].
        intros [(i' & c & Hi' & Hc') _]%Forall_cons. congruence. }
  split.
  - intros Hall. destruct (proj1 (H (pyomo.Const 0)) Hall) as [e He].
    exists e. split; [done|]. intros ρ.
    destruct (investment_costs_Ok _ _ _ He) as [_ Hsum].
    rewrite Hsum. simpl. lra.
  - apply H.
Qed.

(** The investment storage of the docstring, whose cost is 50, and the
    same storage without a cost. *)
Lemma investment_costs_objective_witness :
  let unpriced :=
    GenericStorage.attributes
      {| GenericStorage.kw_label := "unpriced";
         GenericStorage.kw_inputs := []; GenericStorage.kw_outputs := [];
         GenericStorage.kw_nominal_capacity := None;
         GenericStorage.kw_nominal_input_capacity_ratio := None;
         GenericStorage.kw_nominal_output_capacity_ratio := None;
         GenericStorage.kw_initial_capacity := None;
         GenericStorage.kw_capacity_loss := None;
         GenericStorage.kw_inflow_conversion_factor := None;
         GenericStorage.kw_outflow_conversion_factor := None;
         GenericStorage.kw_capacity_max := None;
         GenericStorage.kw_capacity_min := None;
         GenericStorage.kw_investment := Some Investment.new |} in
  (∃ e, investment_costs [examples.my_investment_storage] (pyomo.Const 0)
        = Ok e
        ∧ ∀ ρ, (pyomo.eval ρ e
                == ρ (Var.invest klass.GenericInvestmentStorageBlock
                                 "investment_storage") * 50)%Q)
  ∧ investment_costs [examples.my_investment_storage; unpriced]
      (pyomo.Const 0) = Raise ValueError.
Proof.
  intros unpriced. split.
  - destruct (investment_costs_objective [examples.my_investment_storage])
      as [Hsum _].
    { constructor; [by eexists|constructor]. }
    destruct Hsum as (e & He & Hρ).
    { constructor; [|constructor]. by eexists _, _. }
    exists e. split; [exact He|]. intros ρ. rewrite (Hρ ρ).
    unfold py.sum. simpl. lra.
  - destruct (investment_costs_objective
                [examples.my_investment_storage; unpriced]) as [_ Hraise].
    { constructor; [by eexists|]. constructor; [by eexists|constructor]. }
    apply Hraise. intros Hall.
    apply Forall_cons in Hall as [_ Hall].
    apply Forall_cons in Hall as [(i & c & Hi & Hc) _].
    injection Hi as <-. discriminate Hc.
Defined.

(** ** The variables and constraints of the storage blocks *)

Section Var_facts.
Context {I : Type} (key : I → pyomo.index).

(** A [Var] built over indices with distinct keys has, at the key of every
    index, the bounds its rule returned there, no value, and is free. *)
Lemma Var_lookup indices bounds vs i :
  pyomo.Var_ key indices bounds = Ok vs →
  NoDup (key <$> indices) → i ∈ indices →
  ∃ b, bounds i = Ok b
       ∧ vs !! key i = Some {| pyomo.lb := b.1; pyomo.ub := b.2;
                               pyomo.value := None; pyomo.fixed := false |}.
Proof.
  revert vs. induction indices as [|j indices IH]; intros vs H Hnd Hin.
  - by apply elem_of_nil in Hin.
  - cbn [pyomo.Var_] in H.
    apply bind_is_Ok in H as (b & Hb & H).
    apply bind_is_Ok in H as (vs' & Hvs' & [= <-]).
    rewrite fmap_cons in Hnd. apply NoDup_cons in Hnd as [Hfresh Hnd].
    apply elem_of_cons in Hin as [->|Hin].
    + exists b. split; [done|]. apply lookup_insert_eq.
    + destruct (IH _ Hvs' Hnd Hin) as (b' & Hb' & Hl).
      exists b'. split; [done|]. rewrite lookup_insert_ne; [done|].
      intros Heq. apply Hfresh. rewrite Heq.
      apply list_elem_of_fmap. by exists i.
Qed.

End Var_facts.

(** Storages of a group with distinct labels are told apart by their
    label. *)
Lemma label_inj (group : list GenericStorage.t) n1 n2 :
  NoDup (GenericStorage.label <$> group) → n1 ∈ group → n2 ∈ group →
  GenericStorage.label n1 = GenericStorage.label n2 → n1 = n2.
Proof.
  induction group as [|n group IH]; intros Hnd H1 H2 Heq.
  - by apply elem_of_nil in H1.
  - rewrite fmap_cons in Hnd. apply NoDup_cons in Hnd as [Hfresh Hnd].
    apply elem_of_cons in H1 as [->|H1]; apply elem_of_cons in H2 as [->|H2].
    + done.
    + destruct Hfresh. rewrite Heq. apply list_elem_of_fmap. by exists n2.
    + destruct Hfresh. rewrite <- Heq. apply list_elem_of_fmap. by exists n1.
    + by apply IH.
Qed.

Section plain_storage_block.
Import GenericStorageBlock.

(** Fixing the initial level touches the variables of the storages with an
    [initial_capacity] at the last timestep, and no other. *)
Lemma set_initial_capacity_other m group capacity capacity' k :
  set_initial_capacity m group capacity = Ok capacity' →
  (∀ n t, n ∈ group → GenericStorage.initial_capacity n ≠ None →
          Model.last_timestep m = Ok t →
          k ≠ pyomo.at_ (GenericStorage.label n) t) →
  capacity' !! k = capacity !! k.
Proof.
  revert capacity. induction group as [|n group IH]; intros capacity H Hk.
  - by injection H as <-.
  - cbn [set_initial_capacity] in H.
    apply bind_is_Ok in H as (capacity1 & H1 & H).
    rewrite (IH _ H)
      by (intros n2 t2 Hn2; apply Hk; apply elem_of_cons; by right).
    destruct (GenericStorage.initial_capacity n) as [x|] eqn:Hx;
      [|by injection H1 as <-].
    apply bind_is_Ok in H1 as (v & _ & H1).
    apply bind_is_Ok in H1 as (t & Ht & H1).
    apply bind_is_Ok in H1 as (d & _ & [= <-]).
    apply lookup_insert_ne. intros Heq.
    apply (Hk n t); [apply elem_of_cons; by left|by rewrite Hx|done|done].
Qed.

Lemma set_initial_capacity_fixed m group capacity capacity' n x :
  set_initial_capacity m group capacity = Ok capacity' →
  NoDup (GenericStorage.label <$> group) → n ∈ group →
  GenericStorage.initial_capacity n = Some x →
  ∃ t c d,
    Model.last_timestep m = Ok t
    ∧ GenericStorage.nominal_capacity n = Some c
    ∧ capacity !! pyomo.at_ (GenericStorage.label n) t = Some d
    ∧ capacity' !! pyomo.at_ (GenericStorage.label n) t
      = Some (pyomo.fix_value (x * c)%Q d).
Proof.
  revert capacity.
  induction group as [|n' group IH]; intros capacity H Hnd Hin Hx.
  - by apply elem_of_nil in Hin.
  - cbn [set_initial_capacity] in H.
    apply bind_is_Ok in H as (capacity1 & H1 & H).
    rewrite fmap_cons in Hnd. apply NoDup_cons in Hnd as [Hfresh Hnd].
    apply elem_of_cons in Hin as [->|Hin].
    + rewrite Hx in H1.
      apply bind_is_Ok in H1 as (v & Hv & H1).
      apply bind_is_Ok in H1 as (t & Ht & H1).
      apply bind_is_Ok in H1 as (d & Hd & [= <-]).
      destruct (GenericStorage.nominal_capacity n') as [c|]; [|done].
      injection Hv as <-. apply lookup_Ok in Hd.
      exists t, c, d. repeat split; try done.
      rewrite (set_initial_capacity_other _ _ _ _ _ H).
      * apply lookup_insert_eq.
      * intros n2 t2 Hn2 _ _ [= Heq _]. apply Hfresh. rewrite Heq.
        apply list_elem_of_fmap. by exists n2.
    + destruct (IH _ H Hnd Hin Hx) as (t & c & d & Ht & Hc & Hd & Hd').
      exists t, c, d. repeat split; try done.
      destruct (GenericStorage.initial_capacity n') as [x'|];
        [|by injection H1 as <-].
      apply bind_is_Ok in H1 as (v & _ & H1).
      apply bind_is_Ok in H1 as (t' & _ & H1).
      apply bind_is_Ok in H1 as (d' & _ & [= <-]).
      rewrite lookup_insert_ne in Hd; [done|].
      intros [= Heq _]. apply Hfresh. rewrite Heq.
      apply list_elem_of_fmap. by exists n.
Qed.

(** X8. The level variable of the plain storage block, once declared and
    initialised (storages with distinct labels, distinct timesteps). The
    variable of storage [n] at timestep [t] is bounded by
    [nominal_capacity * capacity_min[t]] and
    [nominal_capacity * capacity_max[t]]. For a storage with an
    [initial_capacity] the variable of the last timestep, and only that
    one, is fixed to [initial_capacity * nominal_capacity]; every other
    variable is free and has no value. *)
Theorem storage_level_bounds m group capacity n t :
  pyomo.Var_ storage_key (pyomo.product group (Model.TIMESTEPS m))
    _storage_capacity_bound_rule
  ≫= set_initial_capacity m group = Ok capacity →
  NoDup (GenericStorage.label <$> group) → NoDup (Model.TIMESTEPS m) →
  n ∈ group → t ∈ Model.TIMESTEPS m →
  ∃ d c lo hi,
    capacity !! pyomo.at_ (GenericStorage.label n) t = Some d
    ∧ GenericStorage.nominal_capacity n = Some c
    ∧ plumbing.read (GenericStorage.capacity_min n) t = Ok lo
    ∧ plumbing.read (GenericStorage.capacity_max n) t = Ok hi
    ∧ pyomo.lb d = Some (c * lo)%Q ∧ pyomo.ub d = Some (c * hi)%Q
    ∧ match GenericStorage.initial_capacity n with
      | Some x =>
          (Model.last_timestep m = Ok t →
           pyomo.value d = Some (x * c)%Q ∧ pyomo.fixed d = true)
          ∧ (Model.last_timestep m ≠ Ok t →
             pyomo.value d = None ∧ pyomo.fixed d = false)
      | None => pyomo.value d = None ∧ pyomo.fixed d = false
      end.
Proof.
  intros H Hgroup Hsteps Hn Ht.
  apply bind_is_Ok in H as (capacity0 & Hvar & Hinit).
  destruct (Var_lookup _ _ _ _ (n, t) Hvar) as (b & Hb & Hd0).
  { by apply (product_keys_NoDup GenericStorage.label). }
  { by apply product_elem. }
  unfold _storage_capacity_bound_rule in Hb.
  apply bind_is_Ok in Hb as (lo & Hlo & Hb).
  apply bind_is_Ok in Hb as (lower & Hlower & Hb).
  apply bind_is_Ok in Hb as (hi & Hhi & Hb).
  apply bind_is_Ok in Hb as (upper & Hupper & [= <-]).
  destruct (GenericStorage.nominal_capacity n) as [c|] eqn:Hc; [|done].
  injection Hlower as <-. injection Hupper as <-.
  unfold storage_key in Hd0. cbn [fst snd] in Hd0.
  destruct (GenericStorage.initial_capacity n) as [x|] eqn:Hx.
  - destruct (set_initial_capacity_fixed _ _ _ _ _ _ Hinit Hgroup Hn Hx)
      as (t' & c' & d' & Hlast & Hc' & Hd' & Hfix).
    rewrite Hc in Hc'. injection Hc' as <-.
    destruct (decide (t' = t)) as [->|Hne].
    + rewrite Hd0 in Hd'. injection Hd' as <-.
      eexists _, c, lo, hi. split; [exact Hfix|].
      do 5 (split; [done|]). split; [done|]. by intros [].
    + eexists _, c, lo, hi. split.
      * rewrite (set_initial_capacity_other _ _ _ _ _ Hinit); [exact Hd0|].
        intros n2 t2 _ _ Ht2 [= _ ->]. congruence.
      * do 5 (split; [done|]). split; [|done].
        intros Heq. congruence.
  - eexists _, c, lo, hi. split.
    + rewrite (set_initial_capacity_other _ _ _ _ _ Hinit); [exact Hd0|].
      intros n2 t2 Hn2 Hx2 _ [= Heq _].
      assert (n2 = n) as ->; [|congruence].
      by apply (label_inj group).
    + by repeat split.
Qed.

End plain_storage_block.

(** The storage of the docstring over three hours: its level lies between
    0 and 900 and is fixed to 0 at the last hour only. *)
Lemma storage_level_bounds_witness :
  let m := examples.model examples.storage_system 3 (plumbing.PyNum 1)
             (OperationalModel.flow_keys examples.storage_system) in
  ∃ capacity,
    pyomo.Var_ storage_key
      (pyomo.product [examples.my_storage] (Model.TIMESTEPS m))
      GenericStorageBlock._storage_capacity_bound_rule
    ≫= GenericStorageBlock.set_initial_capacity m [examples.my_storage]
    = Ok capacity
    ∧ (∃ d, capacity !! pyomo.at_ "storage" 2 = Some d
            ∧ pyomo.lb d = Some (1000 * 0)%Q
            ∧ pyomo.ub d = Some (1000 * 0.9)%Q
            ∧ pyomo.value d = Some (0 * 1000)%Q ∧ pyomo.fixed d = true)
    ∧ (∃ d, capacity !! pyomo.at_ "storage" 1 = Some d
            ∧ pyomo.lb d = Some (1000 * 0)%Q
            ∧ pyomo.ub d = Some (1000 * 0.9)%Q
            ∧ pyomo.value d = None ∧ pyomo.fixed d = false).
Proof.
  intros m.
  run (pyomo.Var_ storage_key
         (pyomo.product [examples.my_storage] (Model.TIMESTEPS m))
         GenericStorageBlock._storage_capacity_bound_rule
       ≫= GenericStorageBlock.set_initial_capacity m [examples.my_storage])
    capacity H.
  assert (NoDup (GenericStorage.label <$> [examples.my_storage])) as Hgroup
    by (apply NoDup_singleton).
  assert (NoDup (Model.TIMESTEPS m)) as Hsteps by apply range_NoDup.
  assert (examples.my_storage ∈ [examples.my_storage]) as Hn
    by apply list_elem_of_singleton, eq_refl.
  exists capacity. split; [reflexivity|]. split.
  - destruct (storage_level_bounds m _ _ examples.my_storage 2
                H Hgroup Hsteps Hn)
      as (d & c & lo & hi & Hd & Hc & Hlo & Hhi & Hlb & Hub & Hfix).
    { vm_compute. repeat constructor. }
    vm_compute in Hc. injection Hc as <-.
    vm_compute in Hlo. injection Hlo as <-.
    vm_compute in Hhi. injection Hhi as <-.
    hnf in Hfix. destruct Hfix as [[Hv Hf] _]; [vm_compute; reflexivity|].
    exists d. do 4 (split; [assumption|]). assumption.
  - destruct (storage_level_bounds m _ _ examples.my_storage 1
                H Hgroup Hsteps Hn)
      as (d & c & lo & hi & Hd & Hc & Hlo & Hhi & Hlb & Hub & Hfix).
    { vm_compute. repeat constructor. }
    vm_compute in Hc. injection Hc as <-.
    vm_compute in Hlo. injection Hlo as <-.
    vm_compute in Hhi. injection Hhi as <-.
    hnf in Hfix. destruct Hfix as [_ [Hv Hf]]; [vm_compute; intros [=]|].
    exists d. do 4 (split; [assumption|]). assumption.
Defined.

(** ** The relations of the ExtractionTurbineCHP block *)

Lemma comprehension_lookup {A B} (f : A → result B) l ys k x :
  py.comprehension f l = Ok ys → l !! k = Some x →
  ∃ y, f x = Ok y ∧ ys !! k = Some y.
Proof.
  revert ys k. induction l as [|a l IH]; intros ys k H Hk; [done|].
  cbn [py.comprehension] in H.
  apply bind_is_Ok in H as (y & Hy & H).
  apply bind_is_Ok in H as (ys' & Hys & [= <-]).
  destruct k as [|k].
  - injection Hk as <-. by exists y.
  - by apply (IH ys' k).
Qed.

Lemma comprehension_length {A B} (f : A → result B) l ys :
  py.comprehension f l = Ok ys → length ys = length l.
Proof.
  revert ys. induction l as [|a l IH]; intros ys H.
  - by injection H as <-.
  - cbn [py.comprehension] in H.
    apply bind_is_Ok in H as (y & Hy & H).
    apply bind_is_Ok in H as (ys' & Hys & [= <-]).
    cbn [length]. by rewrite (IH ys').
Qed.

(** A list made over [range(N)] holds at position [t] what was made of
    [t]. *)
Lemma comprehension_range {B} (f : Z → result B) N ys t :
  py.comprehension f (py.range N) = Ok ys → t ∈ py.range N →
  ∃ y, f t = Ok y ∧ py.getitem ys t = Ok y.
Proof.
  intros H Ht. apply range_elem in Ht.
  destruct (comprehension_lookup f _ ys (Z.to_nat t) t H) as (y & Hy & Hk).
  { rewrite range_lookup by lia. f_equal. lia. }
  exists y. split; [done|].
  destruct (getitem_in_range ys t) as (y' & -> & Hy').
  { rewrite (comprehension_length _ _ _ H), range_length. lia. }
  congruence.
Qed.

Section turbine_relations.
Import ExtractionTurbineCHP ExtractionTurbineCHPBlock.

Lemma build_group_lookup add_at body ts group built store k :
  build_group add_at body ts group built = Ok store →
  store !! k = built !! k
  ∨ ∃ g c, g ∈ group ∧ add_at g ts = Ok k ∧ body ts g = Ok c
           ∧ store !! k = Some c.
Proof.
  revert built. induction group as [|g group IH]; intros built H.
  - injection H as <-. by left.
  - cbn [build_group] in H.
    apply bind_is_Ok in H as (c & Hc & H).
    apply bind_is_Ok in H as (i & Hi & H).
    destruct (IH _ H) as [Hsame|(g' & c' & Hg' & Hk & Hc' & Hs)].
    + destruct (decide (i = k)) as [->|Hne].
      * right. exists g, c. rewrite Hsame, lookup_insert_eq.
        repeat split; try done. left.
      * left. by rewrite Hsame, lookup_insert_ne.
    + right. exists g', c'. repeat split; try done. by right.
Qed.

Lemma build_group_stored add_at body ts group built store g k :
  build_group add_at body ts group built = Ok store →
  g ∈ group → add_at g ts = Ok k →
  ∃ g' c, g' ∈ group ∧ add_at g' ts = Ok k ∧ body ts g' = Ok c
          ∧ store !! k = Some c.
Proof.
  revert built. induction group as [|g0 group IH]; intros built H Hg Hk.
  - by apply elem_of_nil in Hg.
  - cbn [build_group] in H.
    apply bind_is_Ok in H as (c & Hc & H).
    apply bind_is_Ok in H as (i & Hi & H).
    apply elem_of_cons in Hg as [->|Hg].
    + assert (i = k) as -> by congruence.
      destruct (build_group_lookup _ _ _ _ _ _ k H)
        as [Hsame|(g' & c' & Hg' & Hk' & Hc' & Hs)].
      * exists g0, c. rewrite Hsame, lookup_insert_eq.
        repeat split; try done. left.
      * exists g', c'. repeat split; try done. by right.
    + destruct (IH _ H Hg Hk) as (g' & c' & Hg' & Hk' & Hc' & Hs).
      exists g', c'. repeat split; try done. by right.
Qed.

Lemma build_lookup add_at body steps group built store k :
  build add_at body steps group built = Ok store →
  store !! k = built !! k
  ∨ ∃ ts g c, ts ∈ steps ∧ g ∈ group ∧ add_at g ts = Ok k
              ∧ body ts g = Ok c ∧ store !! k = Some c.
Proof.
  revert built. induction steps as [|ts steps IH]; intros built H.
  - injection H as <-. by left.
  - cbn [build] in H. apply bind_is_Ok in H as (built' & Hg & H).
    destruct (IH _ H) as [Hsame|(ts' & g & c & Hts & Hin & Hk & Hc & Hs)].
    + destruct (build_group_lookup _ _ _ _ _ _ k Hg)
        as [Hsame'|(g & c & Hin & Hk & Hc & Hs)].
      * left. by rewrite Hsame.
      * right. exists ts, g, c. rewrite Hsame.
        repeat split; try done. left.
    + right. exists ts', g, c. repeat split; try done. by right.
Qed.

(** A relation added under an index stays until a relation is added under
    the same index: the index of every pair holds a relation of a pair with
    that index. *)
Lemma build_stored add_at body steps group built store ts g k :
  build add_at body steps group built = Ok store →
  ts ∈ steps → g ∈ group → add_at g ts = Ok k →
  ∃ ts' g' c, ts' ∈ steps ∧ g' ∈ group ∧ add_at g' ts' = Ok k
              ∧ body ts' g' = Ok c ∧ store !! k = Some c.
Proof.
  revert built. induction steps as [|ts0 steps IH]; intros built H Hts Hg Hk.
  - by apply elem_of_nil in Hts.
  - cbn [build] in H. apply bind_is_Ok in H as (built' & Hgroup & H).
    apply elem_of_cons in Hts as [->|Hts].
    + destruct (build_group_stored _ _ _ _ _ _ _ _ Hgroup Hg Hk)
        as (g' & c & Hg' & Hk' & Hc & Hs).
      destruct (build_lookup _ _ _ _ _ _ k H)
        as [Hsame|(ts' & g2 & c2 & Hts' & Hg2 & Hk2 & Hc2 & Hs2)].
      * exists ts0, g', c. rewrite Hsame. repeat split; try done. left.
      * exists ts', g2, c2. repeat split; try done. by right.
    + destruct (IH _ H Hts Hg Hk) as (ts' & g' & c & Hts' & Hg' & Hk' & Hc & Hs).
      exists ts', g', c. repeat split; try done. by right.
Qed.

(** The members of the group are its nodes, each with the attributes
    derived for it. *)
Lemma members_derived m group members :
  py.comprehension (λ n, d ← derive m n; Ok (n, d)) group = Ok members →
  (∀ g, g ∈ members → g.1 ∈ group ∧ derive m g.1 = Ok g.2)
  ∧ (∀ n, n ∈ group → ∃ d, (n, d) ∈ members).
Proof.
  revert members. induction group as [|n group IH]; intros members H.
  - injection H as <-. split; intros ? Hin; by apply elem_of_nil in Hin.
  - cbn [py.comprehension] in H.
    apply bind_is_Ok in H as ([n' d] & Hd & H).
    apply bind_is_Ok in Hd as (d' & Hd & [= <- <-]).
    apply bind_is_Ok in H as (members' & Hm & [= <-]).
    destruct (IH _ Hm) as [IH1 IH2]. split.
    + intros g [->|Hg]%elem_of_cons.
      * split; [left|done].
      * destruct (IH1 g Hg). split; [by right|done].
    + intros n0 [->|Hn0]%elem_of_cons.
      * exists d'. left.
      * destruct (IH2 n0 Hn0) as [d0 Hd0]. exists d0. by right.
Qed.

(** X9. In a created ExtractionTurbineCHP block over the timesteps
    [range(N)], every turbine [g] of a group with distinct labels has at
    every timestep [ts] its own out-flow relation under the index
    [(g, ts)]: the flow to the main output is at least the flow to the
    tapped output times the ratio of the conversion factors of the two
    outputs at [ts]. *)
Theorem out_flow_relation_each m N group block g ts :
  _create m (Some group) = Ok block →
  Model.TIMESTEPS m = py.range N →
  NoDup (label <$> group) → g ∈ group → ts ∈ Model.TIMESTEPS m →
  ∃ store c d a b,
    Block.constraints block !! "out_flow_relation" = Some store
    ∧ store !! pyomo.at_ (label g) ts = Some c
    ∧ derive m g = Ok d
    ∧ conversion_factor m g (main_output d) ts = Ok a
    ∧ conversion_factor m g (tapped_output d) ts = Ok b
    ∧ ¬ (b == 0)%Q
    ∧ ∀ ρ, pyomo.holds ρ c
           ↔ (ρ (Var.flow (label g) (tapped_output d) ts) * (a / b)
              <= ρ (Var.flow (label g) (main_output d) ts))%Q.
Proof.
  intros H HN Hnd Hg Hts. unfold _create in H.
  apply bind_is_Ok in H as (members & Hm & H).
  apply bind_is_Ok in H as (io & _ & H).
  apply bind_is_Ok in H as (store & Hs & [= <-]).
  destruct (members_derived _ _ _ Hm) as [Hmem Hall].
  destruct (Hall g Hg) as [d Hgd].
  destruct (Hmem _ Hgd) as [_ Hd]. cbn [fst snd] in Hd.
  unfold _out_flow_relation_rule in Hs.
  destruct (build_stored _ _ _ _ _ _ ts (g, d) (pyomo.at_ (label g) ts) Hs)
    as (ts' & [g' d'] & c & Hts' & Hg' & Hk & Hc & Hstore); [done..|].
  injection Hk as Hlabel ->.
  destruct (Hmem _ Hg') as [Hin' Hd']. cbn [fst snd] in *.
  assert (g' = g) as ->.
  { clear -Hnd Hin' Hg Hlabel. induction group as [|n group IH].
    - by apply elem_of_nil in Hg.
    - rewrite fmap_cons in Hnd. apply NoDup_cons in Hnd as [Hfresh Hnd].
      apply elem_of_cons in Hin' as [->|Hin'];
        apply elem_of_cons in Hg as [->|Hg]; [done| | |by apply IH].
      + destruct Hfresh. rewrite Hlabel. apply list_elem_of_fmap.
        by exists g.
      + destruct Hfresh. rewrite <- Hlabel. apply list_elem_of_fmap.
        by exists g'. }
  assert (d' = d) as -> by congruence.
  unfold out_flow_relation_expr in Hc.
  apply bind_is_Ok in Hc as (lhs & [-> _]%Model_flow_Ok & Hc).
  apply bind_is_Ok in Hc as (tapped & [-> _]%Model_flow_Ok & Hc).
  apply bind_is_Ok in Hc as (index & Hindex & [= <-]).
  pose proof Hd as Hderive. unfold derive in Hd.
  apply bind_is_Ok in Hd as (inflow & _ & Hd).
  apply bind_is_Ok in Hd as (main_label & _ & Hd).
  apply bind_is_Ok in Hd as (main & _ & Hd).
  apply bind_is_Ok in Hd as (tap & _ & Hd).
  apply bind_is_Ok in Hd as (bus & _ & Hd).
  apply bind_is_Ok in Hd as (sq & _ & Hd).
  apply bind_is_Ok in Hd as (fri & Hfri & Hd).
  apply bind_is_Ok in Hd as (mfli & _ & [= <-]).
  cbn [flow_relation_index main_output tapped_output] in *.
  rewrite HN in Hfri, Hts.
  destruct (comprehension_range _ _ _ ts Hfri Hts) as (y & Hy & Hget).
  assert (y = index) as -> by congruence.
  apply bind_is_Ok in Hy as (a & Ha & Hy).
  apply bind_is_Ok in Hy as (b & Hb & Hy).
  apply div_Ok in Hy as [Hb0 ->].
  eexists store, _, _, a, b.
  split; [done|]. split; [exact Hstore|]. split; [exact Hderive|].
  cbn [main_output tapped_output].
  split; [done|]. split; [done|]. split; [done|].
  intros ρ. unfold pyomo.holds. cbn [pyomo.rel pyomo.lhs pyomo.rhs pyomo.eval].
  done.
Qed.

Lemma filter_main_absent (k : node) (l : list node) :
  k ∉ l → filter (λ o, k = o) l = [].
Proof.
  induction l as [|o l IH]; [done|].
  intros [Hne Hnot]%not_elem_of_cons.
  rewrite filter_cons_False by done. by apply IH.
Qed.

Lemma filter_tapped_absent (k : node) (l : list node) :
  Forall (λ o, o = k) l → filter (λ o, k ≠ o) l = [].
Proof.
  induction 1 as [|o l Ho Hall IH]; [done|].
  rewrite filter_cons_False by (intros Hne; by apply Hne). done.
Qed.

(** X10. A turbine needs an input, a full-condensation factor keyed by one
    of its outputs and a second, tapped output: without any of them the
    derivation of its attributes raises [IndexError], and no block is
    created for a group it belongs to. *)
Theorem derive_needs_main_and_tapped m group n :
  n ∈ group →
  inputs n = []
  ∨ conversion_factor_full_condensation n = []
  ∨ (∀ k, head (py.keys (conversion_factor_full_condensation n)) = Some k →
          k ∉ outputs n ∨ Forall (λ o, o = k) (outputs n)) →
  derive m n = Raise IndexError ∧ ¬ is_Ok (_create m (Some group)).
Proof.
  intros Hn Hcase.
  assert (derive m n = Raise IndexError) as Hraise.
  { unfold derive. destruct (inputs n) as [|i ins] eqn:Hi; [done|].
    destruct (conversion_factor_full_condensation n) as [|[k v] cf] eqn:Hcf;
      [done|].
    destruct Hcase as [|[|Hk]]; [congruence..|].
    change (py.getitem (i :: ins) 0) with (Ok i). rewrite bind_Ok.
    change (py.getitem (py.keys ((k, v) :: cf)) 0) with (Ok k).
    rewrite bind_Ok.
    destruct (Hk k eq_refl) as [Hnot|Hall].
    - rewrite (filter_main_absent k (outputs n) Hnot).
      by rewrite (getitem_out_of_range (A:=node) [] 0) by (cbn; lia).
    - destruct (py.getitem (filter (λ o, k = o) (outputs n)) 0) as [main|e]
        eqn:Hmain.
      + rewrite bind_Ok, (filter_tapped_absent k (outputs n) Hall).
        by rewrite (getitem_out_of_range (A:=node) [] 0) by (cbn; lia).
      + apply getitem_raises in Hmain as ->. done. }
  split; [done|]. intros [block H]. unfold _create in H.
  apply bind_is_Ok in H as (members & Hm & _).
  destruct (comprehension_Ok_each _ _ _ n Hm Hn) as [x Hx].
  rewrite Hraise in Hx. done.
Qed.

End turbine_relations.

(** Two turbines with the factors of the docstring over one timestep: the
    first, which has no input/output relation under its index, has its
    out-flow relation, with the ratio [0.3 / 0.5]. *)
Lemma out_flow_relation_each_witness :
  let group := [examples.variable_chp_gas; examples.variable_chp_gas_2] in
  let g := "variable_chp_gas" in
  ∃ created store c,
    ExtractionTurbineCHPBlock._create examples.turbine_model (Some group)
    = Ok created
    ∧ Block.constraints created !! "out_flow_relation" = Some store
    ∧ store !! pyomo.at_ g 0 = Some c
    ∧ ∀ ρ, pyomo.holds ρ c
           ↔ (ρ (Var.flow g "heatBus" 0) * (0.3 / 0.5)
              <= ρ (Var.flow g "electricityBus" 0))%Q.
Proof.
  intros group g.
  run (ExtractionTurbineCHPBlock._create examples.turbine_model (Some group))
    created Hcreate.
  destruct (out_flow_relation_each examples.turbine_model 1 group created
              examples.variable_chp_gas 0 Hcreate)
    as (store & c & d & a & b & Hstore & Hc & Hd & Ha & Hb & _ & Hholds).
  { reflexivity. }
  { vm_compute. repeat constructor; rewrite ?elem_of_cons, ?elem_of_nil;
      intuition discriminate. }
  { apply elem_of_cons. by left. }
  { by apply list_elem_of_singleton. }
  vm_compute in Hd. injection Hd as <-.
  vm_compute in Ha. injection Ha as <-.
  vm_compute in Hb. injection Hb as <-.
  exists created, store, c.
  split; [reflexivity|]. split; [exact Hstore|]. split; [exact Hc|].
  exact Hholds.
Defined.

(** A turbine with the electrical output only, next to the turbine of the
    docstring. *)
Lemma derive_needs_main_and_tapped_witness :
  let single :=
    ExtractionTurbineCHP.__init__ "condensing_turbine"
      ["commodityBus"] ["electricityBus"]
      [("electricityBus", plumbing.PyNum 0.3)]
      [("electricityBus", plumbing.PyNum 0.5)] in
  ExtractionTurbineCHPBlock.derive examples.turbine_model single
  = Raise IndexError
  ∧ ¬ is_Ok (ExtractionTurbineCHPBlock._create examples.turbine_model
               (Some [examples.variable_chp_gas; single])).
Proof.
  intros single.
  apply (derive_needs_main_and_tapped examples.turbine_model).
  - apply elem_of_cons. right. by apply list_elem_of_singleton.
  - right. right. intros k [= <-]. right. by repeat constructor.
Defined.

(** ** The property [alphas] and the constraints of the GenericCHP block *)

Section chp_alphas.
Import GenericCHP.

(** X11. The property [alphas] computes once. When an access returns the
    coefficients, the plant holds them in [_alphas], and every later access
    returns them without a new computation and without a change of state,
    whatever the other attributes of the plant, the series of its flows
    included, have become. When an access raises, nothing was and nothing
    is cached. *)
Theorem alphas_cached self self' r :
  alphas self = (self', r) →
  match r with
  | Ok a =>
      _alphas self' = Some a
      ∧ ∀ later, _alphas later = _alphas self' → alphas later = (later, Ok a)
  | Raise e => _alphas self = None ∧ _alphas self' = None
  end.
Proof.
  unfold alphas. destruct (_alphas self) as [a0|] eqn:Hcache.
  - intros [= <- <-]. split; [done|].
    intros later Hlater. unfold alphas. by rewrite Hlater, Hcache.
  - unfold _calculate_alphas.
    destruct (electrical_output self) as [|[eb flow] others].
    { by intros [= <- <-]. }
    destruct (calculate_alphas flow) as [flow' [a|e]]; cbn [_alphas].
    + intros [= <- <-]. split; [done|].
      intros later Hlater. unfold alphas. by rewrite Hlater.
    + intros [= <- <-]. cbn [_alphas]. by split.
Qed.

End chp_alphas.

Section chp_block.
Import GenericCHP GenericCHPBlock.

Lemma chp_created m group block :
  _create m (Some group) = Ok block →
  let indices := pyomo.product group (Model.TIMESTEPS m) in
  ∃ H_flow Q_flow P_flow H_F_1 H_F_2 H_F_3 H_F_4 H_L_FG_max_def Q_max_res
    H_L_FG_min_def Q_min_res,
    pyomo.Constraint chp_key indices (_H_flow_rule m) = Ok H_flow
    ∧ pyomo.Constraint chp_key indices (_Q_flow_rule m) = Ok Q_flow
    ∧ pyomo.Constraint chp_key indices (_P_flow_rule m) = Ok P_flow
    ∧ pyomo.Constraint chp_key indices _H_F_1_rule = Ok H_F_1
    ∧ pyomo.Constraint chp_key indices _H_F_2_rule = Ok H_F_2
    ∧ pyomo.Constraint chp_key indices _H_F_3_rule = Ok H_F_3
    ∧ pyomo.Constraint chp_key indices _H_F_4_rule = Ok H_F_4
    ∧ pyomo.Constraint chp_key indices _H_L_FG_max_rule = Ok H_L_FG_max_def
    ∧ pyomo.Constraint chp_key indices _Q_max_res_rule = Ok Q_max_res
    ∧ pyomo.Constraint chp_key indices _H_L_FG_min_rule = Ok H_L_FG_min_def
    ∧ pyomo.Constraint chp_key indices _Q_min_res_rule = Ok Q_min_res
    ∧ Block.constraints block
      = {[ "H_flow" := H_flow; "Q_flow" := Q_flow; "P_flow" := P_flow;
           "H_F_1" := H_F_1; "H_F_2" := H_F_2; "H_F_3" := H_F_3;
           "H_F_4" := H_F_4; "H_L_FG_max_def" := H_L_FG_max_def;
           "Q_max_res" := Q_max_res;
           "H_L_FG_min_def" := H_L_FG_min_def;
           "Q_min_res" := Q_min_res ]}.
Proof.
  intros H indices. unfold _create in H. fold indices in H.
  do 7 (apply bind_is_Ok in H as (? & _ & H)).
  apply bind_is_Ok in H as (H_flow & ? & H).
  apply bind_is_Ok in H as (Q_flow & ? & H).
  apply bind_is_Ok in H as (P_flow & ? & H).
  apply bind_is_Ok in H as (H_F_1 & ? & H).
  apply bind_is_Ok in H as (H_F_2 & ? & H).
  apply bind_is_Ok in H as (H_F_3 & ? & H).
  apply bind_is_Ok in H as (H_F_4 & ? & H).
  apply bind_is_Ok in H as (H_L_FG_max_def & ? & H).
  apply bind_is_Ok in H as (Q_max_res & ? & H).
  apply bind_is_Ok in H as (H_L_FG_min_def & ? & H).
  apply bind_is_Ok in H as (Q_min_res & ? & H).
  injection H as <-.
  by exists H_flow, Q_flow, P_flow, H_F_1, H_F_2, H_F_3, H_F_4,
    H_L_FG_max_def, Q_max_res, H_L_FG_min_def, Q_min_res.
Qed.

Lemma chp_constraint_at rule store (group : list GenericCHP.t) T n t :
  pyomo.Constraint chp_key (pyomo.product group T) rule = Ok store →
  NoDup (label <$> group) → NoDup T → n ∈ group → t ∈ T →
  ∃ c, rule (n, t) = Ok c ∧ store !! pyomo.at_ (label n) t = c.
Proof.
  intros H Hgroup HT Hn Ht.
  destruct (Constraint_lookup _ _ _ _ (n, t) H) as (c & Hc & Hstore).
  { by apply (product_keys_NoDup label). }
  { by apply product_elem. }
  by exists c.
Qed.

(** X12. A GenericCHP block is created only when the coefficients of every
    plant cover the time index: every timestep [t >= 0] lies below the
    number of operating points, which is the common length of the four
    series of the electrical flow, counted as 1 when it is 0. A plant given
    by scalars, wrapped by [Sequence] and never read, serves one timestep
    only. *)
Theorem chp_block_covers_timesteps m group block n t eb flow others :
  _create m (Some group) = Ok block →
  NoDup (label <$> group) → NoDup (Model.TIMESTEPS m) →
  n ∈ group → t ∈ Model.TIMESTEPS m → (0 ≤ t)%Z →
  _alphas n = None → electrical_output n = (eb, flow) :: others →
  ∃ a l,
    Flow.attrs flow !! "P_min_woDH" = Some a ∧ plumbing.len a = Ok l
    ∧ checked_length flow = Ok (if bool_decide (l = 0%Z) then 1%Z else l)
    ∧ (t < (if bool_decide (l = 0%Z) then 1 else l))%Z.
Proof.
  intros H Hgroup HT Hn Ht Ht0 Hcache Heo.
  destruct (chp_created _ _ _ H)
    as (? & ? & ? & H_F_1 & ? & ? & ? & ? & ? & ? & ? & _ & _ & _ & H1 & _).
  destruct (chp_constraint_at _ _ _ _ n t H1) as (c & Hc & _); [done..|].
  unfold _H_F_1_rule in Hc. cbn [fst snd] in Hc.
  apply bind_is_Ok in Hc as (a0 & Ha0 & _).
  unfold alpha in Ha0.
  apply bind_is_Ok in Ha0 as ([alphas0 alphas1] & Halphas & Hget).
  cbn [fst] in Hget.
  assert ((calculate_alphas flow).2 = Ok (alphas0, alphas1)) as Hcalc.
  { revert Halphas. unfold alphas, _calculate_alphas.
    rewrite Hcache, Heo.
    destruct (calculate_alphas flow) as [flow' [a|e]]; cbn [fst snd _alphas].
    - by intros [= <-].
    - done. }
  rewrite calculate_alphas_reads in Hcalc.
  apply bind_is_Ok in Hcalc as (L & HL & Hcalc).
  apply alphas_of_Ok in Hcalc as (Hlen & _ & _).
  rewrite range_length in Hlen.
  destruct (checked_length_Ok _ _ HL)
    as (a1 & a2 & a3 & a4 & l & Ha1 & _ & _ & _ & Hl & _ & _ & _ & ->).
  exists a1, l. split; [done|]. split; [done|]. split; [done|].
  destruct (decide (t < Z.of_nat (length alphas0))%Z) as [Hlt|Hge].
  - rewrite Hlen in Hlt. case_bool_decide; lia.
  - rewrite getitem_out_of_range in Hget by lia. done.
Qed.

(** X13. In a created GenericCHP block, for every plant and timestep the
    constraints [H_flow], [Q_flow] and [P_flow] identify the variables
    [H_F], [Q] and [P] with the flow from the first fuel bus, to the first
    heat bus and to the first electrical bus; these three flows are flows
    of the model. *)
Theorem chp_variables_are_flows m group block n t :
  _create m (Some group) = Ok block →
  NoDup (label <$> group) → NoDup (Model.TIMESTEPS m) →
  n ∈ group → t ∈ Model.TIMESTEPS m →
  let l := label n in
  ∃ H_flow Q_flow P_flow cH cQ cP fuel heat power,
    Block.constraints block !! "H_flow" = Some H_flow
    ∧ Block.constraints block !! "Q_flow" = Some Q_flow
    ∧ Block.constraints block !! "P_flow" = Some P_flow
    ∧ H_flow !! pyomo.at_ l t = Some cH
    ∧ Q_flow !! pyomo.at_ l t = Some cQ
    ∧ P_flow !! pyomo.at_ l t = Some cP
    ∧ first_key (fuel_input n) = Ok fuel
    ∧ first_key (heat_output n) = Ok heat
    ∧ first_key (electrical_output n) = Ok power
    ∧ (fuel, l) ∈ Model.FLOWS m ∧ (l, heat) ∈ Model.FLOWS m
    ∧ (l, power) ∈ Model.FLOWS m
    ∧ ∀ ρ,
        (pyomo.holds ρ cH ↔ (ρ (Var.H_F l t) == ρ (Var.flow fuel l t))%Q)
        ∧ (pyomo.holds ρ cQ ↔ (ρ (Var.Q l t) == ρ (Var.flow l heat t))%Q)
        ∧ (pyomo.holds ρ cP ↔ (ρ (Var.P l t) == ρ (Var.flow l power t))%Q).
Proof.
  intros H Hgroup HT Hn Ht l.
  destruct (chp_created _ _ _ H)
    as (H_flow & Q_flow & P_flow & ? & ? & ? & ? & ? & ? & ? & ?
        & HH & HQ & HP & _ & _ & _ & _ & _ & _ & _ & _ & Hblock).
  destruct (chp_constraint_at _ _ _ _ n t HH) as (cH & HcH & HsH); [done..|].
  destruct (chp_constraint_at _ _ _ _ n t HQ) as (cQ & HcQ & HsQ); [done..|].
  destruct (chp_constraint_at _ _ _ _ n t HP) as (cP & HcP & HsP); [done..|].
  unfold _H_flow_rule in HcH. unfold _Q_flow_rule in HcQ.
  unfold _P_flow_rule in HcP. cbn [fst snd] in HcH, HcQ, HcP. fold l in HsH, HsQ, HsP, HcH, HcQ, HcP.
  apply bind_is_Ok in HcH as (fuel & Hfuel & HcH).
  apply bind_is_Ok in HcH as (fH & [-> [HfH _]]%Model_flow_Ok & [= <-]).
  apply bind_is_Ok in HcQ as (heat & Hheat & HcQ).
  apply bind_is_Ok in HcQ as (fQ & [-> [HfQ _]]%Model_flow_Ok & [= <-]).
  apply bind_is_Ok in HcP as (power & Hpower & HcP).
  apply bind_is_Ok in HcP as (fP & [-> [HfP _]]%Model_flow_Ok & [= <-]).
  eexists H_flow, Q_flow, P_flow, _, _, _, fuel, heat, power.
  rewrite Hblock.
  split; [by simplify_map_eq|]. split; [by simplify_map_eq|].
  split; [by simplify_map_eq|].
  split; [exact HsH|]. split; [exact HsQ|]. split; [exact HsP|].
  do 6 (split; [done|]).
  intros ρ. unfold pyomo.holds. simpl.
  repeat split; intros Heq; lra.
Qed.

(** X14. In a created GenericCHP block the constraints [H_F_1] and [H_F_2]
    of a plant at a timestep are [H_F = a0*Y + a1*P_woDH] and
    [H_F = a0*Y + a1*(P + Beta[t]*Q)], with [a0] and [a1] the coefficients
    of the plant at [t]: together they make [a1*P_woDH] equal to
    [a1*(P + Beta[t]*Q)]. *)
Theorem chp_fuel_of_power m group block n t :
  _create m (Some group) = Ok block →
  NoDup (label <$> group) → NoDup (Model.TIMESTEPS m) →
  n ∈ group → t ∈ Model.TIMESTEPS m →
  let l := label n in
  ∃ H_F_1 H_F_2 c1 c2 a0 a1 beta,
    Block.constraints block !! "H_F_1" = Some H_F_1
    ∧ Block.constraints block !! "H_F_2" = Some H_F_2
    ∧ H_F_1 !! pyomo.at_ l t = Some c1
    ∧ H_F_2 !! pyomo.at_ l t = Some c2
    ∧ alpha n false t = Ok a0 ∧ alpha n true t = Ok a1
    ∧ plumbing.read (Beta n) t = Ok beta
    ∧ ∀ ρ,
        (pyomo.holds ρ c1
         ↔ (ρ (Var.H_F l t)
            == a0 * ρ (Var.Y l t) + a1 * ρ (Var.P_woDH l t))%Q)
        ∧ (pyomo.holds ρ c2
           ↔ (ρ (Var.H_F l t)
              == a0 * ρ (Var.Y l t)
                 + a1 * (ρ (Var.P l t) + beta * ρ (Var.Q l t)))%Q)
        ∧ (pyomo.holds ρ c1 → pyomo.holds ρ c2 →
           (a1 * ρ (Var.P_woDH l t)
            == a1 * (ρ (Var.P l t) + beta * ρ (Var.Q l t)))%Q).
Proof.
  intros H Hgroup HT Hn Ht l.
  destruct (chp_created _ _ _ H)
    as (? & ? & ? & H_F_1 & H_F_2 & ? & ? & ? & ? & ? & ?
        & _ & _ & _ & H1 & H2 & _ & _ & _ & _ & _ & _ & Hblock).
  destruct (chp_constraint_at _ _ _ _ n t H1) as (c1 & Hc1 & Hs1); [done..|].
  destruct (chp_constraint_at _ _ _ _ n t H2) as (c2 & Hc2 & Hs2); [done..|].
  unfold _H_F_1_rule in Hc1. unfold _H_F_2_rule in Hc2.
  cbn [fst snd] in Hc1, Hc2. fold l in Hs1, Hs2, Hc1, Hc2.
  apply bind_is_Ok in Hc1 as (a0 & Ha0 & Hc1).
  apply bind_is_Ok in Hc1 as (a1 & Ha1 & [= <-]).
  rewrite Ha0, Ha1, !bind_Ok in Hc2.
  apply bind_is_Ok in Hc2 as (beta & Hbeta & [= <-]).
  eexists H_F_1, H_F_2, _, _, a0, a1, beta.
  rewrite Hblock.
  split; [by simplify_map_eq|]. split; [by simplify_map_eq|].
  split; [exact Hs1|]. split; [exact Hs2|].
  do 3 (split; [done|]).
  intros ρ. unfold pyomo.holds. simpl.
  repeat split; intros; lra.
Qed.

(** X15. In a created GenericCHP block the constraints [H_F_3] and [H_F_4]
    of a plant at a timestep keep the fuel flow [H_F] between
    [Y * P_min_woDH[t]/Eta_el_min_woDH[t]] and
    [Y * P_max_woDH[t]/Eta_el_max_woDH[t]]: a plant that is off ([Y = 0])
    burns no fuel. Neither efficiency is zero at a timestep of a created
    block. *)
Theorem chp_operating_range m group block n t :
  _create m (Some group) = Ok block →
  NoDup (label <$> group) → NoDup (Model.TIMESTEPS m) →
  n ∈ group → t ∈ Model.TIMESTEPS m →
  let l := label n in
  ∃ H_F_3 H_F_4 c3 c4 p_min eta_min p_max eta_max,
    Block.constraints block !! "H_F_3" = Some H_F_3
    ∧ Block.constraints block !! "H_F_4" = Some H_F_4
    ∧ H_F_3 !! pyomo.at_ l t = Some c3
    ∧ H_F_4 !! pyomo.at_ l t = Some c4
    ∧ flow_attr (electrical_output n) "P_min_woDH" t = Ok p_min
    ∧ flow_attr (electrical_output n) "Eta_el_min_woDH" t = Ok eta_min
    ∧ flow_attr (electrical_output n) "P_max_woDH" t = Ok p_max
    ∧ flow_attr (electrical_output n) "Eta_el_max_woDH" t = Ok eta_max
    ∧ ¬ (eta_min == 0)%Q ∧ ¬ (eta_max == 0)%Q
    ∧ ∀ ρ,
        (pyomo.holds ρ c3
         ↔ (ρ (Var.H_F l t) <= ρ (Var.Y l t) * (p_max / eta_max))%Q)
        ∧ (pyomo.holds ρ c4
           ↔ (ρ (Var.Y l t) * (p_min / eta_min) <= ρ (Var.H_F l t))%Q)
        ∧ (pyomo.holds ρ c3 → pyomo.holds ρ c4 →
           (ρ (Var.Y l t) == 0)%Q → (ρ (Var.H_F l t) == 0)%Q).
Proof.
  intros H Hgroup HT Hn Ht l.
  destruct (chp_created _ _ _ H)
    as (? & ? & ? & ? & ? & H_F_3 & H_F_4 & ? & ? & ? & ?
        & _ & _ & _ & _ & _ & H3 & H4 & _ & _ & _ & _ & Hblock).
  destruct (chp_constraint_at _ _ _ _ n t H3) as (c3 & Hc3 & Hs3); [done..|].
  destruct (chp_constraint_at _ _ _ _ n t H4) as (c4 & Hc4 & Hs4); [done..|].
  unfold _H_F_3_rule in Hc3. unfold _H_F_4_rule in Hc4.
  cbn [fst snd] in Hc3, Hc4. fold l in Hs3, Hs4, Hc3, Hc4.
  apply bind_is_Ok in Hc3 as (p_max & Hp_max & Hc3).
  apply bind_is_Ok in Hc3 as (eta_max & Heta_max & Hc3).
  apply bind_is_Ok in Hc3 as (h3 & [Hmax ->]%div_Ok & [= <-]).
  apply bind_is_Ok in Hc4 as (p_min & Hp_min & Hc4).
  apply bind_is_Ok in Hc4 as (eta_min & Heta_min & Hc4).
  apply bind_is_Ok in Hc4 as (h4 & [Hmin ->]%div_Ok & [= <-]).
  eexists H_F_3, H_F_4, _, _, p_min, eta_min, p_max, eta_max.
  rewrite Hblock.
  split; [by simplify_map_eq|]. split; [by simplify_map_eq|].
  split; [exact Hs3|]. split; [exact Hs4|].
  do 6 (split; [done|]).
  intros ρ. unfold pyomo.holds. simpl.
  split; [split; intros; lra|]. split; [split; intros; lra|].
  intros H3' H4' HY.
  assert (ρ (Var.Y l t) * (p_max / eta_max) == 0)%Q as Hmax0
    by (rewrite HY; ring).
  assert (ρ (Var.Y l t) * (p_min / eta_min) == 0)%Q as Hmin0
    by (rewrite HY; ring).
  lra.
Qed.

(** X16. In a created GenericCHP block [H_L_FG_max_def] makes
    [H_L_FG_max] the share [H_L_FG_share_max[t]] of [H_F] for every plant
    and timestep. [H_L_FG_min_def] and [Q_min_res] exist for a plant only
    when the first fuel flow has an attribute [H_L_FG_share_min] that is
    true as a Python value: when it is absent, [0] or an empty series,
    neither constraint has an entry for the plant; otherwise they are
    [H_L_FG_min = H_F * H_L_FG_share_min[t]] and
    [P + Q + H_L_FG_min + Q_CW_min[t]*Y - H_F >= 0]. *)
Theorem chp_flue_gas_losses m group block n t :
  _create m (Some group) = Ok block →
  NoDup (label <$> group) → NoDup (Model.TIMESTEPS m) →
  n ∈ group → t ∈ Model.TIMESTEPS m →
  let l := label n in
  ∃ max_def min_def Q_min_res cmax share_max declared,
    Block.constraints block !! "H_L_FG_max_def" = Some max_def
    ∧ Block.constraints block !! "H_L_FG_min_def" = Some min_def
    ∧ Block.constraints block !! "Q_min_res" = Some Q_min_res
    ∧ max_def !! pyomo.at_ l t = Some cmax
    ∧ flow_attr (fuel_input n) "H_L_FG_share_max" t = Ok share_max
    ∧ (∀ ρ, pyomo.holds ρ cmax
            ↔ (ρ (Var.H_L_FG_max l t) == ρ (Var.H_F l t) * share_max)%Q)
    ∧ has_attr (fuel_input n) "H_L_FG_share_min" = Ok declared
    ∧ if declared : bool then
        ∃ cmin cres share_min q,
          min_def !! pyomo.at_ l t = Some cmin
          ∧ Q_min_res !! pyomo.at_ l t = Some cres
          ∧ flow_attr (fuel_input n) "H_L_FG_share_min" t = Ok share_min
          ∧ flow_attr (heat_output n) "Q_CW_min" t = Ok q
          ∧ ∀ ρ,
              (pyomo.holds ρ cmin
               ↔ (ρ (Var.H_L_FG_min l t) == ρ (Var.H_F l t) * share_min)%Q)
              ∧ (pyomo.holds ρ cres
                 ↔ (0 <= ρ (Var.P l t) + ρ (Var.Q l t)
                         + ρ (Var.H_L_FG_min l t) + q * ρ (Var.Y l t)
                         - ρ (Var.H_F l t))%Q)
      else
        min_def !! pyomo.at_ l t = None ∧ Q_min_res !! pyomo.at_ l t = None.
Proof.
  intros H Hgroup HT Hn Ht l.
  destruct (chp_created _ _ _ H)
    as (? & ? & ? & ? & ? & ? & ? & max_def & ? & min_def & Q_min_res
        & _ & _ & _ & _ & _ & _ & _ & Hmax & _ & Hmin & Hres & Hblock).
  destruct (chp_constraint_at _ _ _ _ n t Hmax) as (cmax & Hcmax & Hsmax);
    [done..|].
  destruct (chp_constraint_at _ _ _ _ n t Hmin) as (cmin & Hcmin & Hsmin);
    [done..|].
  destruct (chp_constraint_at _ _ _ _ n t Hres) as (cres & Hcres & Hsres);
    [done..|].
  unfold _H_L_FG_max_rule in Hcmax. unfold _H_L_FG_min_rule in Hcmin.
  unfold _Q_min_res_rule in Hcres.
  cbn [fst snd] in Hcmax, Hcmin, Hcres.
  fold l in Hsmax, Hsmin, Hsres, Hcmax, Hcmin, Hcres.
  apply bind_is_Ok in Hcmax as (share_max & Hshare_max & [= <-]).
  apply bind_is_Ok in Hcmin as (declared & Hdeclared & Hcmin).
  rewrite Hdeclared, bind_Ok in Hcres.
  eexists max_def, min_def, Q_min_res, _, share_max, declared.
  rewrite Hblock.
  split; [by simplify_map_eq|]. split; [by simplify_map_eq|].
  split; [by simplify_map_eq|].
  split; [exact Hsmax|]. split; [done|].
  split. { intros ρ. unfold pyomo.holds. simpl. split; intros; lra. }
  split; [done|].
  destruct declared.
  - apply bind_is_Ok in Hcmin as (share_min & Hshare_min & [= <-]).
    apply bind_is_Ok in Hcres as (q & Hq & [= <-]).
    eexists _, _, share_min, q.
    split; [exact Hsmin|]. split; [exact Hsres|].
    split; [done|]. split; [done|].
    intros ρ. unfold pyomo.holds. simpl. repeat split; intros; lra.
  - injection Hcmin as <-. injection Hcres as <-. done.
Qed.

End chp_block.

(** The plant of the docstring: its coefficients are computed at the first
    access and returned again after the electrical flow was replaced by
    one whose operating points coincide, for which the computation
    raises. *)
Lemma alphas_cached_witness :
  ∃ self' a,
    GenericCHP.alphas examples.ccet = (self', Ok a)
    ∧ GenericCHP._alphas self' = Some a
    ∧ let later :=
        {| GenericCHP.label := GenericCHP.label self';
           GenericCHP.fuel_input := GenericCHP.fuel_input self';
           GenericCHP.electrical_output :=
             [("electricityBus", examples.one_point_power)];
           GenericCHP.heat_output := GenericCHP.heat_output self';
           GenericCHP.Beta := GenericCHP.Beta self';
           GenericCHP.back_pressure := GenericCHP.back_pressure self';
           GenericCHP._alphas := GenericCHP._alphas self' |} in
      GenericCHP.alphas later = (later, Ok a)
      ∧ (GenericCHP.calculate_alphas examples.one_point_power).2
        = Raise LinAlgError.
Proof.
  assert (succeeds (GenericCHP.alphas examples.ccet).2 = true) as Hok
    by (vm_compute; reflexivity).
  destruct (GenericCHP.alphas examples.ccet) as [self' [a|e]] eqn:Halphas;
    [clear Hok|discriminate Hok].
  destruct (alphas_cached _ _ _ Halphas) as [Hcache Hlater].
  exists self', a. split; [reflexivity|]. split; [exact Hcache|].
  intros later. split; [by apply Hlater|reflexivity].
Defined.

(** The plant of the docstring has one operating point: a block over one
    timestep is created, a block over two is not. *)
Lemma chp_block_covers_timesteps_witness :
  (∃ block,
     GenericCHPBlock._create examples.ccet_model (Some [examples.ccet])
     = Ok block
     ∧ plumbing.len (plumbing.PyList [68.787%Q]) = Ok 1%Z
     ∧ GenericCHP.checked_length examples.ccet_power = Ok 1%Z
     ∧ (0 < 1)%Z)
  ∧ GenericCHPBlock._create
      (examples.model examples.no_system 2
         (plumbing.Sequence (plumbing.PyNum 1))
         (Model.FLOWS examples.ccet_model))
      (Some [examples.ccet])
    = Raise IndexError.
Proof.
  split; [|vm_compute; reflexivity].
  run (GenericCHPBlock._create examples.ccet_model (Some [examples.ccet]))
    created Hcreate.
  exists created. split; [reflexivity|].
  destruct (chp_block_covers_timesteps examples.ccet_model [examples.ccet]
              created examples.ccet 0 "electricityBus" examples.ccet_power []
              Hcreate)
    as (a & l & Ha & Hl & Hlen & Hlt).
  { apply NoDup_singleton. }
  { apply NoDup_singleton. }
  { by apply list_elem_of_singleton. }
  { by apply list_elem_of_singleton. }
  { done. }
  { reflexivity. }
  { reflexivity. }
  vm_compute in Ha. injection Ha as <-.
  vm_compute in Hl. injection Hl as <-.
  split; [reflexivity|]. split; [exact Hlen|exact Hlt].
Defined.

(** The plant of the docstring over one timestep: its three variables are
    the flows from the commodity bus and to the heat and electricity
    buses. *)
Lemma chp_variables_are_flows_witness :
  let l := "combined_cycle_extraction_turbine" in
  ∃ created H_flow Q_flow P_flow cH cQ cP,
    GenericCHPBlock._create examples.ccet_model (Some [examples.ccet])
    = Ok created
    ∧ Block.constraints created !! "H_flow" = Some H_flow
    ∧ Block.constraints created !! "Q_flow" = Some Q_flow
    ∧ Block.constraints created !! "P_flow" = Some P_flow
    ∧ H_flow !! pyomo.at_ l 0 = Some cH
    ∧ Q_flow !! pyomo.at_ l 0 = Some cQ
    ∧ P_flow !! pyomo.at_ l 0 = Some cP
    ∧ ∀ ρ,
        (pyomo.holds ρ cH
         ↔ (ρ (Var.H_F l 0) == ρ (Var.flow "commodityBus" l 0))%Q)
        ∧ (pyomo.holds ρ cQ
           ↔ (ρ (Var.Q l 0) == ρ (Var.flow l "heatBus" 0))%Q)
        ∧ (pyomo.holds ρ cP
           ↔ (ρ (Var.P l 0) == ρ (Var.flow l "electricityBus" 0))%Q).
Proof.
  intros l.
  run (GenericCHPBlock._create examples.ccet_model (Some [examples.ccet]))
    created Hcreate.
  destruct (chp_variables_are_flows examples.ccet_model [examples.ccet]
              created examples.ccet 0 Hcreate)
    as (H_flow & Q_flow & P_flow & cH & cQ & cP & fuel & heat & power
        & HbH & HbQ & HbP & HcH & HcQ & HcP & Hfuel & Hheat & Hpower
        & _ & _ & _ & Hholds).
  { apply NoDup_singleton. }
  { apply NoDup_singleton. }
  { by apply list_elem_of_singleton. }
  { by apply list_elem_of_singleton. }
  injection Hfuel as <-. injection Hheat as <-. injection Hpower as <-.
  exists created, H_flow, Q_flow, P_flow, cH, cQ, cP.
  split; [reflexivity|]. do 6 (split; [assumption|]). exact Hholds.
Defined.

(** The plant of the docstring over one timestep: the two constraints are
    stated with its coefficients. *)
Lemma chp_fuel_of_power_witness :
  let l := "combined_cycle_extraction_turbine" in
  ∃ created H_F_1 H_F_2 c1 c2 a0 a1,
    GenericCHPBlock._create examples.ccet_model (Some [examples.ccet])
    = Ok created
    ∧ Block.constraints created !! "H_F_1" = Some H_F_1
    ∧ Block.constraints created !! "H_F_2" = Some H_F_2
    ∧ H_F_1 !! pyomo.at_ l 0 = Some c1
    ∧ H_F_2 !! pyomo.at_ l 0 = Some c2
    ∧ GenericCHPBlock.alpha examples.ccet false 0 = Ok a0
    ∧ GenericCHPBlock.alpha examples.ccet true 0 = Ok a1
    ∧ ∀ ρ,
        (pyomo.holds ρ c1
         ↔ (ρ (Var.H_F l 0)
            == a0 * ρ (Var.Y l 0) + a1 * ρ (Var.P_woDH l 0))%Q)
        ∧ (pyomo.holds ρ c2
           ↔ (ρ (Var.H_F l 0)
              == a0 * ρ (Var.Y l 0)
                 + a1 * (ρ (Var.P l 0) + 0.122 * ρ (Var.Q l 0)))%Q)
        ∧ (pyomo.holds ρ c1 → pyomo.holds ρ c2 →
           (a1 * ρ (Var.P_woDH l 0)
            == a1 * (ρ (Var.P l 0) + 0.122 * ρ (Var.Q l 0)))%Q).
Proof.
  intros l.
  run (GenericCHPBlock._create examples.ccet_model (Some [examples.ccet]))
    created Hcreate.
  destruct (chp_fuel_of_power examples.ccet_model [examples.ccet]
              created examples.ccet 0 Hcreate)
    as (H_F_1 & H_F_2 & c1 & c2 & a0 & a1 & beta
        & Hb1 & Hb2 & Hc1 & Hc2 & Ha0 & Ha1 & Hbeta & Hholds).
  { apply NoDup_singleton. }
  { apply NoDup_singleton. }
  { by apply list_elem_of_singleton. }
  { by apply list_elem_of_singleton. }
  injection Hbeta as <-.
  exists created, H_F_1, H_F_2, c1, c2, a0, a1.
  split; [reflexivity|]. do 6 (split; [assumption|]). exact Hholds.
Defined.

(** The plant of the docstring over one timestep: its fuel flow lies
    between [Y * 68.787/0.444] and [Y * 155.946/0.525]. *)
Lemma chp_operating_range_witness :
  let l := "combined_cycle_extraction_turbine" in
  ∃ created H_F_3 H_F_4 c3 c4,
    GenericCHPBlock._create examples.ccet_model (Some [examples.ccet])
    = Ok created
    ∧ Block.constraints created !! "H_F_3" = Some H_F_3
    ∧ Block.constraints created !! "H_F_4" = Some H_F_4
    ∧ H_F_3 !! pyomo.at_ l 0 = Some c3
    ∧ H_F_4 !! pyomo.at_ l 0 = Some c4
    ∧ ∀ ρ,
        (pyomo.holds ρ c3
         ↔ (ρ (Var.H_F l 0) <= ρ (Var.Y l 0) * (155.946 / 0.525))%Q)
        ∧ (pyomo.holds ρ c4
           ↔ (ρ (Var.Y l 0) * (68.787 / 0.444) <= ρ (Var.H_F l 0))%Q)
        ∧ (pyomo.holds ρ c3 → pyomo.holds ρ c4 →
           (ρ (Var.Y l 0) == 0)%Q → (ρ (Var.H_F l 0) == 0)%Q).
Proof.
  intros l.
  run (GenericCHPBlock._create examples.ccet_model (Some [examples.ccet]))
    created Hcreate.
  destruct (chp_operating_range examples.ccet_model [examples.ccet]
              created examples.ccet 0 Hcreate)
    as (H_F_3 & H_F_4 & c3 & c4 & p_min & eta_min & p_max & eta_max
        & Hb3 & Hb4 & Hc3 & Hc4 & Hp_min & Heta_min & Hp_max & Heta_max
        & _ & _ & Hholds).
  { apply NoDup_singleton. }
  { apply NoDup_singleton. }
  { by apply list_elem_of_singleton. }
  { by apply list_elem_of_singleton. }
  injection Hp_min as <-. injection Heta_min as <-.
  injection Hp_max as <-. injection Heta_max as <-.
  exists created, H_F_3, H_F_4, c3, c4.
  split; [reflexivity|]. do 4 (split; [assumption|]). exact Hholds.
Defined.

(** The plant of the docstring, whose fuel flow has no
    [H_L_FG_share_min]: the maximal loss is 0.183 of the fuel flow, and the
    block has neither a [H_L_FG_min_def] nor a [Q_min_res] for it. *)
Lemma chp_flue_gas_losses_witness :
  let l := "combined_cycle_extraction_turbine" in
  ∃ created max_def min_def Q_min_res cmax,
    GenericCHPBlock._create examples.ccet_model (Some [examples.ccet])
    = Ok created
    ∧ Block.constraints created !! "H_L_FG_max_def" = Some max_def
    ∧ Block.constraints created !! "H_L_FG_min_def" = Some min_def
    ∧ Block.constraints created !! "Q_min_res" = Some Q_min_res
    ∧ max_def !! pyomo.at_ l 0 = Some cmax
    ∧ (∀ ρ, pyomo.holds ρ cmax
            ↔ (ρ (Var.H_L_FG_max l 0) == ρ (Var.H_F l 0) * 0.183)%Q)
    ∧ min_def !! pyomo.at_ l 0 = None
    ∧ Q_min_res !! pyomo.at_ l 0 = None.
Proof.
  intros l.
  run (GenericCHPBlock._create examples.ccet_model (Some [examples.ccet]))
    created Hcreate.
  destruct (chp_flue_gas_losses examples.ccet_model [examples.ccet]
              created examples.ccet 0 Hcreate)
    as (max_def & min_def & Q_min_res & cmax & share_max & declared
        & Hbmax & Hbmin & Hbres & Hcmax & Hshare & Hholds & Hdeclared
        & Hmin).
  { apply NoDup_singleton. }
  { apply NoDup_singleton. }
  { by apply list_elem_of_singleton. }
  { by apply list_elem_of_singleton. }
  injection Hshare as <-.
  vm_compute in Hdeclared. injection Hdeclared as <-.
  destruct Hmin as [Hmin Hres].
  exists created, max_def, min_def, Q_min_res, cmax.
  split; [reflexivity|]. do 4 (split; [assumption|]).
  split; [exact Hholds|]. split; assumption.
Defined.

(** ** The constructor of [GenericStorage] without an investment *)

Section GenericStorage_plain.
Import GenericStorage.

(** Without an investment, the body of either loop refuses a flow with a
    nominal value when the ratio is given, and otherwise sets the nominal
    value of the flow to [ratio * nominal_capacity]. *)
Lemma check_flow_plain self ratio r (h : heap) f :
  investment self = None → h !! r = Some f →
  check_flow self ratio r h
  = match ratio with
    | None => (h, Ok ())
    | Some x =>
        if not_None (Flow.nominal_value f) then (h, Raise AttributeError)
        else match nominal_capacity self with
             | Some c =>
                 (<[r := Flow.set_nominal_value (Some (x * c)%Q) f]> h, Ok ())
             | None => (h, Raise TypeError)
             end
    end.
Proof.
  intros Hi Hr. unfold check_flow. rewrite Hr, Hi. cbn [not_None andb negb].
  destruct ratio as [x|].
  - destruct (Flow.nominal_value f); cbn [not_None andb]; [done|].
    by destruct (nominal_capacity self).
  - rewrite andb_false_r. cbn [not_None andb]. by rewrite insert_id.
Qed.

Lemma check_flows_unsized self flows (h h' : heap) :
  investment self = None →
  check_flows self None flows h = (h', Ok ()) → h' = h.
Proof.
  intros Hi. revert h. induction flows as [|r flows IH]; intros h H.
  - by injection H as <-.
  - cbn [check_flows] in H. unfold mbind, method_bind in H.
    destruct (h !! r) as [f|] eqn:Hr;
      [|by unfold check_flow in H; rewrite Hr in H].
    rewrite (check_flow_plain _ _ _ _ f) in H by done. by apply IH.
Qed.

Lemma check_flows_sized self x flows (h h' : heap) :
  investment self = None →
  check_flows self (Some x) flows h = (h', Ok ()) →
  (∀ r, r ∈ flows →
     ∃ f c, h !! r = Some f ∧ Flow.nominal_value f = None
            ∧ nominal_capacity self = Some c
            ∧ h' !! r = Some (Flow.set_nominal_value (Some (x * c)%Q) f))
  ∧ (∀ r, r ∉ flows → h' !! r = h !! r).
Proof.
  intros Hi. revert h. induction flows as [|r flows IH]; intros h H.
  - injection H as <-. split; [by intros r ?%elem_of_nil|done].
  - cbn [check_flows] in H. unfold mbind, method_bind in H.
    destruct (h !! r) as [f|] eqn:Hr;
      [|by unfold check_flow in H; rewrite Hr in H].
    rewrite (check_flow_plain _ _ _ _ f) in H by done.
    destruct (Flow.nominal_value f) eqn:Hnv; cbn [not_None] in H; [done|].
    destruct (nominal_capacity self) as [c|] eqn:Hc; [|done].
    apply IH in H as [Hin Hout].
    assert (r ∉ flows) as Hfresh.
    { intros Hr'. destruct (Hin r Hr') as (f' & c' & Hf' & Hnv' & _).
      rewrite lookup_insert_eq in Hf'. by injection Hf' as <-. }
    split.
    + intros r' [->|Hr']%elem_of_cons.
      * exists f, c. rewrite (Hout r Hfresh), lookup_insert_eq. done.
      * destruct (Hin r' Hr') as (f' & c' & Hf' & Hnv' & Hc' & Hh').
        rewrite lookup_insert_ne in Hf' by congruence.
        by exists f', c'.
    + intros r' [Hne Hr']%not_elem_of_cons.
      by rewrite (Hout r' Hr'), lookup_insert_ne.
Qed.

(** With every reference in the heap, a loop without a ratio changes
    nothing and ends normally. *)
Lemma check_flows_unsized_total self flows (h : heap) :
  investment self = None →
  (∀ r, r ∈ flows → is_Some (h !! r)) →
  check_flows self None flows h = (h, Ok ()).
Proof.
  intros Hi. induction flows as [|r flows IH]; intros Hheap; [done|].
  cbn [check_flows]. unfold mbind, method_bind.
  destruct (Hheap r) as [f Hr]; [left|].
  rewrite (check_flow_plain _ _ _ _ f) by done.
  apply IH. intros r' Hr'. apply Hheap. by right.
Qed.

(** With every reference in the heap and a nominal capacity, a loop ends
    normally, or with [AttributeError] when it meets a flow with a nominal
    value. *)
Lemma check_flows_sized_raises self x c flows (h : heap) :
  investment self = None → nominal_capacity self = Some c →
  (∀ r, r ∈ flows → is_Some (h !! r)) →
  (∃ r f, r ∈ flows ∧ h !! r = Some f ∧ Flow.nominal_value f ≠ None) →
  (check_flows self (Some x) flows h).2 = Raise AttributeError.
Proof.
  intros Hi Hc. revert h. induction flows as [|r flows IH]; intros h Hheap Hbad.
  - destruct Hbad as (r & f & []%elem_of_nil & _).
  - cbn [check_flows]. unfold mbind, method_bind.
    destruct (Hheap r) as [f Hr]; [left|].
    rewrite (check_flow_plain _ _ _ _ f) by done. rewrite Hc.
    destruct (Flow.nominal_value f) eqn:Hnv; cbn [not_None]; [done|].
    apply IH.
    + intros r' Hin. apply lookup_insert_is_Some'. right.
      apply Hheap. by right.
    + destruct Hbad as (r' & f' & Hin & Hr' & Hnv').
      apply elem_of_cons in Hin as [->|Hin]; [congruence|].
      destruct (decide (r' = r)) as [->|Hne].
      * exists r. eexists. split; [done|]. rewrite lookup_insert_eq.
        split; [done|]. done.
      * exists r', f'. by rewrite lookup_insert_ne.
Qed.

Lemma check_flows_plain_result self ratio c flows (h : heap) :
  investment self = None → nominal_capacity self = Some c →
  (∀ r, r ∈ flows → is_Some (h !! r)) →
  (check_flows self ratio flows h).2 = Ok ()
  ∨ (check_flows self ratio flows h).2 = Raise AttributeError.
Proof.
  intros Hi Hc. destruct ratio as [x|];
    [|intros Hheap; left; by rewrite check_flows_unsized_total].
  revert h. induction flows as [|r flows IH]; intros h Hheap.
  - by left.
  - cbn [check_flows]. unfold mbind, method_bind.
    destruct (Hheap r) as [f Hr]; [left|].
    rewrite (check_flow_plain _ _ _ _ f) by done. rewrite Hc.
    destruct (Flow.nominal_value f) eqn:Hnv; cbn [not_None]; [by right|].
    apply IH. intros r' Hin. apply lookup_insert_is_Some'. right.
    apply Hheap. by right.
Qed.

(** A loop that ran to its end removed no flow and no nominal value. *)
Lemma check_flows_plain_keeps self ratio flows (h h' : heap) r f :
  investment self = None →
  check_flows self ratio flows h = (h', Ok ()) →
  h !! r = Some f →
  ∃ f', h' !! r = Some f'
        ∧ (Flow.nominal_value f ≠ None → Flow.nominal_value f' ≠ None).
Proof.
  intros Hi H Hf. destruct ratio as [x|].
  - destruct (check_flows_sized _ _ _ _ _ Hi H) as [Hin Hout].
    destruct (decide (r ∈ flows)) as [Hr|Hr].
    + destruct (Hin r Hr) as (f0 & c & _ & _ & _ & ->). by eexists.
    + rewrite (Hout r Hr). by exists f.
  - apply check_flows_unsized in H as ->; [|done]. by exists f.
Qed.

(** X17. A [GenericStorage] without an investment. When its construction
    returns, every input flow, if [nominal_input_capacity_ratio] is given,
    and every output flow, if [nominal_output_capacity_ratio] is given, had
    no nominal value and has received [ratio * nominal_capacity]; every
    other flow of the heap is as it was. With a nominal capacity and every
    flow in place, the construction raises [AttributeError] when a flow
    whose ratio is given has a nominal value already. Without a nominal
    capacity it raises [TypeError] at the first input flow to be sized. *)
Theorem storage_flows_sized kw (h : heap) :
  kw_investment kw = None →
  let ins := py.values (kw_inputs kw) in
  let outs := py.values (kw_outputs kw) in
  let ratio_in := kw_nominal_input_capacity_ratio kw in
  let ratio_out := kw_nominal_output_capacity_ratio kw in
  (∀ h' self,
     __init__ kw h = (h', Ok self) →
     self = attributes kw
     ∧ (∀ r x,
          (ratio_in = Some x ∧ r ∈ ins) ∨ (ratio_out = Some x ∧ r ∈ outs) →
          ∃ f c, h !! r = Some f ∧ Flow.nominal_value f = None
                 ∧ kw_nominal_capacity kw = Some c
                 ∧ h' !! r
                   = Some (Flow.set_nominal_value (Some (x * c)%Q) f))
     ∧ (∀ r, (ratio_in = None ∨ r ∉ ins) → (ratio_out = None ∨ r ∉ outs) →
          h' !! r = h !! r))
  ∧ (∀ c, kw_nominal_capacity kw = Some c →
       (∀ r, r ∈ ins ++ outs → is_Some (h !! r)) →
       (∃ r f, (ratio_in ≠ None ∧ r ∈ ins ∨ ratio_out ≠ None ∧ r ∈ outs)
               ∧ h !! r = Some f ∧ Flow.nominal_value f ≠ None) →
       (__init__ kw h).2 = Raise AttributeError)
  ∧ (∀ x r rest f,
       kw_nominal_capacity kw = None → ratio_in = Some x →
       ins = r :: rest → h !! r = Some f → Flow.nominal_value f = None →
       (__init__ kw h).2 = Raise TypeError).
Proof.
  intros Hi ins outs ratio_in ratio_out. unfold __init__. cbv zeta.
  match goal with
  | |- context [check_flows ?s _ (py.values (inputs _))] => set (self := s)
  end.
  assert (investment self = None) as Hself by done.
  rewrite Hself. cbn [not_None andb].
  change (py.values (inputs self)) with ins.
  change (py.values (outputs self)) with outs.
  change (nominal_input_capacity_ratio self) with ratio_in.
  change (nominal_output_capacity_ratio self) with ratio_out.
  unfold mbind, method_bind.
  destruct (check_flows self ratio_in ins h) as [h1 r1] eqn:H1.
  split; [|split].
  - intros h' self' Hinit.
    destruct r1 as [[]|e]; [|done].
    destruct (check_flows self ratio_out outs h1) as [h2 r2] eqn:H2.
    destruct r2 as [[]|e]; [|done].
    injection Hinit as <- <-. split; [done|].
    assert (match ratio_in with
            | Some x =>
                (∀ r, r ∈ ins →
                   ∃ f c, h !! r = Some f ∧ Flow.nominal_value f = None
                          ∧ nominal_capacity self = Some c
                          ∧ h1 !! r
                            = Some (Flow.set_nominal_value (Some (x * c)%Q) f))
                ∧ (∀ r, r ∉ ins → h1 !! r = h !! r)
            | None => h1 = h
            end) as Hin.
    { destruct ratio_in as [x|].
      - by apply (check_flows_sized self x ins h h1).
      - by apply (check_flows_unsized self ins h h1). }
    assert (match ratio_out with
            | Some y =>
                (∀ r, r ∈ outs →
                   ∃ f c, h1 !! r = Some f ∧ Flow.nominal_value f = None
                          ∧ nominal_capacity self = Some c
                          ∧ h2 !! r
                            = Some (Flow.set_nominal_value (Some (y * c)%Q) f))
                ∧ (∀ r, r ∉ outs → h2 !! r = h1 !! r)
            | None => h2 = h1
            end) as Hout.
    { destruct ratio_out as [y|].
      - by apply (check_flows_sized self y outs h1 h2).
      - by apply (check_flows_unsized self outs h1 h2). }
    clear H1 H2. split.
    + intros r x [[-> Hr]|[-> Hr]].
      * destruct Hin as [Hin _].
        destruct (Hin r Hr) as (f & c & Hf & Hnv & Hc & Hh1).
        exists f, c. do 3 (split; [done|]).
        destruct ratio_out as [y|]; [|by subst h2].
        destruct Hout as [Hout Hother].
        destruct (decide (r ∈ outs)) as [Hr'|Hr']; [|by rewrite Hother].
        destruct (Hout r Hr') as (f' & c' & Hf' & Hnv' & _).
        rewrite Hh1 in Hf'. by injection Hf' as <-.
      * destruct Hout as [Hout _].
        destruct (Hout r Hr) as (f & c & Hf & Hnv & Hc & Hh2).
        exists f, c. split; [|done].
        destruct ratio_in as [y|]; [|by subst h1].
        destruct Hin as [Hin Hother].
        destruct (decide (r ∈ ins)) as [Hr'|Hr']; [|by rewrite <- Hother].
        destruct (Hin r Hr') as (f' & c' & Hf' & Hnv' & _ & Hh1).
        rewrite Hh1 in Hf. by injection Hf as <-.
    + intros r Hrin Hrout.
      assert (h1 !! r = h !! r) as <-.
      { destruct ratio_in as [x|]; [|by subst h1].
        destruct Hrin as [|Hrin]; [done|]. by apply Hin. }
      destruct ratio_out as [y|]; [|by subst h2].
      destruct Hrout as [|Hrout]; [done|]. by apply Hout.
  - intros c Hc Hheap Hbad.
    assert (nominal_capacity self = Some c) as Hcap by done.
    assert (∀ r, r ∈ ins → is_Some (h !! r)) as Hheap_in
      by (intros r Hr; apply Hheap, elem_of_app; by left).
    assert (∀ r, r ∈ outs → is_Some (h !! r)) as Hheap_out
      by (intros r Hr; apply Hheap, elem_of_app; by right).
    destruct (check_flows_plain_result self ratio_in c ins h Hself Hcap
                Hheap_in) as [Hr1|Hr1];
      rewrite H1 in Hr1; cbn [snd] in Hr1; subst r1; [|done].
    destruct Hbad as (r & f & [[Hratio Hr]|[Hratio Hr]] & Hf & Hnv).
    + destruct ratio_in as [x|]; [|done].
      pose proof (check_flows_sized_raises self x c ins h Hself Hcap
                    Hheap_in) as Hraise.
      rewrite H1 in Hraise. cbn [snd] in Hraise.
      discriminate Hraise. by exists r, f.
    + destruct ratio_out as [y|]; [|done].
      pose proof (check_flows_sized_raises self y c outs h1 Hself Hcap)
        as Hraise.
      destruct (check_flows self (Some y) outs h1) as [h2 r2].
      cbn [snd] in *. rewrite Hraise; [done| |].
      * intros r' Hr'. destruct (Hheap_out r' Hr') as [f' Hf'].
        destruct (check_flows_plain_keeps _ _ _ _ _ _ _ Hself H1 Hf')
          as (f1 & -> & _). by eexists.
      * destruct (check_flows_plain_keeps _ _ _ _ _ _ _ Hself H1 Hf)
          as (f1 & Hf1 & Hkeep).
        exists r, f1. split; [done|]. split; [done|]. by apply Hkeep.
  - intros x r rest f Hc Hx Hins Hr Hnv.
    assert (nominal_capacity self = None) as Hcap by done.
    revert H1. rewrite Hx, Hins.
    cbn [check_flows]. unfold mbind, method_bind.
    rewrite (check_flow_plain _ _ _ _ f) by done.
    rewrite Hnv, Hcap. cbn [not_None]. by intros [= <- <-].
Qed.

End GenericStorage_plain.

(** The storage of the docstring: both flows receive [1/6 * 1000], the
    flows of the other storage are as they were; when the input flow has a
    nominal value of its own, the construction raises. *)
Lemma storage_flows_sized_witness :
  (∃ h' self,
     GenericStorage.__init__ examples.my_storage_kwargs examples.my_flows
     = (h', Ok self)
     ∧ self = examples.my_storage
     ∧ h' !! 0
       = Some (Flow.set_nominal_value (Some ((1 # 6) * 1000)%Q)
                 (examples.flow_with []))
     ∧ h' !! 1
       = Some (Flow.set_nominal_value (Some ((1 # 6) * 1000)%Q)
                 (examples.flow_with []))
     ∧ h' !! 2 = examples.my_flows !! 2)
  ∧ (GenericStorage.__init__ examples.my_storage_kwargs
       (<[0 := Flow.set_nominal_value (Some 5%Q) (examples.flow_with [])]>
          examples.my_flows)).2
    = Raise AttributeError.
Proof.
  split.
  - destruct (storage_flows_sized examples.my_storage_kwargs
                examples.my_flows eq_refl) as (Hok & _ & _).
    assert (succeeds (GenericStorage.__init__ examples.my_storage_kwargs
                        examples.my_flows).2 = true) as Hrun
      by (vm_compute; reflexivity).
    destruct (GenericStorage.__init__ examples.my_storage_kwargs
                examples.my_flows) as [h' [self|e]] eqn:Hinit;
      [clear Hrun|discriminate Hrun].
    destruct (Hok h' self eq_refl) as (Hself & Hsized & Hother).
    exists h', self. split; [reflexivity|]. split; [exact Hself|].
    split; [|split].
    + destruct (Hsized 0 (1 # 6)%Q) as (f & c & Hf & _ & Hc & Hh').
      { left. split; [reflexivity|]. by apply list_elem_of_singleton. }
      vm_compute in Hf. injection Hf as <-. injection Hc as <-.
      rewrite Hh'. reflexivity.
    + destruct (Hsized 1 (1 # 6)%Q) as (f & c & Hf & _ & Hc & Hh').
      { right. split; [reflexivity|]. by apply list_elem_of_singleton. }
      vm_compute in Hf. injection Hf as <-. injection Hc as <-.
      rewrite Hh'. reflexivity.
    + apply Hother; right; intros Hr; apply list_elem_of_singleton in Hr;
        discriminate Hr.
  - destruct (storage_flows_sized examples.my_storage_kwargs
                (<[0 := Flow.set_nominal_value (Some 5%Q)
                          (examples.flow_with [])]> examples.my_flows)
                eq_refl) as (_ & Hraise & _).
    apply (Hraise 1000%Q eq_refl).
    + intros r [Hr|Hr]%elem_of_app; apply list_elem_of_singleton in Hr;
        subst r; vm_compute; eexists; reflexivity.
    + exists 0, (Flow.set_nominal_value (Some 5%Q) (examples.flow_with [])).
      split; [left; split; [discriminate|by apply list_elem_of_singleton]|].
      split; [apply lookup_insert_eq|discriminate].
Defined.

(** ** The constructor of [OperationalModel]: a group named twice *)

Section OperationalModel_duplicates.
Variable blocks_create : klass.t → Model.t → result Block.t.
Variable blocks_objective : klass.t → Model.t → result pyomo.expr.

Local Abbreviation init :=
  (OperationalModel.__init__ blocks_create blocks_objective).

(** The loop over the groups enters every group once. *)
Lemma create_blocks_NoDup groups m m' :
  OperationalModel.create_blocks blocks_create groups m = Ok m' →
  NoDup (py.keys (Model.components m)) →
  NoDup (py.keys (Model.components m) ++ groups).
Proof.
  revert m. induction groups as [|g groups IH]; intros m H Hnd.
  - by rewrite app_nil_r.
  - cbn [OperationalModel.create_blocks] in H.
    apply bind_is_Ok in H as (m1 & Hadd & H).
    apply bind_is_Ok in H as (filled & _ & H).
    apply add_component_Ok in Hadd as [Hfresh ->].
    apply IH in H.
    + rewrite fill_component_keys in H. cbn in H.
      unfold py.keys in H. rewrite fmap_app in H. cbn in H.
      by rewrite <- app_assoc in H.
    + rewrite fill_component_keys. cbn. unfold py.keys.
      rewrite fmap_app. apply NoDup_app. split; [done|].
      split; [|apply NoDup_singleton].
      intros k Hk ->%list_elem_of_singleton. by apply Hfresh.
Qed.

(** X18. The constructor returns no model when the list of the class,
    extended by [constraint_groups], names a block class twice: the model
    cannot hold two blocks of one name. A construction that names a group
    therefore fails when it is repeated with the same keyword, the list of
    the class having kept the group of the first. *)
Theorem init_refuses_duplicate_groups es kw shared :
  (¬ NoDup (shared ++ default [] (OperationalModel.constraint_groups kw)) →
   ¬ is_Ok (init es kw shared).2)
  ∧ ∀ es' index added g,
      OperationalModel.timeindex kw = Some index →
      OperationalModel.constraint_groups kw = Some added → g ∈ added →
      ¬ is_Ok (init es' kw (init es kw shared).1).2.
Proof.
  assert (∀ es shared,
            ¬ NoDup (shared
                     ++ default [] (OperationalModel.constraint_groups kw)) →
            ¬ is_Ok (init es kw shared).2) as Hdup.
  { clear es shared. intros es shared Hdup [[m objective] Hok].
    apply Hdup. revert Hok. unfold OperationalModel.__init__.
    destruct (OperationalModel.timeindex kw) as [index|]; [|done].
    cbn [snd]. intros Hok.
    apply bind_is_Ok in Hok as (previous & _ & Hok).
    apply bind_is_Ok in Hok as (m' & Hblocks & _).
    apply create_blocks_NoDup in Hblocks; [done|]. constructor. }
  split; [apply Hdup|].
  intros es' index added g Hindex Hadded Hg. apply Hdup.
  rewrite (init_shared _ _ _ _ _ index Hindex), Hadded. cbn [default].
  intros Hnd. apply NoDup_app in Hnd as (_ & Hdisjoint & _).
  apply (Hdisjoint g); [|done]. apply elem_of_app. by right.
Qed.

End OperationalModel_duplicates.

(** Two constructions with [constraint_groups=[GenericStorageBlock]]: the
    first returns a model, the second raises [RuntimeError]. *)
Lemma init_refuses_duplicate_groups_witness :
  let hourly := {| OperationalModel.periods := 1;
                   OperationalModel.nanos := 3600000000000 |} in
  let kw := {| OperationalModel.timeindex := Some hourly;
               OperationalModel.constraint_groups :=
                 Some [klass.GenericStorageBlock] |} in
  let init :=
    OperationalModel.__init__ examples.no_blocks_create
      examples.no_blocks_objective examples.no_system kw in
  let first := init OperationalModel.CONSTRAINT_GROUPS in
  succeeds first.2 = true
  ∧ ¬ is_Ok (init first.1).2
  ∧ (init first.1).2 = Raise RuntimeError.
Proof.
  intros hourly kw init first.
  split; [vm_compute; reflexivity|]. split; [|vm_compute; reflexivity].
  destruct (init_refuses_duplicate_groups examples.no_blocks_create
              examples.no_blocks_objective examples.no_system kw
              OperationalModel.CONSTRAINT_GROUPS) as [_ Htwice].
  apply (Htwice examples.no_system hourly [klass.GenericStorageBlock]
           klass.GenericStorageBlock eq_refl eq_refl).
  by apply list_elem_of_singleton.
Defined.
